(** * Sentinel: the dual-model inference pipeline

    A shallow embedding of the backend's detection pipeline
    ([controllers/detectionController.js], [utils/modelInitialization.js],
    [utils/imageProcessor.js]) and the properties its specification states,
    followed by the rest of the model manager, the health check and the
    camera-stream route of [routes/detectionRoutes.js] with properties
    read off the code.

    JavaScript numbers are IEEE-754 values ([spec_float]); the model cache,
    the file system and the live tensors are finite maps of an explicit
    world; an asynchronous function is a tree of operations on that world,
    run alone from call to settlement or interleaved with others at its
    [await]s; the answers of the external libraries (fs, sharp,
    TensorFlow.js) are supplied by an environment. Console logging is left
    out. *)

From Stdlib Require Import ZArith Bool Ascii SpecFloat.
From stdpp Require Import gmap strings list fin_maps pretty.

Open Scope string_scope.
Open Scope Z_scope.

(** ** JavaScript values used by the pipeline *)

Module JS.

(** A Number: sign bit [true] is negative. *)
Definition number := spec_float.

Definition NaN : number := S754_nan.
Definition neg_Infinity : number := S754_infinity true.

(** What an expression can hold where the code reads a typed array:
    a Number, or [undefined] for a read outside the array. *)
Inductive value :=
| VNum (n : number)
| VUndefined.

Definition ToNumber (v : value) : number :=
  match v with
  | VNum n => n
  | VUndefined => NaN
  end.

(** [x > y] on values: both sides go through ToNumber; any NaN gives
    [false]. *)
Definition gt (x y : value) : bool := SFltb (ToNumber y) (ToNumber x).

(** One step of Math.max: NaN is absorbing, +0 is larger than -0. *)
Definition max_step (highest n : number) : number :=
  match highest, n with
  | S754_nan, _ => NaN
  | _, S754_nan => NaN
  | S754_zero true, S754_zero false => S754_zero false
  | _, _ => if SFltb highest n then n else highest
  end.

(** [Math.max] of the arguments it is given: -Infinity for none. Whether
    the engine takes the arguments of [Math.max(...data)] at all is
    decided where the spread is made ([spreadMax] below). *)
Definition Math_max (data : list number) : number :=
  fold_left max_step data neg_Infinity.

(** [data.indexOf(x)] on a typed array: the first index whose element is
    strictly equal to [x] (NaN equals nothing, +0 equals -0), or -1. *)
Fixpoint indexOf_from (data : list number) (x : number) (i : Z) : Z :=
  match data with
  | [] => -1
  | y :: rest => if SFeqb y x then i else indexOf_from rest x (i + 1)
  end.

Definition indexOf (data : list number) (x : number) : Z :=
  indexOf_from data x 0.

(** [data[i]] on a typed array: [undefined] outside [0, length). *)
Definition get (data : list number) (i : Z) : value :=
  if i <? 0 then VUndefined
  else match data !! Z.to_nat i with
       | Some n => VNum n
       | None => VUndefined
       end.

(** Truthiness of a string operand of [||]. *)
Definition truthy (s : string) : bool :=
  match s with
  | EmptyString => false
  | _ => true
  end.

(** [o || d] where [o] is a property read (absent is [undefined]). *)
Definition or_else {A} (truthyA : A -> bool) (o : option A) (d : A) : A :=
  match o with
  | Some a => if truthyA a then a else d
  | None => d
  end.

End JS.

(** ** controllers/detectionController.js: the static tables *)

Module Tables.

(** [labelMap]: model output index to disease name. *)
Definition labelMap : gmap Z string :=
  list_to_map
    [ (0, "Early Blight");
      (1, "Healthy");
      (2, "Late Blight");
      (3, "Leaf Miner");
      (4, "Leaf Mold");
      (5, "Mosaic Virus");
      (6, "Septoria");
      (7, "Spider Mites");
      (8, "Yellow Leaf Curl Virus") ].

(** [labelMap[classIndex] || "Unknown"]. *)
Definition diseaseName (classIndex : Z) : string :=
  JS.or_else JS.truthy (labelMap !! classIndex) "Unknown".

End Tables.

(** ** The world the asynchronous code runs in *)

(** A thrown [Error]: only its [message] is observed by the pipeline (the
    stack is attached to responses in development mode only and is left
    out). *)
Record Error := mkError { message : string }.

Inductive result (A : Type) :=
| Ok (a : A)
| Err (e : Error).
Arguments Ok {A} a.
Arguments Err {A} e.

Definition option_of_result {A} (r : result A) : option A :=
  match r with
  | Ok a => Some a
  | Err _ => None
  end.

(** File contents and [Buffer]s are byte sequences. *)
Abbreviation Buffer := (list Z).

(** A loaded [tf.GraphModel]; [mLoad] is the serial number of the
    [tf.loadGraphModel] call that produced it. *)
Record Model := mkModel { mUrl : string; mLoad : nat }.

(** A tensor handle, and what the TensorFlow.js engine keeps for a live
    tensor: its shape and its values by flat index. *)
Definition Tensor := nat.
Record TensorInfo := mkTensor { shape : list Z; values : nat -> JS.number }.

Definition numel (sh : list Z) : nat := Z.to_nat (fold_right Z.mul 1 sh).

(** [await t.data()]: the values as a flat typed array. *)
Definition dataOf (t : TensorInfo) : list JS.number :=
  map (values t) (seq 0 (numel (shape t))).

(** A decoded raster: [pixel] gives the 8-bit channel values in row-major
    HWC order. *)
Record Image := mkImage
  { imgHeight : Z; imgWidth : Z; imgChannels : Z; pixel : nat -> Z }.

(** What [sharp(...).metadata()] reports ([undefined] as [None]). *)
Record Metadata := mkMetadata { metaWidth : option Z; metaHeight : option Z }.

(** The options of [sharp(...).resize(width, height, {fit, background})]. *)
Inductive Fit := FitContain | FitCover | FitFill.
Record ResizeOptions := mkResize
  { rWidth : Z; rHeight : Z; rFit : Fit; rBackground : Z * Z * Z }.

(** How one call of [tf.loadGraphModel] ends, in milliseconds after it
    started. *)
Inductive LoadOutcome :=
| Resolves (after : Z)
| Rejects (after : Z) (msg : string)
| NeverSettles.

(** The external libraries, as the pipeline sees them. *)
Record Env := mkEnv
  { dirname : string;                                  (* __dirname *)
    path_join : string -> string -> string;
    path_resolve : string -> string;
    base64_decode : string -> Buffer;
    loadOutcome : nat -> LoadOutcome;                  (* by load serial *)
    predictOutcome : Model -> TensorInfo -> result TensorInfo;
    sharp_metadata : Buffer -> result Metadata;
    sharp_resize : Buffer -> ResizeOptions -> result Buffer;
    decodeImage : Buffer -> Z -> result Image;
    argumentLimit : Z }.            (* arguments the engine takes in one call *)

(** One entry per operation on the outside world, in program order. *)
Inductive event :=
| EvCacheLookup (name : string)
| EvCacheSet (name : string) (m : Model)
| EvLoadStart (load : nat) (url : string)
| EvLoadSettled (load : nat) (elapsed : Z) (ok : bool)
| EvWait (ms : Z)
| EvAlloc (t : Tensor)
| EvDispose (t : Tensor)
| EvPredict (m : Model) (ok : bool)
| EvData (t : Tensor)
| EvAccess (path : string) (ok : bool)
| EvStat (path : string)
| EvReadFile (path : string)
| EvUnlinkStart (path : string)
| EvMetadata (path : string)
| EvResize (opts : ResizeOptions)
| EvDecode.

Record World := mkWorld
  { files : gmap string Buffer;          (* the file system *)
    modelCache : gmap string Model;      (* const modelCache = new Map() *)
    tensors : gmap nat TensorInfo;       (* live tensors of the tf engine *)
    nextTensor : nat;
    loadsStarted : nat;                  (* calls of tf.loadGraphModel so far *)
    pendingUnlinks : list string;        (* fs.unlink started, not yet settled *)
    clock : Z;                           (* Date.now() *)
    trace : list event }.

Definition log (e : event) (w : World) : World :=
  mkWorld (files w) (modelCache w) (tensors w) (nextTensor w) (loadsStarted w)
          (pendingUnlinks w) (clock w) (trace w ++ [e]).

Definition setFiles (f : gmap string Buffer) (w : World) : World :=
  mkWorld f (modelCache w) (tensors w) (nextTensor w) (loadsStarted w)
          (pendingUnlinks w) (clock w) (trace w).

Definition setCache (c : gmap string Model) (w : World) : World :=
  mkWorld (files w) c (tensors w) (nextTensor w) (loadsStarted w)
          (pendingUnlinks w) (clock w) (trace w).

Definition setTensors (ts : gmap nat TensorInfo) (n : nat) (w : World) : World :=
  mkWorld (files w) (modelCache w) ts n (loadsStarted w)
          (pendingUnlinks w) (clock w) (trace w).

Definition setLoads (n : nat) (w : World) : World :=
  mkWorld (files w) (modelCache w) (tensors w) (nextTensor w) n
          (pendingUnlinks w) (clock w) (trace w).

Definition setPending (l : list string) (w : World) : World :=
  mkWorld (files w) (modelCache w) (tensors w) (nextTensor w) (loadsStarted w)
          l (clock w) (trace w).

Definition advanceClock (ms : Z) (w : World) : World :=
  mkWorld (files w) (modelCache w) (tensors w) (nextTensor w) (loadsStarted w)
          (pendingUnlinks w) (clock w + ms) (trace w).

(** A new live tensor. *)
Definition alloc (info : TensorInfo) (w : World) : Tensor * World :=
  let t := nextTensor w in
  (t, log (EvAlloc t) (setTensors (<[t := info]> (tensors w)) (S t) w)).

(** The event loop settling the unlinks that were started: each removes
    its file (a failure is only logged by the [.catch]). Between the call
    of [fs.unlink] and this point [files] still holds the file; on the
    disk it may be gone at any time after the call. *)
Definition settleUnlinks (w : World) : World :=
  setPending [] (setFiles (foldr delete (files w) (pendingUnlinks w)) w).

(** ** Numbers of the tensor kernels *)

Module F32.
Definition prec : Z := 24.
Definition emax : Z := 128.
(** An integer as a float32 (exact for 8-bit values). *)
Definition of_Z (z : Z) : JS.number := binary_normalize prec emax z 0 false.
Definition div (x y : JS.number) : JS.number := SFdiv prec emax x y.
Definition zero : JS.number := S754_zero false.
Definition one : JS.number := of_Z 1.
End F32.

(** ** Operations and asynchronous programs *)

Definition timeoutMessage (timeout : Z) : string :=
  "Model loading timed out after " ++ pretty timeout ++ "ms".

Definition disposedMessage : string := "Tensor is disposed.".

Definition noSuchFile (path : string) : Error :=
  mkError ("ENOENT: no such file or directory, '" ++ path ++ "'").

(** [Promise.race([load, timeoutPromise])]: the load wins when it settles
    before the timer fires. *)
Definition race (timeout : Z) (o : LoadOutcome) : Z * result unit :=
  match o with
  | Resolves d =>
      if d <? timeout then (d, Ok tt)
      else (timeout, Err (mkError (timeoutMessage timeout)))
  | Rejects d msg =>
      if d <? timeout then (d, Err (mkError msg))
      else (timeout, Err (mkError (timeoutMessage timeout)))
  | NeverSettles => (timeout, Err (mkError (timeoutMessage timeout)))
  end.

(** The operations the three source files perform on the world.
    [CacheLookup] is [modelCache.has] followed by [modelCache.get];
    [TfDivScalar] is [tf.tidy(() => t.div(tf.scalar(d)))], whose scalar is
    gone when [tidy] returns; [FsUnlinkStart] is the call of [fs.unlink]
    and [AwaitUnlinks] the [await Promise.all] over such calls. The
    operations of [is_async] are awaited: the calling function is suspended
    there and other code may run before it resumes. *)
Inductive eff : Type -> Type :=
| CacheLookup (name : string) : eff (option Model)
| CacheSet (name : string) (m : Model) : eff unit
| TfLoadGraphModel (url : string) : eff nat
| AwaitRace (load : nat) (url : string) (timeout : Z) : eff (result Model)
| AwaitTimer (ms : Z) : eff unit
| TfZeros (sh : list Z) : eff Tensor
| TfDecodeImage (b : Buffer) (channels : Z) : eff (result Tensor)
| TfDivScalar (t : Tensor) (d : Z) : eff (result Tensor)
| TfExpandDims0 (t : Tensor) : eff (result Tensor)
| TfDispose (t : Tensor) : eff unit
| ModelPredict (m : Model) (t : Tensor) : eff (result Tensor)
| AwaitData (t : Tensor) : eff (result (list JS.number))
| FsAccess (path : string) : eff (result unit)
| FsStat (path : string) : eff (result Z)
| FsReadFile (path : string) : eff (result Buffer)
| FsUnlinkStart (path : string) : eff unit
| AwaitUnlinks : eff unit
| SharpMetadata (path : string) : eff (result Metadata)
| SharpResizeToFile (src : string) (opts : ResizeOptions) (dst : string)
    : eff (result unit)
| SharpResizeToBuffer (b : Buffer) (opts : ResizeOptions) : eff (result Buffer)
| DateNow : eff Z
| AwaitTick : eff unit.

Definition is_async {X} (op : eff X) : bool :=
  match op with
  | AwaitRace _ _ _ | AwaitTimer _ | AwaitData _ | FsAccess _ | FsStat _
  | FsReadFile _ | AwaitUnlinks | SharpMetadata _ | SharpResizeToFile _ _ _
  | SharpResizeToBuffer _ _ | AwaitTick => true
  | _ => false
  end.

Section Perform.
Context (env : Env).

Definition withTensor {A} (t : Tensor) (w : World)
    (f : TensorInfo -> result A * World) : result A * World :=
  match tensors w !! t with
  | Some info => f info
  | None => (Err (mkError disposedMessage), w)
  end.

Definition allocOk (info : TensorInfo) (w : World) : result Tensor * World :=
  let '(t, w') := alloc info w in (Ok t, w').

Definition perform {X} (op : eff X) (w : World) : X * World :=
  match op in eff X return X * World with
  | CacheLookup name => (modelCache w !! name, log (EvCacheLookup name) w)
  | CacheSet name m =>
      (tt, log (EvCacheSet name m) (setCache (<[name := m]> (modelCache w)) w))
  | TfLoadGraphModel url =>
      let n := loadsStarted w in
      (n, log (EvLoadStart n url) (setLoads (S n) w))
  | AwaitRace load url timeout =>
      let '(elapsed, r) := race timeout (loadOutcome env load) in
      match r with
      | Ok _ => (Ok (mkModel url load),
                 log (EvLoadSettled load elapsed true) (advanceClock elapsed w))
      | Err e => (Err e,
                  log (EvLoadSettled load elapsed false) (advanceClock elapsed w))
      end
  | AwaitTimer ms => (tt, log (EvWait ms) (advanceClock ms w))
  | TfZeros sh => alloc (mkTensor sh (fun _ => F32.zero)) w
  | TfDecodeImage b channels =>
      match decodeImage env b channels with
      | Ok img =>
          allocOk (mkTensor [imgHeight img; imgWidth img; imgChannels img]
                            (fun i => F32.of_Z (pixel img i)))
                  (log EvDecode w)
      | Err e => (Err e, log EvDecode w)
      end
  | TfDivScalar t d =>
      withTensor t w (fun info =>
        allocOk (mkTensor (shape info)
                          (fun i => F32.div (values info i) (F32.of_Z d))) w)
  | TfExpandDims0 t =>
      withTensor t w (fun info =>
        allocOk (mkTensor (1 :: shape info) (values info)) w)
  | TfDispose t =>
      (tt, log (EvDispose t) (setTensors (delete t (tensors w)) (nextTensor w) w))
  | ModelPredict m t =>
      withTensor t w (fun info =>
        match predictOutcome env m info with
        | Ok out => allocOk out (log (EvPredict m true) w)
        | Err e => (Err e, log (EvPredict m false) w)
        end)
  | AwaitData t =>
      withTensor t w (fun info => (Ok (dataOf info), log (EvData t) w))
  | FsAccess path =>
      match files w !! path with
      | Some _ => (Ok tt, log (EvAccess path true) w)
      | None => (Err (noSuchFile path), log (EvAccess path false) w)
      end
  | FsStat path =>
      match files w !! path with
      | Some b => (Ok (Z.of_nat (length b)), log (EvStat path) w)
      | None => (Err (noSuchFile path), log (EvStat path) w)
      end
  | FsReadFile path =>
      match files w !! path with
      | Some b => (Ok b, log (EvReadFile path) w)
      | None => (Err (noSuchFile path), log (EvReadFile path) w)
      end
  | FsUnlinkStart path =>
      (tt, log (EvUnlinkStart path)
               (setPending (pendingUnlinks w ++ [path]) w))
  | AwaitUnlinks => (tt, settleUnlinks w)
  | SharpMetadata path =>
      match files w !! path with
      | Some b => (sharp_metadata env b, log (EvMetadata path) w)
      | None => (Err (noSuchFile path), log (EvMetadata path) w)
      end
  | SharpResizeToFile src opts dst =>
      match files w !! src with
      | Some b =>
          match sharp_resize env b opts with
          | Ok out =>
              (Ok tt, log (EvResize opts) (setFiles (<[dst := out]> (files w)) w))
          | Err e => (Err e, log (EvResize opts) w)
          end
      | None => (Err (noSuchFile src), log (EvResize opts) w)
      end
  | SharpResizeToBuffer b opts => (sharp_resize env b opts, log (EvResize opts) w)
  | DateNow => (clock w, w)
  | AwaitTick => (tt, w)
  end.

End Perform.

Arguments withTensor {A} t w f /.
Arguments allocOk info w /.
Arguments alloc info w /.

(** An asynchronous function body: a tree of operations ending in a
    returned value or a thrown error. *)
Inductive prog (A : Type) : Type :=
| Ret (a : A)
| Throw (e : Error)
| Do {X : Type} (op : eff X) (k : X -> prog A).
Arguments Ret {A} a.
Arguments Throw {A} e.
Arguments Do {A X} op k.

Fixpoint bind {A B} (p : prog A) (f : A -> prog B) : prog B :=
  match p with
  | Ret a => f a
  | Throw e => Throw e
  | Do op k => Do op (fun x => bind (k x) f)
  end.

(** [try { p } catch (e) { h e }]. *)
Fixpoint try_catch {A} (p : prog A) (h : Error -> prog A) : prog A :=
  match p with
  | Ret a => Ret a
  | Throw e => h e
  | Do op k => Do op (fun x => try_catch (k x) h)
  end.

Notation "x <- p ;; q" := (bind p (fun x => q))
  (at level 100, p at next level, right associativity).
Notation "p ;;; q" := (bind p (fun _ => q))
  (at level 100, right associativity).

(** An operation that cannot fail. *)
Definition call {X} (op : eff X) : prog X := Do op Ret.

(** An operation whose failure is thrown (for an asynchronous one: whose
    promise rejects at the [await]). *)
Definition attempt {X} (op : eff (result X)) : prog X :=
  Do op (fun r => match r with Ok x => Ret x | Err e => Throw e end).

(** The outcome of a program as a value. *)
Definition settled {A} (p : prog A) : prog (result A) :=
  try_catch (a <- p ;; Ret (Ok a)) (fun e => Ret (Err e)).

(** [await Promise.all([p, q])] for two asynchronous calls: both are
    started and both run to settlement, whether or not the other fails;
    the interleaving is fixed here as [p] first, then [q], and the caller
    resumes after both. The result is the pair, or the rejection. *)
Definition Promise_all2 {A B} (p : prog A) (q : prog B) : prog (A * B) :=
  ra <- settled p ;;
  rb <- settled q ;;
  match ra, rb with
  | Ok a, Ok b => Ret (a, b)
  | Err e, _ => Throw e
  | _, Err e => Throw e
  end.

(** A call that is not awaited: the callee runs up to its first [await]
    and the caller goes on; what the callee does after that point is left
    to the event loop. *)
Fixpoint detached {A} (p : prog A) : prog unit :=
  match p with
  | Ret _ => Ret tt
  | Throw _ => Ret tt
  | Do op k => if is_async op then Ret tt else Do op (fun x => detached (k x))
  end.

Section Run.
Context (env : Env).

(** A function run alone, from call to settlement. *)
Fixpoint run {A} (p : prog A) (w : World) : result A * World :=
  match p with
  | Ret a => (Ok a, w)
  | Throw e => (Err e, w)
  | Do op k => let '(x, w') := perform env op w in run (k x) w'
  end.

(** A turn of the event loop for one suspended function: run it up to
    its next [await]. *)
Fixpoint advance {A} (p : prog A) (w : World) : prog A * World :=
  match p with
  | Do op k =>
      if is_async op then (p, w)
      else let '(x, w') := perform env op w in advance (k x) w'
  | _ => (p, w)
  end.

(** The awaited operation settles and the function resumes. *)
Definition resume {A} (p : prog A) (w : World) : prog A * World :=
  match p with
  | Do op k => let '(x, w') := perform env op w in advance (k x) w'
  | _ => (p, w)
  end.

(** Several functions in flight: [resumeAt i] lets the [i]-th resume. *)
Definition resumeAt {A} (i : nat) (pool : list (prog A)) (w : World)
    : list (prog A) * World :=
  match pool !! i with
  | Some p => let '(p', w') := resume p w in (<[i := p']> pool, w')
  | None => (pool, w)
  end.

Fixpoint schedule {A} (order : list nat) (pool : list (prog A)) (w : World)
    : list (prog A) * World :=
  match order with
  | [] => (pool, w)
  | i :: rest => let '(pool', w') := resumeAt i pool w in schedule rest pool' w'
  end.

(** The calls are made one after the other in one turn: each runs up to
    its first [await]. *)
Fixpoint callAll {A} (ps : list (prog A)) (w : World) : list (prog A) * World :=
  match ps with
  | [] => ([], w)
  | p :: rest =>
      let '(p', w') := advance p w in
      let '(rest', w'') := callAll rest w' in
      (p' :: rest', w'')
  end.

End Run.

Definition finished {A} (p : prog A) : bool :=
  match p with
  | Do _ _ => false
  | _ => true
  end.

(** ** String helpers of the runtime *)

Module Str.

Definition upper_ascii (c : ascii) : ascii :=
  let n := nat_of_ascii c in
  if ((97 <=? n) && (n <=? 122))%nat then ascii_of_nat (n - 32) else c.

(** [s.toUpperCase()] on ASCII text. *)
Fixpoint toUpperCase (s : string) : string :=
  match s with
  | EmptyString => EmptyString
  | String c rest => String (upper_ascii c) (toUpperCase rest)
  end.

(** [s.includes(needle)]. *)
Fixpoint includes (needle s : string) : bool :=
  String.prefix needle s
  || match s with
     | EmptyString => false
     | String _ rest => includes needle rest
     end.

(** [s.split(sep)] for a one-character separator. *)
Fixpoint split (sep : ascii) (s : string) : list string :=
  match s with
  | EmptyString => [EmptyString]
  | String c rest =>
      if Ascii.eqb c sep then EmptyString :: split sep rest
      else match split sep rest with
           | h :: t => String c h :: t
           | [] => [String c EmptyString]
           end
  end.

(** A number or [undefined] inside a template literal. *)
Definition show (o : option Z) : string :=
  match o with
  | Some z => pretty z
  | None => "undefined"
  end.

End Str.

(** ** utils/modelInitialization.js *)

Module ModelInitialization.

Record ModelConfig := mkConfig
  { modelPath : string;
    warmupShape : list Z;
    timeout : Z;
    retryAttempts : Z;
    retryDelay : Z }.

Definition MODEL_CONFIG : gmap string ModelConfig :=
  list_to_map
    [ ("yolov5",
       mkConfig "../models/yolov5/yolov5_model.json" [1; 640; 640; 3]
                60000 3 5000);
      ("yolov7",
       mkConfig "../models/yolov7/yolov7_model.json" [1; 640; 640; 3]
                60000 3 5000) ].

Definition fileNotFound (modelName : string) : Error :=
  mkError (Str.toUpperCase modelName
           ++ " model file not found. See console for details.").

Definition failedAfter (modelName : string) (config : ModelConfig) : string :=
  "Failed to load " ++ Str.toUpperCase modelName ++ " model after "
  ++ pretty (retryAttempts config) ++ " attempts".

Section WithEnv.
Context (env : Env).

Definition checkModelFiles (modelName : string) : prog string :=
  match MODEL_CONFIG !! modelName with
  | None => Throw (mkError ("Unknown model: " ++ modelName))
  | Some config =>
      let modelPath := path_join env (dirname env) (modelPath config) in
      try_catch
        (attempt (FsAccess modelPath) ;;; Ret modelPath)
        (fun _ => Throw (fileNotFound modelName))
  end.

(** A failed warmup is logged and swallowed. *)
Definition warmupModel (modelName : string) (model : Model) : prog unit :=
  try_catch
    (match MODEL_CONFIG !! modelName with
     | None =>
         Throw (mkError
           "Cannot read properties of undefined (reading 'warmupShape')")
     | Some config =>
         dummyInput <- call (TfZeros (warmupShape config)) ;;
         warmupResult <- attempt (ModelPredict model dummyInput) ;;
         call AwaitTick ;;;
         call (TfDispose warmupResult) ;;;
         call (TfDispose dummyInput)
     end)
    (fun _ => Ret tt).

(** The [try] block of one iteration: start the load, race it against
    the timer, warm the model up, cache it. *)
Definition loadOnce (modelName : string) (config : ModelConfig)
    (modelUrl : string) : prog Model :=
  load <- call (TfLoadGraphModel modelUrl) ;;
  model <- attempt (AwaitRace load modelUrl (timeout config)) ;;
  warmupModel modelName model ;;;
  call (CacheSet modelName model) ;;;
  Ret model.

(** [for (let attempt = 1; attempt <= config.retryAttempts; attempt++)]
    with [remaining] iterations to go, then the code after the loop. *)
Fixpoint retryLoop (modelName : string) (config : ModelConfig)
    (modelUrl : string) (remaining : nat) (attempt : Z)
    (lastError : option Error) : prog Model :=
  match remaining with
  | O =>
      match lastError with
      | Some e =>
          Throw (mkError (failedAfter modelName config ++ ": " ++ message e))
      | None =>
          Throw (mkError
            "Cannot read properties of null (reading 'message')")
      end
  | S remaining' =>
      try_catch
        (loadOnce modelName config modelUrl)
        (fun error =>
           (if attempt <? retryAttempts config
            then call (AwaitTimer (retryDelay config))
            else Ret tt) ;;;
           retryLoop modelName config modelUrl remaining' (attempt + 1)
                     (Some error))
  end.

Definition loadModelWithRetry (modelName : string) : prog Model :=
  modelPath <- try_catch (checkModelFiles modelName)
                         (fun error => Throw error) ;;
  let modelUrl := "file://" ++ modelPath in
  match MODEL_CONFIG !! modelName with
  | Some config =>
      retryLoop modelName config modelUrl
                (Z.to_nat (retryAttempts config)) 1 None
  | None =>
      Throw (mkError
        "Cannot read properties of undefined (reading 'retryAttempts')")
  end.

Definition getModel (modelName : string) : prog Model :=
  match MODEL_CONFIG !! modelName with
  | None => Throw (mkError ("Unknown model: " ++ modelName))
  | Some _ =>
      cached <- call (CacheLookup modelName) ;;
      match cached with
      | Some model => Ret model
      | None => loadModelWithRetry modelName
      end
  end.

Definition getYOLOv5Model : prog Model := getModel "yolov5".
Definition getYOLOv7Model : prog Model := getModel "yolov7".

End WithEnv.

End ModelInitialization.

(** ** utils/imageProcessor.js *)

Module ImageProcessor.

Record BufferOptions := mkBufferOptions
  { optWidth : option Z; optHeight : option Z }.

Record QualityOptions := mkQualityOptions
  { optMinSize : option Z; optMinWidth : option Z; optMinHeight : option Z }.

Definition noOptions : BufferOptions := mkBufferOptions None None.
Definition noQualityOptions : QualityOptions := mkQualityOptions None None None.

(** What [processStreamFrame] may be handed. *)
Inductive StreamData :=
| SBuffer (b : Buffer)
| SString (s : string)
| SOther.

(** [x < y] where [x] may be [undefined]. *)
Definition lt_undef (x : option Z) (y : Z) : bool :=
  match x with
  | Some v => v <? y
  | None => false
  end.

Definition contain (width height : Z) : ResizeOptions :=
  mkResize width height FitContain (0, 0, 0).

Definition tooSmallFile (size minSize : Z) : Error :=
  mkError ("Image file too small (" ++ pretty size
           ++ " bytes). Minimum size: " ++ pretty minSize ++ " bytes").

Definition tooSmallDimensions (m : Metadata) (minWidth minHeight : Z) : Error :=
  mkError ("Image dimensions too small (" ++ Str.show (metaWidth m) ++ "x"
           ++ Str.show (metaHeight m) ++ "). Minimum: " ++ pretty minWidth
           ++ "x" ++ pretty minHeight).

Section WithEnv.
Context (env : Env).

(** Decode, scale to [0,1], add the batch dimension, release the decoded
    tensor. *)
Definition toBatch (buffer : Buffer) : prog Tensor :=
  image <- attempt (TfDecodeImage buffer 3) ;;
  call AwaitTick ;;;
  normalized <- attempt (TfDivScalar image 255) ;;
  batched <- attempt (TfExpandDims0 normalized) ;;
  call (TfDispose image) ;;;
  Ret batched.

Definition preprocessImage (imagePath : string) : prog Tensor :=
  try_catch
    (imageBuffer <- attempt (FsReadFile imagePath) ;;
     toBatch imageBuffer)
    (fun error =>
       Throw (mkError ("Image preprocessing failed: " ++ message error))).

Definition processImageBuffer (imageBuffer : Buffer)
    (options : BufferOptions) : prog Tensor :=
  let width := default 640 (optWidth options) in
  let height := default 640 (optHeight options) in
  try_catch
    (resizedBuffer <-
       attempt (SharpResizeToBuffer imageBuffer (contain width height)) ;;
     toBatch resizedBuffer)
    (fun error =>
       Throw (mkError ("Buffer processing failed: " ++ message error))).

(** The call of [processImageBuffer] is returned without [await], so
    its rejection is not seen by the [catch] here. *)
Definition processStreamFrame (data : StreamData) : prog Tensor :=
  match data with
  | SBuffer buffer => processImageBuffer buffer noOptions
  | SString s =>
      let base64Data :=
        if Str.includes "," s then nth 1 (Str.split "," s) "" else s in
      processImageBuffer (base64_decode env base64Data) noOptions
  | SOther =>
      Throw (mkError ("Stream processing failed: "
                      ++ "Invalid input: expected Buffer or base64 string"))
  end.

Definition checkImageQuality (imagePath : string)
    (options : QualityOptions) : prog bool :=
  let minSize := default (10 * 1024) (optMinSize options) in
  let minWidth := default 224 (optMinWidth options) in
  let minHeight := default 224 (optMinHeight options) in
  try_catch
    (size <- attempt (FsStat imagePath) ;;
     if size <? minSize then Throw (tooSmallFile size minSize)
     else
       metadata <- attempt (SharpMetadata imagePath) ;;
       if lt_undef (metaWidth metadata) minWidth
          || lt_undef (metaHeight metadata) minHeight
       then Throw (tooSmallDimensions metadata minWidth minHeight)
       else Ret true)
    (fun error =>
       if Str.includes "Image" (message error) then Throw error
       else Throw (mkError ("Image quality check failed: " ++ message error))).

End WithEnv.

End ImageProcessor.

(** ** controllers/detectionController.js *)

Module DetectionController.

Import ModelInitialization ImageProcessor.

Definition recommendations : gmap string (list string) :=
  list_to_map
    [ ("Early Blight",
       [ "Remove infected leaves immediately";
         "Apply copper-based fungicides";
         "Maintain proper plant spacing for airflow";
         "Avoid overhead watering to prevent spore spread" ]);
      ("Late Blight",
       [ "Remove and destroy all infected plant material";
         "Apply fungicides preventively in humid conditions";
         "Ensure good air circulation around plants";
         "Use resistant varieties in future plantings" ]);
      ("Leaf Miner",
       [ "Remove and destroy affected leaves";
         "Use yellow sticky traps to monitor and catch adults";
         "Apply neem oil or insecticidal soap";
         "Introduce natural predators like parasitic wasps" ]);
      ("Leaf Mold",
       [ "Improve air circulation around plants";
         "Reduce humidity in growing environment";
         "Apply fungicides at first sign of infection";
         "Avoid overhead watering to keep foliage dry" ]);
      ("Mosaic Virus",
       [ "Remove and destroy infected plants completely";
         "Control aphids and other insects that spread the virus";
         "Wash hands and tools after handling infected plants";
         "Plant resistant varieties in future" ]);
      ("Septoria",
       [ "Remove infected leaves to prevent spread";
         "Apply fungicide at first sign of infection";
         "Maintain proper plant spacing";
         "Avoid overhead watering to keep foliage dry" ]);
      ("Spider Mites",
       [ "Spray plants with strong stream of water to dislodge mites";
         "Apply insecticidal soap or neem oil to affected areas";
         "Increase humidity around plants";
         "Introduce predatory mites as biological control" ]);
      ("Yellow Leaf Curl Virus",
       [ "Remove and destroy all infected plants";
         "Control whitefly populations with sticky traps";
         "Use reflective mulches to repel whiteflies";
         "Plant resistant varieties in future" ]);
      ("Healthy",
       [ "Continue regular maintenance";
         "Monitor plants regularly for early signs of disease";
         "Maintain proper watering and fertilization schedule";
         "Ensure good air circulation around plants" ]) ].

(** [recommendations[diseaseName] || [...]] (an array is always truthy). *)
Definition getRecommendations (diseaseName : string) : list string :=
  JS.or_else (fun _ => true) (recommendations !! diseaseName)
    [ "Consult with a plant pathologist for specific recommendations";
      "Monitor the plant closely for changes in symptoms";
      "Ensure proper growing conditions (light, water, nutrients)" ].

(** The file deletions are started in one turn, then awaited together. *)
Definition cleanupFiles (filePaths : list string) : prog unit :=
  try_catch
    (foldr (fun filePath rest => call (FsUnlinkStart filePath) ;;; rest)
           (Ret tt) (filter (fun path => JS.truthy path = true) filePaths) ;;;
     call AwaitUnlinks)
    (fun _ => Ret tt).

(** The JSON body built by [createResponse] (absent keys are [None]). *)
Record Body (D : Type) := mkBody
  { success : bool;
    timestamp : Z;
    data : option D;
    bodyMessage : option string;
    bodyError : option string }.
Arguments mkBody {D}.
Arguments success {D}.
Arguments timestamp {D}.
Arguments data {D}.
Arguments bodyMessage {D}.
Arguments bodyError {D}.

(** [res.status(status).json(body)]. *)
Record Response (D : Type) := mkResponse { status : Z; body : Body D }.
Arguments mkResponse {D}.
Arguments status {D}.
Arguments body {D}.

Definition createResponse {D} (success : bool) (data : option D)
    (message_ : string) (error : option Error) : prog (Body D) :=
  now <- call DateNow ;;
  Ret (mkBody success now
              (if success then data else None)
              (if JS.truthy message_ then Some message_ else None)
              (if negb success then message <$> error else None)).

Definition respond {D} (status : Z) (success : bool) (data : option D)
    (message_ : string) (error : option Error) : prog (Response D) :=
  b <- createResponse success data message_ error ;;
  Ret (mkResponse status b).

(** One model's entry of the result. *)
Record Analysis := mkAnalysis
  { disease : string;
    confidence : JS.value;
    recommendationsOf : list string }.

(** The primary entry: an analysis and the model it came from. *)
Record Primary := mkPrimary
  { primaryDisease : string;
    primaryConfidence : JS.value;
    primaryRecommendations : list string;
    model : string }.

(** [data] of a successful [analyzeImage]. *)
Record ImageResults := mkImageResults
  { yolov5Analysis : Analysis;
    yolov7Analysis : Analysis;
    analysis : Primary;
    processingTime : Z;
    filename : string }.

(** [data] of a successful [analyzeStream]. *)
Record StreamResults := mkStreamResults
  { yolov5Prediction : Analysis;
    yolov7Prediction : Analysis;
    streamAnalysis : Primary;
    streamProcessingTime : Z }.

(** The three lines that read one model's output: the index of the
    largest value, that value, and its label with its recommendations. *)
Definition classIndexOf (data : list JS.number) : Z :=
  JS.indexOf data (JS.Math_max data).

Definition readPrediction (data : list JS.number) : Analysis :=
  let classIndex := classIndexOf data in
  let confidence := JS.get data classIndex in
  let diseaseName := Tables.diseaseName classIndex in
  mkAnalysis diseaseName confidence (getRecommendations diseaseName).

(** The entry of one model, labelled with the model's name. *)
Definition entryOf (name : string) (a : Analysis) : Primary :=
  mkPrimary (disease a) (confidence a) (recommendationsOf a) name.

(** [yolov5Confidence > yolov7Confidence ? {...YOLOv5} : {...YOLOv7}]. *)
Definition selectPrimary (yolov5 yolov7 : Analysis) : Primary :=
  if JS.gt (confidence yolov5) (confidence yolov7)
  then entryOf "YOLOv5" yolov5
  else entryOf "YOLOv7" yolov7.

(** The error of a call with too many arguments. *)
Definition rangeError : Error :=
  mkError "Maximum call stack size exceeded".

Record UploadedFile := mkUpload { uploadPath : string; uploadName : string }.
Record ImageRequest := mkImageRequest { reqFile : option UploadedFile }.
Record StreamRequest := mkStreamRequest { imageData : option string }.

Section WithEnv.
Context (env : Env).

(** [Math.max(...data)] passes every score as an argument of one call:
    with more scores than the engine takes, the call throws a
    RangeError before anything is read. *)
Definition spreadMax (data : list JS.number) : prog Analysis :=
  if argumentLimit env <? Z.of_nat (length data)
  then Throw rangeError
  else Ret (readPrediction data).

(** Both forward passes on one tensor, then each output awaited and
    read, YOLOv5's first. The two [predict] calls are the elements of one
    array literal: when the first throws the second is not made. *)
Definition predictBoth (yolov5 yolov7 : Model) (tensor : Tensor)
    : prog (Analysis * Analysis) :=
  yolov5Prediction <- attempt (ModelPredict yolov5 tensor) ;;
  yolov7Prediction <- attempt (ModelPredict yolov7 tensor) ;;
  call AwaitTick ;;;
  yolov5Data <- attempt (AwaitData yolov5Prediction) ;;
  yolov5Result <- spreadMax yolov5Data ;;
  yolov7Data <- attempt (AwaitData yolov7Prediction) ;;
  yolov7Result <- spreadMax yolov7Data ;;
  Ret (yolov5Result, yolov7Result).

(** The [try] block of [analyzeImage] after the two paths are pushed on
    [filesToCleanup]. *)
Definition analyzeUpload (file : UploadedFile) (startTime : Z)
    (filePath processedFilePath : string) (filesToCleanup : list string)
    : prog (Response ImageResults) :=
  accessed <- settled (attempt (FsAccess filePath)) ;;
  match accessed with
  | Err error =>
      respond 404 false None ("Upload file not found: " ++ filePath)
              (Some error)
  | Ok _ =>
      quality <- settled (checkImageQuality filePath noQualityOptions) ;;
      match quality with
      | Err error =>
          respond 400 false None "Image quality check failed" (Some error)
      | Ok _ =>
          attempt (SharpResizeToFile filePath (contain 640 640)
                                     processedFilePath) ;;;
          models <- Promise_all2 (getYOLOv5Model env) (getYOLOv7Model env) ;;
          let '(yolov5, yolov7) := models in
          imageBuffer <- attempt (FsReadFile processedFilePath) ;;
          tensor <- preprocessImage processedFilePath ;;
          predictions <- predictBoth yolov5 yolov7 tensor ;;
          let '(yolov5Result, yolov7Result) := predictions in
          now <- call DateNow ;;
          let results :=
            mkImageResults yolov5Result yolov7Result
                           (selectPrimary yolov5Result yolov7Result)
                           (now - startTime) (uploadName file) in
          detached (cleanupFiles filesToCleanup) ;;;
          respond 200 true (Some results)
                  "Image analysis completed successfully" None
      end
  end.

(** [filesToCleanup] is empty until both paths are pushed, and nothing
    can throw before that, so the [catch] always sees both paths. *)
Definition analyzeImage (req : ImageRequest)
    : prog (Response ImageResults) :=
  startTime <- call DateNow ;;
  match reqFile req with
  | None =>
      respond 400 false None "No image file uploaded"
              (Some (mkError "No image file uploaded"))
  | Some file =>
      let filePath := path_resolve env (uploadPath file) in
      let processedFilePath := filePath ++ "_processed.jpg" in
      let filesToCleanup := [filePath; processedFilePath] in
      try_catch
        (analyzeUpload file startTime filePath processedFilePath
                       filesToCleanup)
        (fun error =>
           detached (cleanupFiles filesToCleanup) ;;;
           respond 500 false None "Error processing image" (Some error))
  end.

(** [Buffer.from(imageData.split(",")[1], "base64")]: a missing second
    part is [undefined], which [Buffer.from] refuses. *)
Definition frameBuffer (imageData : string) : prog Buffer :=
  match Str.split "," imageData !! 1%nat with
  | Some base64Data => Ret (base64_decode env base64Data)
  | None =>
      Throw (mkError
        "The first argument must be of type string or an instance of Buffer, ArrayBuffer, or Array or an Array-like Object. Received undefined")
  end.

Definition analyzeStream (req : StreamRequest)
    : prog (Response StreamResults) :=
  startTime <- call DateNow ;;
  try_catch
    (match imageData req with
     | None =>
         respond 400 false None "No image data provided"
                 (Some (mkError "No image data provided"))
     | Some imageData =>
         if negb (JS.truthy imageData) then
           respond 400 false None "No image data provided"
                   (Some (mkError "No image data provided"))
         else
           models <- Promise_all2 (getYOLOv5Model env) (getYOLOv7Model env) ;;
           let '(yolov5, yolov7) := models in
           buffer <- frameBuffer imageData ;;
           tensor <- processStreamFrame env (SBuffer buffer) ;;
           predictions <- predictBoth yolov5 yolov7 tensor ;;
           let '(yolov5Result, yolov7Result) := predictions in
           now <- call DateNow ;;
           respond 200 true
                   (Some (mkStreamResults yolov5Result yolov7Result
                            (selectPrimary yolov5Result yolov7Result)
                            (now - startTime)))
                   "Stream analysis completed successfully" None
     end)
    (fun error =>
       respond 500 false None "Error in stream processing" (Some error)).

End WithEnv.

End DetectionController.

(** ** Vocabulary of the properties *)

(** The load attempts and the waits of a trace. *)
Module Loading.

Import ModelInitialization.

Inductive step :=
| Attempt
| Wait (ms : Z).

Definition stepOf (ev : event) : option step :=
  match ev with
  | EvLoadStart _ _ => Some Attempt
  | EvWait ms => Some (Wait ms)
  | _ => None
  end.

(** The attempts and waits of a trace, in order. *)
Definition steps (evs : list event) : list step := omap stepOf evs.

(** The number of calls of [tf.loadGraphModel] in a trace. *)
Fixpoint attempts (evs : list event) : nat :=
  match evs with
  | [] => 0
  | EvLoadStart _ _ :: rest => S (attempts rest)
  | _ :: rest => attempts rest
  end.

(** [n] attempts with one wait of [delay] between consecutive ones. *)
Fixpoint separated (delay : Z) (n : nat) : list step :=
  match n with
  | O => []
  | S O => [Attempt]
  | S n' => Attempt :: Wait delay :: separated delay n'
  end.

(** A settled load took no longer than [timeout]. *)
Definition withinTimeout (timeout : Z) (ev : event) : Prop :=
  match ev with
  | EvLoadSettled _ elapsed _ => elapsed <= timeout
  | _ => True
  end.

(** A load reported as successful resolved before the timer fired. *)
Definition resolvedInTime (env : Env) (timeout : Z) (ev : event) : Prop :=
  match ev with
  | EvLoadSettled load elapsed true =>
      loadOutcome env load = Resolves elapsed /\ elapsed < timeout
  | _ => True
  end.

(** The events of a warmup. *)
Definition quiet (ev : event) : Prop :=
  match ev with
  | EvAlloc _ | EvDispose _ | EvPredict _ _ => True
  | _ => False
  end.

(** How the attempt with load serial [load] ends for the retry loop. *)
Definition attemptError (env : Env) (config : ModelConfig) (load : nat)
    : option Error :=
  match (race (timeout config) (loadOutcome env load)).2 with
  | Ok _ => None
  | Err e => Some e
  end.

Definition modelFile (env : Env) (config : ModelConfig) : string :=
  path_join env (dirname env) (modelPath config).

Definition modelUrl (env : Env) (config : ModelConfig) : string :=
  "file://" ++ modelFile env config.

(** Every cached model was loaded from the file of its name. *)
Definition cacheConsistent (env : Env) (w : World) : Prop :=
  forall name m,
    modelCache w !! name = Some m ->
    exists config,
      MODEL_CONFIG !! name = Some config /\ mUrl m = modelUrl env config.

(** Events that neither request a model nor run a forward pass. *)
Definition noModelEvent (ev : event) : Prop :=
  match ev with
  | EvCacheLookup _ | EvCacheSet _ _ | EvLoadStart _ _ | EvLoadSettled _ _ _
  | EvPredict _ _ => False
  | _ => True
  end.

End Loading.

(** The normalized image. *)
Module Normalized.

(** [img] is what [tf.node.decodeImage] reads, with three channels, from
    the buffer that sharp's contain fit on black of [imageBuffer] to
    [width] by [height] gives: a raster of exactly that size with three
    8-bit channels (the libraries' contract). *)
Definition fittedTo (env : Env) (imageBuffer : Buffer) (width height : Z)
    (img : Image) : Prop :=
  exists resized,
    sharp_resize env imageBuffer (ImageProcessor.contain width height)
    = Ok resized
    /\ decodeImage env resized 3 = Ok img
    /\ imgHeight img = height /\ imgWidth img = width /\ imgChannels img = 3
    /\ forall i, 0 <= pixel img i <= 255.

(** A value of [0, 1]. *)
Definition inUnit (x : JS.number) : Prop :=
  SFleb F32.zero x = true /\ SFleb x F32.one = true.

(** The check of [inUnit] on the quotient of an 8-bit value by 255. *)
Definition scaledInUnit (n : nat) : bool :=
  let x := F32.div (F32.of_Z (Z.of_nat n)) (F32.of_Z 255) in
  SFleb F32.zero x && SFleb x F32.one.

End Normalized.

(** Callers in flight. *)
Module Flight.

(** The calls of [tf.loadGraphModel] an operation makes. *)
Definition startsLoad {X} (op : eff X) : nat :=
  match op with
  | TfLoadGraphModel _ => 1
  | _ => 0
  end.

(** [owes env I j p]: resumed in any world of [I], the rest [p] of a
    function keeps the world in [I] and starts exactly [j] more loads
    before it settles. *)
Fixpoint owes (env : Env) (I : World -> Prop) {A} (j : nat) (p : prog A)
    : Prop :=
  match p with
  | Do op k =>
      forall w,
        I w ->
        I (perform env op w).2
        /\ exists j',
             j = (startsLoad op + j')%nat
             /\ owes env I j' (k (perform env op w).1)
  | _ => j = 0%nat
  end.

(** The model file is in place. *)
Definition fileInPlace (env : Env) (config : ModelInitialization.ModelConfig)
    (w : World) : Prop :=
  is_Some (files w !! Loading.modelFile env config).

(** Every load resolves before its timer fires. *)
Definition loadsResolve (env : Env) (config : ModelInitialization.ModelConfig)
    : Prop :=
  forall load,
    exists elapsed,
      loadOutcome env load = Resolves elapsed
      /\ elapsed < ModelInitialization.timeout config.

End Flight.

Module Outcome.

Import DetectionController.

Section WithEnv.
Context (env : Env).

(** Two entries read off the outputs of two successful forward passes. *)
Definition fromForwardPasses (a5 a7 : Analysis) : Prop :=
  exists yolov5 yolov7 info5 info7 out5 out7,
    predictOutcome env yolov5 info5 = Ok out5
    /\ predictOutcome env yolov7 info7 = Ok out7
    /\ a5 = readPrediction (dataOf out5)
    /\ a7 = readPrediction (dataOf out7).

(** A response of [analyzeImage]: a refusal without data, or results. *)
Definition imageOutcome (resp : Response ImageResults) : Prop :=
  match data (body resp) with
  | None =>
      success (body resp) = false
      /\ (status resp = 400 \/ status resp = 404 \/ status resp = 500)
  | Some r =>
      status resp = 200 /\ success (body resp) = true
      /\ analysis r = selectPrimary (yolov5Analysis r) (yolov7Analysis r)
      /\ fromForwardPasses (yolov5Analysis r) (yolov7Analysis r)
  end.

(** A response of [analyzeStream]. *)
Definition streamOutcome (resp : Response StreamResults) : Prop :=
  match data (body resp) with
  | None =>
      success (body resp) = false
      /\ (status resp = 400 \/ status resp = 500)
  | Some r =>
      status resp = 200 /\ success (body resp) = true
      /\ streamAnalysis r
         = selectPrimary (yolov5Prediction r) (yolov7Prediction r)
      /\ fromForwardPasses (yolov5Prediction r) (yolov7Prediction r)
  end.

(** The per-model entries and the primary entry that some request,
    uploaded image or camera frame, was answered with. *)
Inductive reported : Analysis -> Analysis -> Primary -> Prop :=
| reported_image (req : ImageRequest) (w w' : World)
    (resp : Response ImageResults) (r : ImageResults) :
    run env (analyzeImage env req) w = (Ok resp, w') ->
    data (body resp) = Some r ->
    reported (yolov5Analysis r) (yolov7Analysis r) (analysis r)
| reported_stream (req : StreamRequest) (w w' : World)
    (resp : Response StreamResults) (r : StreamResults) :
    run env (analyzeStream env req) w = (Ok resp, w') ->
    data (body resp) = Some r ->
    reported (yolov5Prediction r) (yolov7Prediction r) (streamAnalysis r).

End WithEnv.

End Outcome.

(** A request followed to its forward passes and to its answer. *)
Module Request.

Import ModelInitialization ImageProcessor DetectionController.

Section WithEnv.
Context (env : Env).

(** What a request holds when it makes its forward passes: the two
    models and the input tensor. *)
Definition Inputs : Type := Model * Model * Tensor.

(** [analyzeStream] from the models to the tensor. *)
Definition frameInputs (imageData : string) : prog Inputs :=
  models <- Promise_all2 (getYOLOv5Model env) (getYOLOv7Model env) ;;
  let '(yolov5, yolov7) := models in
  buffer <- frameBuffer env imageData ;;
  tensor <- processStreamFrame env (SBuffer buffer) ;;
  Ret (yolov5, yolov7, tensor).

(** [analyzeImage] from the file check to the tensor; [None] when the
    request is answered 404 or 400 on the way. *)
Definition uploadInputs (filePath processedFilePath : string)
    : prog (option Inputs) :=
  accessed <- settled (attempt (FsAccess filePath)) ;;
  match accessed with
  | Err _ => Ret None
  | Ok _ =>
      quality <- settled (checkImageQuality filePath noQualityOptions) ;;
      match quality with
      | Err _ => Ret None
      | Ok _ =>
          attempt (SharpResizeToFile filePath (contain 640 640)
                                     processedFilePath) ;;;
          models <- Promise_all2 (getYOLOv5Model env) (getYOLOv7Model env) ;;
          let '(yolov5, yolov7) := models in
          imageBuffer <- attempt (FsReadFile processedFilePath) ;;
          tensor <- preprocessImage processedFilePath ;;
          Ret (Some (yolov5, yolov7, tensor))
      end
  end.

(** A request on either route. *)
Inductive request :=
| Upload (req : ImageRequest)
| Frame (req : StreamRequest).

(** The request up to its forward passes: the inputs of the passes, or
    [None] when it is answered before. *)
Definition inputs (q : request) : prog (option Inputs) :=
  match q with
  | Upload req =>
      match reqFile req with
      | None => Ret None
      | Some file =>
          let filePath := path_resolve env (uploadPath file) in
          uploadInputs filePath (filePath ++ "_processed.jpg")
      end
  | Frame req =>
      match imageData req with
      | None => Ret None
      | Some imageData =>
          if negb (JS.truthy imageData) then Ret None
          else x <- frameInputs imageData ;; Ret (Some x)
      end
  end.

(** What the client reads in the answer: the status, the two entries
    with the primary one when there is a result, and the error text. *)
Record Answer := mkAnswer
  { answerStatus : Z;
    answerEntries : option (Analysis * Analysis * Primary);
    answerError : option string }.

Definition answer (q : request) (w : World) : option Answer :=
  match q with
  | Upload req =>
      match (run env (analyzeImage env req) w).1 with
      | Ok resp =>
          Some (mkAnswer (status resp)
                  ((fun r => (yolov5Analysis r, yolov7Analysis r, analysis r))
                     <$> data (body resp))
                  (bodyError (body resp)))
      | Err _ => None
      end
  | Frame req =>
      match (run env (analyzeStream env req) w).1 with
      | Ok resp =>
          Some (mkAnswer (status resp)
                  ((fun r => (yolov5Prediction r, yolov7Prediction r,
                              streamAnalysis r))
                     <$> data (body resp))
                  (bodyError (body resp)))
      | Err _ => None
      end
  end.

(** What the client reads once the forward passes are made: the entries
    read off the two outputs with [selectPrimary] of them, or the error
    the [catch] answers with. *)
Definition afterPasses (passes : result (Analysis * Analysis))
    : option Answer :=
  match passes with
  | Ok (a5, a7) => Some (mkAnswer 200 (Some (a5, a7, selectPrimary a5 a7)) None)
  | Err e => Some (mkAnswer 500 None (Some (message e)))
  end.

End WithEnv.

End Request.

(** ** A deployment to run the pipeline on *)

Module Scenario.

Import ModelInitialization ImageProcessor DetectionController.

(** The double [m * 2^e]. *)
Definition dyadic (m e : Z) : JS.number := binary_normalize 53 1024 m e false.

(** A model output holding the given scores. *)
Definition scores (l : list JS.number) : TensorInfo :=
  mkTensor [1; Z.of_nat (length l)] (fun i => nth i l JS.NaN).

(** Model files load in 1.2 s; uploads are 800x600 and decode to a 2x2
    raster; the two models answer [o5] and [o7]. *)
Definition env (o5 o7 : result TensorInfo) : Env :=
  {| dirname := "/srv/utils";
     path_join := fun a b => a ++ "/" ++ b;
     path_resolve := fun p => p;
     base64_decode := fun _ => [];
     loadOutcome := fun _ => Resolves 1200;
     predictOutcome := fun m _ =>
       if Str.includes "yolov5" (mUrl m) then o5 else o7;
     sharp_metadata := fun _ => Ok (mkMetadata (Some 800) (Some 600));
     sharp_resize := fun b _ => Ok b;
     decodeImage := fun _ _ => Ok (mkImage 2 2 3 (fun _ => 128));
     argumentLimit := 120000 |}.

Definition upload : string := "/uploads/leaf.jpg".

(** Both model files in place, a 10 KiB upload, nothing cached. *)
Definition world (uploadSize : nat) : World :=
  mkWorld (list_to_map
             [ (upload, replicate uploadSize 0);
               ("/srv/utils/../models/yolov5/yolov5_model.json", [123]);
               ("/srv/utils/../models/yolov7/yolov7_model.json", [123]) ])
          ∅ ∅ 0 0 [] 1000 [].

Definition request : ImageRequest :=
  mkImageRequest (Some (mkUpload upload "leaf.jpg")).

Definition frame : StreamRequest :=
  mkStreamRequest (Some "data:image/jpeg;base64,AAAA").

(** [n] callers of [getModel "yolov5"] in one turn, nothing cached, then
    resumed in the given order. *)
Definition callers (e : Env) (n : nat) : list (prog Model) * World :=
  callAll e (replicate n (getModel e "yolov5")) (world 0).

Definition resumed (e : Env) (n : nat) (order : list nat)
    : list (prog Model) * World :=
  schedule e order (callers e n).1 (callers e n).2.

(** A deployment whose images decode to 640 by 640 rasters. *)
Definition squareEnv : Env :=
  {| dirname := "/srv/utils";
     path_join := fun a b => a ++ "/" ++ b;
     path_resolve := fun p => p;
     base64_decode := fun _ => [];
     loadOutcome := fun _ => Resolves 1200;
     predictOutcome := fun _ _ => Err (mkError "no model");
     sharp_metadata := fun _ => Ok (mkMetadata (Some 800) (Some 600));
     sharp_resize := fun b _ => Ok (0 :: b);
     decodeImage := fun _ _ =>
       Ok (mkImage 640 640 3 (fun i => Z.of_nat (i mod 256)));
     argumentLimit := 120000 |}.

Definition resultsOf {D} (x : result (Response D) * World) : option D :=
  match x.1 with
  | Ok resp => data (body resp)
  | Err _ => None
  end.

Definition half : JS.number := dyadic 1 (-1).
Definition quarter : JS.number := dyadic 1 (-2).

(** Both models report 0.5 as their best score: YOLOv5 for "Healthy",
    YOLOv7 for "Early Blight". *)
Definition tieEnv : Env :=
  env (Ok (scores [quarter; half])) (Ok (scores [half; quarter])).

Definition tieResults : option ImageResults :=
  Eval vm_compute in
    resultsOf (run tieEnv (analyzeImage tieEnv request)
                   (world (Z.to_nat 10240))).

Definition yolov7Config : ModelConfig :=
  mkConfig "../models/yolov7/yolov7_model.json" [1; 640; 640; 3] 60000 3 5000.

Definition yolov5Config : ModelConfig :=
  mkConfig "../models/yolov5/yolov5_model.json" [1; 640; 640; 3] 60000 3 5000.

(** The same deployment without the model files. *)
Definition bareWorld : World :=
  mkWorld (list_to_map [ (upload, [255; 216; 255]) ]) ∅ ∅ 0 0 [] 1000 [].

(** Every load of a model file is rejected after 40 ms. *)
Definition rejectingEnv : Env :=
  {| dirname := "/srv/utils";
     path_join := fun a b => a ++ "/" ++ b;
     path_resolve := fun p => p;
     base64_decode := fun _ => [];
     loadOutcome := fun _ => Rejects 40 "weights corrupted";
     predictOutcome := fun _ _ => Err (mkError "no model");
     sharp_metadata := fun _ => Ok (mkMetadata (Some 800) (Some 600));
     sharp_resize := fun b _ => Ok b;
     decodeImage := fun _ _ => Ok (mkImage 2 2 3 (fun _ => 128));
     argumentLimit := 120000 |}.

(** YOLOv5 reports 0.75 for "Healthy", YOLOv7 0.5 for "Late Blight". *)
Definition clearEnv : Env :=
  env (Ok (scores [quarter; dyadic 3 (-2)])) (Ok (scores [quarter; quarter; half])).

Definition clearResults : option ImageResults :=
  Eval vm_compute in
    resultsOf (run clearEnv (analyzeImage clearEnv request)
                   (world (Z.to_nat 10240))).

(** YOLOv5 reports 0.5 for "Healthy"; YOLOv7's forward pass succeeds with
    an empty output. *)
Definition emptyEnv : Env :=
  env (Ok (scores [quarter; half])) (Ok (scores [])).

(** YOLOv5 reports 0.75 for "Late Blight"; YOLOv7's forward pass throws. *)
Definition brokenEnv : Env :=
  env (Ok (scores [quarter; half; dyadic 3 (-2)]))
      (Err (mkError "yolov7 forward pass failed")).

End Scenario.

(** ** utils/modelInitialization.js: the rest of the exported API *)

Module ModelLifecycle.

Import ModelInitialization.

(** [Object.keys(MODEL_CONFIG)], in the order the keys are written. *)
Definition modelNames : list string := ["yolov5"; "yolov7"].

(** [getModelConfig]: a copy of the configuration, or [null]. *)
Definition getModelConfig (modelName : string) : option ModelConfig :=
  MODEL_CONFIG !! modelName.

(** [cleanupModels(modelName = null)]: the models it disposes, by name,
    and the world it leaves. A name that is falsy (absent, [null] or the
    empty string) takes the branch that cleans every model; the order in
    which that branch disposes the models is not kept. *)
Definition cleanupModels (modelName : option string) (w : World)
    : gmap string Model * World :=
  match modelName with
  | Some name =>
      if JS.truthy name then
        match modelCache w !! name with
        | Some model =>
            ({[ name := model ]}, setCache (delete name (modelCache w)) w)
        | None => (∅, w)
        end
      else (modelCache w, setCache ∅ w)
  | None => (modelCache w, setCache ∅ w)
  end.

Section WithEnv.
Context (env : Env).

(** [getModel(modelName).catch((error) => null)]. *)
Definition loadedOrNull (modelName : string) : prog (option Model) :=
  try_catch (model <- getModel env modelName ;; Ret (Some model))
            (fun _ => Ret None).

(** [await Promise.all(modelPromises)] over the names: every call runs to
    settlement whether or not another fails, in the order of the names
    (the interleaving is fixed as for [Promise_all2]). *)
Fixpoint allSettled (names : list string) : prog (list (option Model)) :=
  match names with
  | [] => Ret []
  | name :: rest =>
      model <- loadedOrNull name ;;
      models <- allSettled rest ;;
      Ret (model :: models)
  end.

(** The Map that [initializeAllModels] returns is [modelCache] itself:
    the cache of the world the run ends in. *)
Definition initializeAllModels : prog unit :=
  allSettled modelNames ;;; Ret tt.

End WithEnv.

End ModelLifecycle.

(** ** controllers/detectionController.js: the health check *)

Module Health.

Import ModelLifecycle DetectionController.

(** [data] of the health check's answer. *)
Record HealthData := mkHealth
  { service : string;
    serviceStatus : string;
    yolov5Loaded : bool;
    yolov7Loaded : bool;
    healthTimestamp : Z }.

(** [modelManager.getModelConfig(name) !== null]. *)
Definition configured (name : string) : bool :=
  match getModelConfig name with
  | Some _ => true
  | None => false
  end.

Definition healthCheck : prog (Response HealthData) :=
  try_catch
    (let yolov5 := configured "yolov5" in
     let yolov7 := configured "yolov7" in
     now <- call DateNow ;;
     respond 200 true
             (Some (mkHealth "detection" "operational" yolov5 yolov7 now))
             "Detection service is operational" None)
    (fun error =>
       respond 503 false None "Detection service health check failed"
               (Some error)).

End Health.

(** ** routes/detectionRoutes.js: the camera-stream route *)

Module Routes.

Import DetectionController.

(** The JSON a validator answers with: it is written out in the
    middleware, without [createResponse]. *)
Record Refusal := mkRefusal
  { refusalStatus : Z;
    refusalMessage : string;
    refusalError : string }.

(** [validateStreamInput]: a refusal, or [None] for [next()]. The
    request body is an object whose [imageData] is absent or a string. *)
Definition validateStreamInput (req : StreamRequest) : option Refusal :=
  match imageData req with
  | None =>
      Some (mkRefusal 400 "No image data provided"
                      "Request body must include imageData")
  | Some imageData =>
      if negb (JS.truthy imageData) then
        Some (mkRefusal 400 "No image data provided"
                        "Request body must include imageData")
      else if negb (String.prefix "data:image" imageData) then
        Some (mkRefusal 400 "Invalid image data format"
                "Image data should be a base64 string with data URI format")
      else None
  end.

(** [router.post("/stream", express.json(...), validateStreamInput,
    handler)]: the handler calls the controller. *)
Definition streamRoute (env : Env) (req : StreamRequest)
    : prog (Refusal + Response StreamResults) :=
  match validateStreamInput req with
  | Some refusal => Ret (inl refusal)
  | None => resp <- analyzeStream env req ;; Ret (inr resp)
  end.

End Routes.

(** ** What a program can touch *)

Module Footprint.

(** Every operation the program can reach is one of [allowed], whatever
    the operations before it answered. *)
Fixpoint only (allowed : forall X, eff X -> bool) {A} (p : prog A) : Prop :=
  match p with
  | Do op k => allowed _ op = true /\ forall x, only allowed (k x)
  | _ => True
  end.

(** Operations that read the world and change nothing of it but the
    trace. *)
Definition observes {X} (op : eff X) : bool :=
  match op with
  | CacheLookup _ | AwaitData _ | FsAccess _ | FsStat _ | FsReadFile _
  | SharpMetadata _ | SharpResizeToBuffer _ _ | DateNow | AwaitTick => true
  | _ => false
  end.

(** Operations that neither write a file nor start or settle a
    deletion. *)
Definition offDisk {X} (op : eff X) : bool :=
  match op with
  | FsUnlinkStart _ | AwaitUnlinks | SharpResizeToFile _ _ _ => false
  | _ => true
  end.

(** Operations that leave the model cache and the count of loads
    alone. *)
Definition offModels {X} (op : eff X) : bool :=
  match op with
  | CacheSet _ _ | TfLoadGraphModel _ => false
  | _ => true
  end.

(** Operations that do not let time pass. *)
Definition instant {X} (op : eff X) : bool :=
  match op with
  | AwaitRace _ _ _ | AwaitTimer _ => false
  | _ => true
  end.

(** Two worlds that differ in their traces at most. *)
Definition sameButTrace (w w' : World) : Prop :=
  files w' = files w /\ modelCache w' = modelCache w
  /\ tensors w' = tensors w /\ nextTensor w' = nextTensor w
  /\ loadsStarted w' = loadsStarted w
  /\ pendingUnlinks w' = pendingUnlinks w /\ clock w' = clock w.

(** [stays env I p]: started in a world of [I], the program is in a
    world of [I] after each of its operations. *)
Fixpoint stays (env : Env) (I : World -> Prop) {A} (p : prog A) : Prop :=
  match p with
  | Do op k =>
      forall w,
        I w ->
        I (perform env op w).2 /\ stays env I (k (perform env op w).1)
  | _ => True
  end.

(** The worlds with the given cache and count of loads. *)
Definition warm (cache : gmap string Model) (loads : nat) (w : World) : Prop :=
  modelCache w = cache /\ loadsStarted w = loads.

(** The engine numbers tensors upwards: every live tensor has a number
    below the next one to be given out. *)
Definition tensorsFresh (w : World) : Prop :=
  forall t, is_Some (tensors w !! t) -> (t < nextTensor w)%nat.

End Footprint.

(** ** The order of the scores *)

Module Order.

(** A position on a line for every Number but NaN: the order of the
    positions, read left to right, is the order [<] of the Numbers. *)
Definition rank (x : JS.number) : Z * (Z * Z) :=
  match x with
  | S754_nan => (0, (0, 0))
  | S754_infinity true => (-2, (0, 0))
  | S754_finite true m e => (-1, (- e, - Z.pos m))
  | S754_zero _ => (0, (0, 0))
  | S754_finite false m e => (1, (e, Z.pos m))
  | S754_infinity false => (2, (0, 0))
  end.

Definition before (a b : Z * (Z * Z)) : Prop :=
  a.1 < b.1
  \/ (a.1 = b.1
      /\ (a.2.1 < b.2.1 \/ (a.2.1 = b.2.1 /\ a.2.2 < b.2.2))).

End Order.

(** ** More deployments *)

Module Cases.

Import ModelInitialization ImageProcessor DetectionController.

(** No load of a model file ever settles. *)
Definition stalledEnv : Env :=
  {| dirname := "/srv/utils";
     path_join := fun a b => a ++ "/" ++ b;
     path_resolve := fun p => p;
     base64_decode := fun _ => [];
     loadOutcome := fun _ => NeverSettles;
     predictOutcome := fun _ _ => Err (mkError "no model");
     sharp_metadata := fun _ => Ok (mkMetadata (Some 800) (Some 600));
     sharp_resize := fun b _ => Ok b;
     decodeImage := fun _ _ => Ok (mkImage 2 2 3 (fun _ => 128));
     argumentLimit := 120000 |}.

(** sharp refuses every buffer. *)
Definition unreadableEnv : Env :=
  {| dirname := "/srv/utils";
     path_join := fun a b => a ++ "/" ++ b;
     path_resolve := fun p => p;
     base64_decode := fun _ => [];
     loadOutcome := fun _ => Resolves 1200;
     predictOutcome := fun _ _ => Err (mkError "no model");
     sharp_metadata := fun _ => Ok (mkMetadata (Some 800) (Some 600));
     sharp_resize := fun _ _ =>
       Err (mkError "Input buffer contains unsupported image format");
     decodeImage := fun _ _ => Ok (mkImage 2 2 3 (fun _ => 128));
     argumentLimit := 120000 |}.

(** The deployment of [Scenario.clearEnv] on an engine that takes two
    arguments in one call. *)
Definition narrowEnv : Env :=
  {| dirname := "/srv/utils";
     path_join := fun a b => a ++ "/" ++ b;
     path_resolve := fun p => p;
     base64_decode := fun _ => [];
     loadOutcome := fun _ => Resolves 1200;
     predictOutcome := fun m _ =>
       if Str.includes "yolov5" (mUrl m)
       then Ok (Scenario.scores [Scenario.quarter; Scenario.half])
       else Ok (Scenario.scores [Scenario.quarter; Scenario.quarter;
                                 Scenario.half]);
     sharp_metadata := fun _ => Ok (mkMetadata (Some 800) (Some 600));
     sharp_resize := fun b _ => Ok b;
     decodeImage := fun _ _ => Ok (mkImage 2 2 3 (fun _ => 128));
     argumentLimit := 2 |}.

(** The input tensor of the forward passes of [Scenario.request]. *)
Definition uploadTensor : TensorInfo :=
  mkTensor [1; 2; 2; 3] (fun _ => F32.div (F32.of_Z 128) (F32.of_Z 255)).

End Cases.

(** * Properties *)

(** ** Running programs *)

Section RunLemmas.
Context (env : Env).

Lemma run_bind {A B} (p : prog A) (f : A -> prog B) (w : World) :
  run env (bind p f) w =
  match run env p w with
  | (Ok a, w') => run env (f a) w'
  | (Err e, w') => (Err e, w')
  end.
Proof.
  revert w. induction p as [a | e | X op k IH]; intros w; cbn; [done | done |].
  destruct (perform env op w) as [x w']. apply IH.
Qed.

Lemma run_try_catch {A} (p : prog A) (h : Error -> prog A) (w : World) :
  run env (try_catch p h) w =
  match run env p w with
  | (Ok a, w') => (Ok a, w')
  | (Err e, w') => run env (h e) w'
  end.
Proof.
  revert w. induction p as [a | e | X op k IH]; intros w; cbn; [done | done |].
  destruct (perform env op w) as [x w']. apply IH.
Qed.

Lemma run_settled {A} (p : prog A) (w : World) :
  run env (settled p) w = (Ok (run env p w).1, (run env p w).2).
Proof.
  unfold settled. rewrite run_try_catch, run_bind.
  destruct (run env p w) as [[a | e] w']; reflexivity.
Qed.

Lemma run_call {X} (op : eff X) (w : World) :
  run env (call op) w = (Ok (perform env op w).1, (perform env op w).2).
Proof. cbn. destruct (perform env op w); reflexivity. Qed.

Lemma run_attempt {X} (op : eff (result X)) (w : World) :
  run env (attempt op) w = perform env op w.
Proof. cbn. destruct (perform env op w) as [[x | e] w']; reflexivity. Qed.

End RunLemmas.

(** ** The label table *)

Lemma labelMap_lookup_in (i : Z) :
  0 <= i <= 8 ->
  exists l, Tables.labelMap !! i = Some l /\ JS.truthy l = true.
Proof.
  intros Hi.
  assert (Hcases : i = 0 \/ i = 1 \/ i = 2 \/ i = 3 \/ i = 4 \/ i = 5
                   \/ i = 6 \/ i = 7 \/ i = 8) by lia.
  repeat (destruct Hcases as [-> | Hcases]); try subst i;
    eexists; (split; [vm_compute; reflexivity | reflexivity]).
Qed.

Lemma labelMap_lookup_out (i : Z) :
  ~ (0 <= i <= 8) -> Tables.labelMap !! i = None.
Proof.
  intros Hi. unfold Tables.labelMap. cbn [list_to_map foldr].
  repeat (rewrite lookup_insert_ne by (cbn; lia)).
  apply lookup_empty.
Qed.

(** C8. The index-to-label mapping is total. The table has exactly the
    nine entries 0..8; an index of the table is mapped to the table's
    label and every other index, -1 included, to "Unknown". *)
Theorem diseaseName_total (classIndex : Z) :
  size Tables.labelMap = 9%nat
  /\ (is_Some (Tables.labelMap !! classIndex) <-> 0 <= classIndex <= 8)
  /\ Tables.diseaseName classIndex
     = default "Unknown" (Tables.labelMap !! classIndex).
Proof.
  split; [vm_compute; reflexivity |].
  destruct (decide (0 <= classIndex <= 8)) as [Hin | Hout].
  - destruct (labelMap_lookup_in classIndex Hin) as (l & Hl & Htruthy).
    unfold Tables.diseaseName. rewrite Hl. cbn. rewrite Htruthy.
    split; [split; eauto | reflexivity].
  - pose proof (labelMap_lookup_out classIndex Hout) as Hnone.
    unfold Tables.diseaseName. rewrite Hnone. cbn.
    split; [split; [intros [l Hl]; discriminate | intros Hin; destruct (Hout Hin)] |].
    reflexivity.
Qed.

(** ** Comparing numbers *)

Lemma SFcompare_opp (x y : JS.number) :
  SFcompare x y = CompOpp <$> SFcompare y x.
Proof.
  destruct x as [sx | sx | | sx mx ex], y as [sy | sy | | sy my ey]; cbn;
    try reflexivity;
    try (destruct sx; reflexivity); try (destruct sy; reflexivity);
    try (destruct sx, sy; reflexivity).
  destruct sx, sy; cbn; try reflexivity;
    rewrite (Z.compare_antisym ex ey);
    destruct (ex ?= ey); cbn; try reflexivity;
    pose proof (Pos.compare_cont_antisym my mx Eq) as Hm; cbn in Hm;
    rewrite <- Hm; destruct (Pos.compare_cont Eq my mx); reflexivity.
Qed.

Lemma SFcompare_refl (x : JS.number) :
  x <> JS.NaN -> SFcompare x x = Some Eq.
Proof.
  intros Hx. destruct x as [s | s | | s m e]; cbn; try reflexivity.
  - destruct s; reflexivity.
  - destruct (Hx eq_refl).
  - rewrite Z.compare_refl.
    change (Pos.compare_cont Eq m m) with (Pos.compare m m).
    rewrite Pos.compare_refl. destruct s; reflexivity.
Qed.

Lemma SFcompare_total (x y : JS.number) :
  x <> JS.NaN -> y <> JS.NaN -> is_Some (SFcompare x y).
Proof.
  intros Hx Hy.
  destruct x as [sx | sx | | sx mx ex], y as [sy | sy | | sy my ey]; cbn;
    try (destruct (Hx eq_refl)); try (destruct (Hy eq_refl)); eauto.
Qed.

(** [x > y] on Numbers is [SFcompare x y = Some Gt]. *)
Lemma gt_compare (x y : JS.value) :
  JS.gt x y =
  match SFcompare (JS.ToNumber x) (JS.ToNumber y) with
  | Some Gt => true
  | _ => false
  end.
Proof.
  unfold JS.gt, SFltb.
  rewrite (SFcompare_opp (JS.ToNumber y) (JS.ToNumber x)).
  destruct (SFcompare (JS.ToNumber x) (JS.ToNumber y)) as [[ | | ] | ];
    reflexivity.
Qed.

(** ** The primary entry *)

Section Primary.
Import DetectionController.

(** What [selectPrimary] decides, by the order of the two confidences:
    YOLOv5 when its confidence is strictly greater, YOLOv7 when it is
    smaller, on a tie, and when the two do not compare. *)
Lemma selectPrimary_by_order (yolov5 yolov7 : Analysis) :
  selectPrimary yolov5 yolov7 =
  match SFcompare (JS.ToNumber (confidence yolov5))
                  (JS.ToNumber (confidence yolov7)) with
  | Some Gt => entryOf "YOLOv5" yolov5
  | Some Lt => entryOf "YOLOv7" yolov7
  | Some Eq => entryOf "YOLOv7" yolov7
  | None => entryOf "YOLOv7" yolov7
  end.
Proof.
  unfold selectPrimary. rewrite gt_compare.
  destruct (SFcompare _ _) as [[ | | ] | ]; reflexivity.
Qed.

(** With two Numbers that compare, the confidence of the primary entry
    is their maximum. *)
Lemma selectPrimary_max (yolov5 yolov7 : Analysis) (n5 n7 : JS.number) :
  confidence yolov5 = JS.VNum n5 -> confidence yolov7 = JS.VNum n7 ->
  n5 <> JS.NaN -> n7 <> JS.NaN ->
  exists n,
    primaryConfidence (selectPrimary yolov5 yolov7) = JS.VNum n
    /\ (n = n5 \/ n = n7)
    /\ SFleb n5 n = true /\ SFleb n7 n = true.
Proof.
  intros H5 H7 Hn5 Hn7. rewrite selectPrimary_by_order, H5, H7. cbn.
  pose proof (SFcompare_opp n7 n5) as Hopp.
  pose proof (SFcompare_refl n5 Hn5) as Hr5.
  pose proof (SFcompare_refl n7 Hn7) as Hr7.
  destruct (SFcompare_total n5 n7 Hn5 Hn7) as [c Hc].
  rewrite Hc in Hopp |- *. cbn in Hopp.
  destruct c; cbn; rewrite ?H5, ?H7.
  - exists n7. unfold SFleb. rewrite Hc, Hr7. auto.
  - exists n7. unfold SFleb. rewrite Hc, Hr7. auto.
  - exists n5. unfold SFleb. rewrite Hopp, Hr5. auto.
Qed.

End Primary.

(** ** The two forward passes *)

Section Inference.
Import DetectionController.
Context (env : Env).

(** [predictBoth] returns entries only when both forward passes
    succeeded, and the entries are read off the two outputs. *)
Lemma predictBoth_ok (yolov5 yolov7 : Model) (tensor : Tensor) (w w' : World)
    (a5 a7 : Analysis) :
  run env (predictBoth env yolov5 yolov7 tensor) w = (Ok (a5, a7), w') ->
  exists info5 info7 out5 out7,
    predictOutcome env yolov5 info5 = Ok out5
    /\ predictOutcome env yolov7 info7 = Ok out7
    /\ a5 = readPrediction (dataOf out5)
    /\ a7 = readPrediction (dataOf out7).
Proof.
  unfold predictBoth, spreadMax. intros H. cbn in H.
  destruct (tensors w !! tensor) as [info5 |] eqn:Ht; [| discriminate].
  destruct (predictOutcome env yolov5 info5) as [out5 | e5] eqn:H5;
    [| discriminate].
  cbn in H.
  destruct (<[nextTensor w := out5]> (tensors w) !! tensor)
    as [info7 |] eqn:Ht7; [| discriminate].
  destruct (predictOutcome env yolov7 info7) as [out7 | e7] eqn:H7;
    [| discriminate].
  cbn in H.
  rewrite lookup_insert_ne in H by lia.
  rewrite lookup_insert_eq in H. cbn in H.
  destruct (argumentLimit env <? Z.of_nat (length (dataOf out5)));
    [discriminate |].
  cbn in H. rewrite lookup_insert_eq in H. cbn in H.
  destruct (argumentLimit env <? Z.of_nat (length (dataOf out7)));
    [discriminate |].
  cbn in H. injection H as <- <- _.
  exists info5, info7, out5, out7. auto.
Qed.

End Inference.

(** ** Requests *)

Section Requests.
Import ModelInitialization ImageProcessor DetectionController Outcome.
Context (env : Env).

Local Arguments run env {A} p w : simpl never.

Lemma run_ret {A} (a : A) (w : World) : run env (Ret a) w = (Ok a, w).
Proof. reflexivity. Qed.

Lemma run_throw {A} (e : Error) (w : World) :
  run env (Throw e : prog A) w = (Err e, w).
Proof. reflexivity. Qed.

Lemma run_respond {D} (st : Z) (s : bool) (d : option D) (m : string)
    (e : option Error) (w : World) :
  run env (respond st s d m e) w =
  (Ok (mkResponse st
         (mkBody s (clock w) (if s then d else None)
                 (if JS.truthy m then Some m else None)
                 (if negb s then message <$> e else None))), w).
Proof. reflexivity. Qed.

(** A call that is not awaited never throws into its caller. *)
Lemma run_detached {A} (p : prog A) (w : World) :
  (run env (detached p) w).1 = Ok tt.
Proof.
  revert w. induction p as [a | e | X op k IH]; intros w; try reflexivity.
  cbn [detached]. destruct (is_async op); [reflexivity |].
  unfold run; fold (@run env unit). destruct (perform env op w) as [x w1].
  apply IH.
Qed.

Lemma run_Promise_all2 {A B} (p : prog A) (q : prog B) (w : World) :
  run env (Promise_all2 p q) w =
  let '(ra, w1) := run env p w in
  let '(rb, w2) := run env q w1 in
  (match ra, rb with
   | Ok a, Ok b => Ok (a, b)
   | Err e, _ => Err e
   | _, Err e => Err e
   end, w2).
Proof.
  unfold Promise_all2. rewrite run_bind, run_settled.
  destruct (run env p w) as [ra w1]. cbn [fst snd].
  rewrite run_bind, run_settled.
  destruct (run env q w1) as [rb w2]. cbn [fst snd].
  destruct ra, rb; reflexivity.
Qed.

(** What a response of the upload path can be: a refusal without data,
    or the results of two successful forward passes. *)
Lemma analyzeUpload_ok (file : UploadedFile) (startTime : Z)
    (filePath processedFilePath : string) (filesToCleanup : list string)
    (w w' : World) (resp : Response ImageResults) :
  run env (analyzeUpload env file startTime filePath processedFilePath
                         filesToCleanup) w = (Ok resp, w') ->
  match data (body resp) with
  | None =>
      success (body resp) = false /\ (status resp = 404 \/ status resp = 400)
  | Some r =>
      status resp = 200 /\ success (body resp) = true
      /\ analysis r = selectPrimary (yolov5Analysis r) (yolov7Analysis r)
      /\ fromForwardPasses env (yolov5Analysis r) (yolov7Analysis r)
  end.
Proof.
  unfold analyzeUpload, fromForwardPasses. intros H.
  rewrite run_bind, run_settled in H.
  destruct (run env (attempt (FsAccess filePath)) w) as [[[] | e0] w0];
    cbn [fst snd] in H.
  2:{ rewrite run_respond in H. injection H as <- _. cbn. auto. }
  rewrite run_bind, run_settled in H.
  destruct (run env (checkImageQuality filePath noQualityOptions) w0)
    as [[q | e1] w1]; cbn [fst snd] in H.
  2:{ rewrite run_respond in H. injection H as <- _. cbn. auto. }
  rewrite run_bind in H.
  destruct (run env (attempt (SharpResizeToFile _ _ _)) w1) as [[[] | e2] w2];
    [| discriminate].
  rewrite run_bind in H.
  destruct (run env (Promise_all2 _ _) w2) as [[[yolov5 yolov7] | e3] w3];
    [| discriminate].
  rewrite run_bind in H.
  destruct (run env (attempt (FsReadFile _)) w3) as [[imageBuffer | e4] w4];
    [| discriminate].
  rewrite run_bind in H.
  destruct (run env (preprocessImage _) w4) as [[tensor | e5] w5];
    [| discriminate].
  rewrite run_bind in H.
  destruct (run env (predictBoth env yolov5 yolov7 tensor) w5)
    as [[[a5 a7] | e6] w6] eqn:Hpredict; [| discriminate].
  rewrite run_bind, run_call in H. cbn [fst snd] in H.
  rewrite run_bind in H.
  pose proof (run_detached (cleanupFiles filesToCleanup)
                           (perform env DateNow w6).2) as Hd.
  destruct (run env (detached (cleanupFiles filesToCleanup)) _)
    as [[[] | e7] w7]; [| discriminate].
  rewrite run_respond in H. injection H as <- _. cbn.
  destruct (predictBoth_ok env _ _ _ _ _ _ _ Hpredict)
    as (info5 & info7 & out5 & out7 & H5 & H7 & -> & ->).
  repeat split; eauto 10.
Qed.

(** [analyzeImage] always answers. *)
Lemma analyzeImage_returns (req : ImageRequest) (w : World) :
  exists resp w', run env (analyzeImage env req) w = (Ok resp, w').
Proof.
  unfold analyzeImage. rewrite run_bind, run_call. cbn [fst snd].
  destruct (reqFile req) as [file |].
  - rewrite run_try_catch.
    destruct (run env (analyzeUpload _ _ _ _ _ _) _) as [[resp | e] w1];
      [eauto |].
    rewrite run_bind.
    pose proof (run_detached
      (cleanupFiles [path_resolve env (uploadPath file);
                     path_resolve env (uploadPath file) ++ "_processed.jpg"])
      w1) as Hd.
    destruct (run env (detached _) w1) as [[[] | e'] w2]; [| discriminate].
    rewrite run_respond. eauto.
  - rewrite run_respond. eauto.
Qed.

Lemma analyzeImage_response (req : ImageRequest) (w w' : World)
    (resp : Response ImageResults) :
  run env (analyzeImage env req) w = (Ok resp, w') -> imageOutcome env resp.
Proof.
  unfold analyzeImage, imageOutcome. rewrite run_bind, run_call.
  cbn [fst snd]. intros H.
  destruct (reqFile req) as [file |].
  - rewrite run_try_catch in H.
    destruct (run env (analyzeUpload _ _ _ _ _ _) _) as [[resp0 | e] w1]
      eqn:Hup.
    + injection H as -> _.
      pose proof (analyzeUpload_ok _ _ _ _ _ _ _ _ Hup) as Hok.
      destruct (data (body resp)); intuition.
    + rewrite run_bind in H.
      pose proof (run_detached
        (cleanupFiles [path_resolve env (uploadPath file);
                       path_resolve env (uploadPath file) ++ "_processed.jpg"])
        w1) as Hd.
      destruct (run env (detached _) w1) as [[[] | e'] w2]; [| discriminate].
      rewrite run_respond in H. injection H as <- _. cbn. auto.
  - rewrite run_respond in H. injection H as <- _. cbn. auto.
Qed.

(** Case analysis on the first run that [H] is waiting for. *)
Tactic Notation "next_run" hyp(H) "as" simple_intropattern(pat) :=
  match type of H with
  | context [run ?e ?p ?w0] => destruct (run e p w0) as pat eqn:?
  end.

Ltac refused H := rewrite run_respond in H; injection H as <- _; cbn; auto.

Lemma analyzeStream_returns (req : StreamRequest) (w : World) :
  exists resp w', run env (analyzeStream env req) w = (Ok resp, w').
Proof.
  unfold analyzeStream. rewrite run_bind, run_call. cbn [fst snd].
  rewrite run_try_catch.
  match goal with
  | |- context [run env ?p ?w0] => destruct (run env p w0) as [[resp | e] w1]
  end; [eauto |].
  rewrite run_respond. eauto.
Qed.

Lemma analyzeStream_response (req : StreamRequest) (w w' : World)
    (resp : Response StreamResults) :
  run env (analyzeStream env req) w = (Ok resp, w') -> streamOutcome env resp.
Proof.
  unfold analyzeStream, streamOutcome, fromForwardPasses.
  rewrite run_bind, run_call. cbn [fst snd]. rewrite run_try_catch.
  intros H.
  destruct (imageData req) as [imageData |]; [| refused H].
  destruct (JS.truthy imageData); cbn [negb] in H; [| refused H].
  rewrite run_bind in H.
  next_run H as [[[yolov5 yolov7] | e3] w3]; [| refused H].
  rewrite run_bind in H.
  next_run H as [[buffer | e4] w4]; [| refused H].
  rewrite run_bind in H.
  next_run H as [[tensor | e5] w5]; [| refused H].
  rewrite run_bind in H.
  next_run H as [[[a5 a7] | e6] w6]; [| refused H].
  rewrite run_bind, run_call in H. cbn [fst snd] in H.
  rewrite run_respond in H. injection H as <- _. cbn.
  match goal with
  | Hp : run env (predictBoth _ _ _ _) _ = _ |- _ =>
      destruct (predictBoth_ok env _ _ _ _ _ _ _ Hp)
        as (info5 & info7 & out5 & out7 & H5 & H7 & -> & ->)
  end.
  repeat split; eauto 10.
Qed.

(** Every reported primary entry is [selectPrimary] of the two reported
    entries, which come from two successful forward passes. *)
Lemma reported_selectPrimary (a5 a7 : Analysis) (p : Primary) :
  reported env a5 a7 p ->
  p = selectPrimary a5 a7 /\ fromForwardPasses env a5 a7.
Proof.
  intros [req w w' resp r Hrun Hdata | req w w' resp r Hrun Hdata].
  - pose proof (analyzeImage_response _ _ _ _ Hrun) as Hout.
    unfold imageOutcome in Hout. rewrite Hdata in Hout. tauto.
  - pose proof (analyzeStream_response _ _ _ _ Hrun) as Hout.
    unfold streamOutcome in Hout. rewrite Hdata in Hout. tauto.
Qed.

End Requests.

(** ** What a model output is read as *)

Lemma indexOf_from_found (data : list JS.number) (x : JS.number) (i : Z) :
  JS.indexOf_from data x i = -1
  \/ exists (k : nat) (y : JS.number),
       JS.indexOf_from data x i = i + Z.of_nat k
       /\ data !! k = Some y /\ SFeqb y x = true.
Proof.
  revert i. induction data as [| y rest IH]; intros i; cbn; [auto |].
  destruct (SFeqb y x) eqn:Hyx.
  - right. exists 0%nat, y. cbn. split; [lia | auto].
  - destruct (IH (i + 1)) as [Hnone | (k & z & Hk & Hz & Hzx)]; [auto |].
    right. exists (S k), z. cbn. split; [lia | auto].
Qed.

(** A confidence that is a Number is an element of the output and is not
    NaN. *)
Lemma readPrediction_confidence (data : list JS.number) (n : JS.number) :
  DetectionController.confidence (DetectionController.readPrediction data)
  = JS.VNum n ->
  n ∈ data /\ n <> JS.NaN.
Proof.
  unfold DetectionController.readPrediction, DetectionController.classIndexOf,
    JS.indexOf, JS.get. cbn.
  destruct (indexOf_from_found data (JS.Math_max data) 0)
    as [-> | (k & y & -> & Hk & Hy)]; [discriminate |].
  destruct (Z.ltb_spec (0 + Z.of_nat k) 0) as [Hneg | Hneg]; [lia |].
  replace (Z.to_nat (0 + Z.of_nat k)) with k by lia.
  rewrite Hk. intros [= <-]. split.
  - eapply list_elem_of_lookup_2; eauto.
  - intros ->. discriminate.
Qed.

(** [Math.max] of numbers is one of them, or the start value when none
    is larger. *)
Lemma fold_max_step (data : list JS.number) :
  forall acc,
    acc <> JS.NaN -> Forall (fun x => x <> JS.NaN) data ->
    fold_left JS.max_step data acc <> JS.NaN
    /\ (fold_left JS.max_step data acc ∈ data
        \/ fold_left JS.max_step data acc = acc
           /\ Forall (fun x => SFltb acc x = false) data).
Proof.
  induction data as [| x rest IH]; intros acc Hacc Hdata; cbn.
  - split; [exact Hacc |]. right. split; [reflexivity | constructor].
  - apply Forall_cons in Hdata as [Hx Hrest].
    assert (Hstep : JS.max_step acc x = x
                    \/ JS.max_step acc x = acc /\ SFltb acc x = false).
    { unfold JS.max_step.
      destruct acc as [[] | | |], x as [[] | | |];
        try (destruct (Hacc eq_refl)); try (destruct (Hx eq_refl));
        auto; destruct (SFltb _ _) eqn:Hlt; auto. }
    destruct Hstep as [Hs | [Hs Hlt]]; rewrite Hs.
    + destruct (IH x Hx Hrest) as [Hnan [Hin | [Heq _]]].
      * split; [exact Hnan |]. left. apply elem_of_cons. auto.
      * split; [exact Hnan |]. left. rewrite Heq. apply elem_of_cons. auto.
    + destruct (IH acc Hacc Hrest) as [Hnan [Hin | [Heq Hall]]].
      * split; [exact Hnan |]. left. apply elem_of_cons. auto.
      * split; [exact Hnan |]. right. split; [exact Heq |].
        constructor; assumption.
Qed.

Lemma indexOf_from_finds (data : list JS.number) (x : JS.number) :
  forall i, 0 <= i -> x ∈ data -> x <> JS.NaN -> 0 <= JS.indexOf_from data x i.
Proof.
  induction data as [| y rest IH]; intros i Hi Hin Hx.
  - apply elem_of_nil in Hin. destruct Hin.
  - cbn. destruct (SFeqb y x) eqn:Hyx; [exact Hi |].
    apply elem_of_cons in Hin as [-> | Hin].
    + unfold SFeqb in Hyx. rewrite (SFcompare_refl y Hx) in Hyx. discriminate.
    + apply IH; [lia | exact Hin | exact Hx].
Qed.

(** An output with at least one score and no NaN is read as a Number. *)
Lemma readPrediction_numeric (data : list JS.number) :
  data <> [] -> Forall (fun x => x <> JS.NaN) data ->
  exists n,
    DetectionController.confidence (DetectionController.readPrediction data)
    = JS.VNum n.
Proof.
  intros Hne Hdata.
  assert (Hmax : JS.Math_max data ∈ data /\ JS.Math_max data <> JS.NaN).
  { unfold JS.Math_max.
    destruct (fold_max_step data JS.neg_Infinity ltac:(discriminate) Hdata)
      as [Hnan [Hin | [Heq Hall]]]; [auto |].
    split; [| exact Hnan]. rewrite Heq.
    destruct data as [| x rest]; [destruct (Hne eq_refl) |].
    apply Forall_cons in Hall as [Hx _].
    apply Forall_cons in Hdata as [Hxn _].
    destruct x as [| [] | |]; try discriminate; try (destruct (Hxn eq_refl)).
    apply elem_of_cons. auto. }
  destruct Hmax as [Hin Hnan].
  pose proof (indexOf_from_finds data _ 0 ltac:(lia) Hin Hnan) as Hpos.
  unfold DetectionController.readPrediction, DetectionController.classIndexOf,
    JS.indexOf, JS.get. cbn.
  destruct (indexOf_from_found data (JS.Math_max data) 0)
    as [Hnone | (k & y & Hk & Hy & _)]; [lia |].
  rewrite Hk.
  destruct (Z.ltb_spec (0 + Z.of_nat k) 0) as [Hneg | _]; [lia |].
  replace (Z.to_nat (0 + Z.of_nat k)) with k by lia.
  rewrite Hy. eauto.
Qed.

(** ** C1 and C10: the primary result *)

Section PrimaryResult.
Import DetectionController Outcome.

(** C1, as the code has it. For every pair of per-model results that a
    request (uploaded image or camera frame) is answered with, the
    primary result is YOLOv5's exactly when YOLOv5's confidence is
    strictly greater; when it is smaller, on an exact tie, and when the
    confidences do not compare, the primary result is YOLOv7's, the same
    way every time. *)
Theorem primary_by_strict_order (env : Env) (a5 a7 : Analysis) (p : Primary) :
  reported env a5 a7 p ->
  p = match SFcompare (JS.ToNumber (confidence a5))
                      (JS.ToNumber (confidence a7)) with
      | Some Gt => entryOf "YOLOv5" a5
      | Some Eq => entryOf "YOLOv7" a7
      | Some Lt => entryOf "YOLOv7" a7
      | None => entryOf "YOLOv7" a7
      end.
Proof.
  intros Hrep. destruct (reported_selectPrimary env a5 a7 p Hrep) as [-> _].
  rewrite selectPrimary_by_order.
  destruct (SFcompare _ _) as [[ | | ] | ]; reflexivity.
Qed.

(** The upload scenario answers with the entries of [r]. *)
Ltac reported_upload e :=
  match goal with
  | |- reported _ (yolov5Analysis ?r) _ _ =>
      eapply (reported_image e Scenario.request
                (Scenario.world (Z.to_nat 10240)) _ _ r);
      [vm_compute; reflexivity | reflexivity]
  end.

Lemma primary_by_strict_order_witness :
  match Scenario.tieResults with
  | Some r =>
      analysis r =
      match SFcompare (JS.ToNumber (confidence (yolov5Analysis r)))
                      (JS.ToNumber (confidence (yolov7Analysis r))) with
      | Some Gt => entryOf "YOLOv5" (yolov5Analysis r)
      | Some Eq => entryOf "YOLOv7" (yolov7Analysis r)
      | Some Lt => entryOf "YOLOv7" (yolov7Analysis r)
      | None => entryOf "YOLOv7" (yolov7Analysis r)
      end
  | None => False
  end.
Proof.
  cbv delta [Scenario.tieResults]. cbv iota.
  apply (primary_by_strict_order Scenario.tieEnv).
  reported_upload Scenario.tieEnv.
Defined.

(** On an exact tie (0.5 against 0.5) the request is answered with
    YOLOv7's entry as primary, not with the earlier-evaluated YOLOv5's. *)
Lemma tie_selects_yolov7 :
  exists r,
    Scenario.resultsOf
      (run Scenario.tieEnv (analyzeImage Scenario.tieEnv Scenario.request)
           (Scenario.world (Z.to_nat 10240))) = Some r
    /\ confidence (yolov5Analysis r) = JS.VNum Scenario.half
    /\ confidence (yolov7Analysis r) = JS.VNum Scenario.half
    /\ disease (yolov5Analysis r) = "Healthy"
    /\ analysis r = entryOf "YOLOv7" (yolov7Analysis r)
    /\ primaryDisease (analysis r) = "Early Blight".
Proof.
  eexists. split; [vm_compute; reflexivity |].
  repeat split; reflexivity.
Qed.

(** Every answer with results holds both per-model entries, each read off its model's output, and the primary
    entry is one of the two (same disease, confidence and
    recommendations). When both confidences are Numbers, the primary
    confidence is their maximum. *)
Lemma reported_entries (env : Env) (a5 a7 : Analysis) (p : Primary) :
  reported env a5 a7 p ->
  fromForwardPasses env a5 a7
  /\ (p = entryOf "YOLOv5" a5 \/ p = entryOf "YOLOv7" a7)
  /\ forall n5 n7,
       confidence a5 = JS.VNum n5 -> confidence a7 = JS.VNum n7 ->
       exists n,
         primaryConfidence p = JS.VNum n
         /\ (n = n5 \/ n = n7)
         /\ SFleb n5 n = true /\ SFleb n7 n = true.
Proof.
  intros Hrep.
  destruct (reported_selectPrimary env a5 a7 p Hrep) as [-> Hfrom].
  split; [exact Hfrom |]. split.
  - unfold selectPrimary. destruct (JS.gt _ _); auto.
  - intros n5 n7 H5 H7.
    destruct Hfrom as (m5 & m7 & i5 & i7 & o5 & o7 & _ & _ & -> & ->).
    apply selectPrimary_max; auto.
    + apply (readPrediction_confidence _ _ H5).
    + apply (readPrediction_confidence _ _ H7).
Qed.

(** Both forward passes succeed, YOLOv5 with confidence 0.5 and YOLOv7
    with an empty output: the primary entry is YOLOv7's, whose confidence
    is undefined, and not the 0.5 of the other entry. *)
Lemma empty_output_is_primary :
  exists r,
    Scenario.resultsOf
      (run Scenario.emptyEnv (analyzeImage Scenario.emptyEnv Scenario.request)
           (Scenario.world (Z.to_nat 10240))) = Some r
    /\ confidence (yolov5Analysis r) = JS.VNum Scenario.half
    /\ confidence (yolov7Analysis r) = JS.VUndefined
    /\ model (analysis r) = "YOLOv7"
    /\ primaryConfidence (analysis r) = JS.VUndefined.
Proof.
  eexists. split; [vm_compute; reflexivity |].
  repeat split; reflexivity.
Qed.

(** The same tie on a camera frame. *)
Example stream_tie_selects_yolov7 :
  exists r,
    Scenario.resultsOf
      (run Scenario.tieEnv (analyzeStream Scenario.tieEnv Scenario.frame)
           (Scenario.world 0)) = Some r
    /\ confidence (yolov5Prediction r) = JS.VNum Scenario.half
    /\ confidence (yolov7Prediction r) = JS.VNum Scenario.half
    /\ model (streamAnalysis r) = "YOLOv7".
Proof.
  eexists. split; [vm_compute; reflexivity |].
  repeat split; reflexivity.
Qed.

End PrimaryResult.

(** ** Loading a model *)

Lemma append_assoc (a b c : string) : (a ++ b) ++ c = a ++ (b ++ c).
Proof.
  induction a as [| ch a IH]; [reflexivity |].
  change (String ch ((a ++ b) ++ c) = String ch (a ++ (b ++ c))).
  f_equal. exact IH.
Qed.

Section Registry.
Import ModelInitialization Loading.
Context (env : Env).

Local Arguments run env {A} p w : simpl never.

Lemma attempts_app (a b : list event) :
  attempts (a ++ b) = (attempts a + attempts b)%nat.
Proof.
  induction a as [| ev a IH]; [reflexivity |].
  destruct ev; cbn; rewrite ?IH; reflexivity.
Qed.

Lemma steps_app (a b : list event) :
  steps (a ++ b) = (steps a ++ steps b)%list.
Proof. apply omap_app. Qed.

Lemma attempts_quiet (evs : list event) :
  Forall quiet evs -> attempts evs = 0%nat /\ steps evs = [].
Proof.
  induction 1 as [| ev evs Hev _ [IHa IHs]]; [auto |].
  destruct ev; cbn in *; try contradiction; auto.
Qed.

Lemma quiet_within (env' : Env) (timeout : Z) (evs : list event) :
  Forall quiet evs ->
  Forall (withinTimeout timeout) evs /\ Forall (resolvedInTime env' timeout) evs.
Proof.
  intros H. split; eapply Forall_impl; try exact H;
    intros ev Hq; destruct ev; cbn in *; try contradiction; auto.
Qed.

Lemma run_checkModelFiles (name : string) (config : ModelConfig) (w : World) :
  MODEL_CONFIG !! name = Some config ->
  run env (checkModelFiles env name) w =
  match files w !! modelFile env config with
  | Some _ =>
      (Ok (modelFile env config), log (EvAccess (modelFile env config) true) w)
  | None =>
      (Err (fileNotFound name), log (EvAccess (modelFile env config) false) w)
  end.
Proof.
  intros H. unfold checkModelFiles, modelFile. rewrite H.
  unfold run. cbn. destruct (files w !! _); reflexivity.
Qed.

(** A warmup never fails its caller and touches neither the cache, the
    files nor the load counter. *)
Lemma warmup_effect (name : string) (m : Model) (w : World) :
  exists evs,
    run env (warmupModel name m) w
    = (Ok tt, (run env (warmupModel name m) w).2)
    /\ trace (run env (warmupModel name m) w).2 = (trace w ++ evs)%list
    /\ Forall quiet evs
    /\ loadsStarted (run env (warmupModel name m) w).2 = loadsStarted w
    /\ modelCache (run env (warmupModel name m) w).2 = modelCache w
    /\ files (run env (warmupModel name m) w).2 = files w.
Proof.
  unfold warmupModel. destruct (MODEL_CONFIG !! name) as [config |].
  2:{ exists []. unfold run. cbn. rewrite app_nil_r.
      repeat split; constructor. }
  unfold run. cbn. rewrite lookup_insert_eq.
  destruct (predictOutcome env m _) as [out | e]; cbn.
  - eexists. split; [reflexivity |]. rewrite <- !app_assoc.
    split; [reflexivity |]. split; [| repeat split].
    repeat constructor.
  - eexists. split; [reflexivity |]. rewrite <- !app_assoc.
    split; [reflexivity |]. split; [| repeat split].
    repeat constructor.
Qed.

Lemma race_resolved (timeout elapsed : Z) (o : LoadOutcome) :
  race timeout o = (elapsed, Ok tt) -> o = Resolves elapsed /\ elapsed < timeout.
Proof.
  destruct o as [d | d msg |]; cbn; try discriminate.
  - destruct (Z.ltb_spec d timeout); intros [= <-]; auto.
  - destruct (Z.ltb_spec d timeout); discriminate.
Qed.

Lemma race_bounded (timeout : Z) (o : LoadOutcome) :
  (race timeout o).1 <= timeout.
Proof.
  destruct o as [d | d msg |]; cbn; try lia;
    destruct (Z.ltb_spec d timeout); cbn; lia.
Qed.

(** One iteration: one load is started and settles within the timeout;
    the model is cached exactly when the load resolved in time. *)
Lemma loadOnce_effect (name : string) (config : ModelConfig) (url : string)
    (w : World) :
  exists evs,
    let r := (run env (loadOnce name config url) w).1 in
    let w' := (run env (loadOnce name config url) w).2 in
    trace w' = (trace w ++ evs)%list
    /\ attempts evs = 1%nat
    /\ steps evs = [Attempt]
    /\ loadsStarted w' = S (loadsStarted w)
    /\ Forall (withinTimeout (timeout config)) evs
    /\ Forall (resolvedInTime env (timeout config)) evs
    /\ files w' = files w
    /\ match r with
       | Ok m =>
           m = mkModel url (loadsStarted w)
           /\ attemptError env config (loadsStarted w) = None
           /\ modelCache w' = <[name := m]> (modelCache w)
       | Err e =>
           attemptError env config (loadsStarted w) = Some e
           /\ modelCache w' = modelCache w
       end.
Proof.
  unfold loadOnce, attemptError.
  rewrite run_bind, run_call. cbn [fst snd perform].
  rewrite run_bind, run_attempt. cbn [perform].
  pose proof (race_bounded (timeout config) (loadOutcome env (loadsStarted w)))
    as Hbound.
  destruct (race (timeout config) (loadOutcome env (loadsStarted w)))
    as [elapsed [[] | e]] eqn:Hrace; cbn [fst snd] in *.
  - destruct (race_resolved _ _ _ Hrace) as [Hres Hlt].
    rewrite run_bind.
    match goal with
    | |- context [run env (warmupModel name ?m) ?w0] =>
        destruct (warmup_effect name m w0)
          as (evs & Hrun & Htrace & Hquiet & Hloads & Hcache & Hfiles);
        rewrite Hrun;
        set (w3 := (run env (warmupModel name m) w0).2) in *
    end.
    rewrite run_bind, run_call. cbn [fst snd perform]. rewrite run_ret.
    cbn [fst snd].
    destruct (attempts_quiet evs Hquiet) as [Ha Hs].
    destruct (quiet_within env (timeout config) evs Hquiet) as [Hw Hr].
    exists ([EvLoadStart (loadsStarted w) url;
             EvLoadSettled (loadsStarted w) elapsed true] ++ evs
            ++ [EvCacheSet name (mkModel url (loadsStarted w))])%list.
    cbn [trace log setCache]. rewrite Htrace. cbn [trace log advanceClock setLoads].
    rewrite <- !app_assoc. split; [reflexivity |].
    rewrite !attempts_app, !steps_app, Ha, Hs. cbn.
    split; [reflexivity |]. split; [reflexivity |].
    split; [rewrite Hloads; reflexivity |].
    split; [repeat (apply Forall_cons; split; [cbn; auto; lia |]);
            apply Forall_app; split; [exact Hw | repeat constructor] |].
    split; [repeat (apply Forall_cons; split; [cbn; auto |]);
            apply Forall_app; split; [exact Hr | repeat constructor] |].
    split; [rewrite Hfiles; reflexivity |].
    rewrite Hcache. auto.
  - exists [EvLoadStart (loadsStarted w) url;
            EvLoadSettled (loadsStarted w) elapsed false].
    cbn. rewrite <- !app_assoc.
    repeat split; try reflexivity; repeat constructor; cbn; auto.
Qed.

Lemma separated_S (delay : Z) (n : nat) :
  (0 < n)%nat ->
  separated delay (S n) = Attempt :: Wait delay :: separated delay n.
Proof. destruct n; [lia | reflexivity]. Qed.

(** The retry loop with [remaining] iterations to go. *)
Lemma retryLoop_effect (name : string) (config : ModelConfig) (url : string)
    (remaining : nat) :
  forall (attempt : Z) (lastError : option Error) (w : World),
    attempt + Z.of_nat remaining = retryAttempts config + 1 ->
    exists evs,
      let r :=
        (run env (retryLoop name config url remaining attempt lastError) w).1 in
      let w' :=
        (run env (retryLoop name config url remaining attempt lastError) w).2 in
      trace w' = (trace w ++ evs)%list
      /\ (attempts evs <= remaining)%nat
      /\ ((0 < remaining)%nat -> (0 < attempts evs)%nat)
      /\ loadsStarted w' = (loadsStarted w + attempts evs)%nat
      /\ Forall (withinTimeout (timeout config)) evs
      /\ Forall (resolvedInTime env (timeout config)) evs
      /\ steps evs = separated (retryDelay config) (attempts evs)
      /\ files w' = files w
      /\ (forall k, (k < attempts evs - 1)%nat ->
                    attemptError env config (loadsStarted w + k) <> None)
      /\ match r with
         | Ok m =>
             m = mkModel url (loadsStarted w + attempts evs - 1)
             /\ attemptError env config (loadsStarted w + attempts evs - 1)
                = None
             /\ modelCache w' = <[name := m]> (modelCache w)
         | Err e =>
             attempts evs = remaining
             /\ modelCache w' = modelCache w
             /\ (forall k, (k < remaining)%nat ->
                   attemptError env config (loadsStarted w + k) <> None)
             /\ e = match match remaining with
                          | O => lastError
                          | S r' =>
                              attemptError env config (loadsStarted w + r')
                          end with
                    | Some last =>
                        mkError (failedAfter name config ++ ": " ++ message last)
                    | None =>
                        mkError
                          "Cannot read properties of null (reading 'message')"
                    end
         end.
Proof.
  induction remaining as [| r IH]; intros attempt lastError w Hinv.
  - exists []. cbn [retryLoop]. rewrite app_nil_r.
    destruct lastError; rewrite run_throw; cbn;
      repeat split; try reflexivity; try constructor; try lia;
      intros k Hk; lia.
  - cbn [retryLoop]. rewrite run_try_catch.
    destruct (loadOnce_effect name config url w)
      as (evs1 & Ht1 & Ha1 & Hs1 & Hl1 & Hw1 & Hr1 & Hf1 & Hres1).
    cbn zeta in Ht1, Hl1, Hf1, Hres1.
    destruct (run env (loadOnce name config url) w) as [[m | e] w1];
      cbn [fst snd] in *.
    + exists evs1. destruct Hres1 as (-> & Herr & Hcache).
      rewrite Ha1, Hs1. cbn.
      replace (loadsStarted w + 1 - 1)%nat with (loadsStarted w) by lia.
      repeat split; auto; try lia.
    + destruct Hres1 as (Herr & Hcache). rewrite run_bind.
      assert (Hstep :
        exists evs0 w2,
          run env (if attempt <? retryAttempts config
                   then call (AwaitTimer (retryDelay config)) else Ret tt) w1
          = (Ok tt, w2)
          /\ trace w2 = (trace w1 ++ evs0)%list
          /\ loadsStarted w2 = loadsStarted w1
          /\ files w2 = files w1 /\ modelCache w2 = modelCache w1
          /\ ((0 < r)%nat /\ evs0 = [EvWait (retryDelay config)]
              \/ r = 0%nat /\ evs0 = [])).
      { destruct (Z.ltb_spec attempt (retryAttempts config)).
        - eexists _, _. rewrite run_call. cbn [fst snd perform].
          split; [reflexivity |]. cbn. repeat split. left. split; [lia | auto].
        - eexists _, _. rewrite run_ret. split; [reflexivity |].
          rewrite app_nil_r. repeat split. right. split; [lia | auto]. }
      destruct Hstep as (evs0 & w2 & -> & Ht0 & Hl0 & Hf0 & Hc0 & Hcase).
      destruct (IH (attempt + 1) (Some e) w2 ltac:(lia))
        as (evs2 & Ht2 & Ha2 & Hp2 & Hl2 & Hw2 & Hr2 & Hs2 & Hf2 & Hfail2 & Hres2).
      cbn zeta in Ht2, Hl2, Hf2, Hres2.
      destruct (run env (retryLoop name config url r (attempt + 1) (Some e)) w2)
        as [res w3]; cbn [fst snd] in *.
      exists (evs1 ++ evs0 ++ evs2)%list.
      rewrite Ht2, Ht0, Ht1, <- !app_assoc.
      rewrite !attempts_app, !steps_app, Ha1, Hs1.
      assert (Ha0 : attempts evs0 = 0%nat)
        by (destruct Hcase as [[_ ->] | [_ ->]]; reflexivity).
      rewrite Ha0. cbn [Nat.add].
      split; [reflexivity |]. split; [lia |]. split; [lia |].
      split; [lia |].
      split; [apply Forall_app; split; [exact Hw1 |];
              apply Forall_app; split; [| exact Hw2];
              destruct Hcase as [[_ ->] | [_ ->]]; repeat constructor |].
      split; [apply Forall_app; split; [exact Hr1 |];
              apply Forall_app; split; [| exact Hr2];
              destruct Hcase as [[_ ->] | [_ ->]]; repeat constructor |].
      split.
      { destruct Hcase as [[Hpos ->] | [-> ->]].
        - rewrite Hs2, separated_S by auto. reflexivity.
        - assert (attempts evs2 = 0%nat) as Hz by lia.
          rewrite Hs2, Hz. reflexivity. }
      split; [congruence |].
      split.
      { intros k Hk. destruct k as [| k'].
        - rewrite Nat.add_0_r, Herr. discriminate.
        - replace (loadsStarted w + S k')%nat with (loadsStarted w2 + k')%nat
            by lia.
          apply Hfail2. lia. }
      destruct res as [m | e'].
      * destruct Hres2 as (-> & Hnone & Hcache2).
        replace (loadsStarted w + S (attempts evs2) - 1)%nat
          with (loadsStarted w2 + attempts evs2 - 1)%nat.
        2:{ destruct Hcase as [[Hpos _] | [-> _]]; [specialize (Hp2 Hpos) |];
              lia. }
        rewrite Hcache2, Hc0, Hcache. auto.
      * destruct Hres2 as (Hall & Hcache2 & Hfailed & ->).
        split; [lia |]. split; [congruence |].
        split.
        { intros k Hk. destruct k as [| k'].
          - rewrite Nat.add_0_r, Herr. discriminate.
          - replace (loadsStarted w + S k')%nat with (loadsStarted w2 + k')%nat
              by lia.
            apply Hfailed. lia. }
        destruct r as [| r'].
        -- rewrite Nat.add_0_r, Herr. reflexivity.
        -- replace (loadsStarted w + S r')%nat with (loadsStarted w2 + r')%nat
             by lia.
           reflexivity.
Qed.

Lemma run_loadModelWithRetry (name : string) (config : ModelConfig) (w : World) :
  MODEL_CONFIG !! name = Some config ->
  run env (loadModelWithRetry env name) w =
  match files w !! modelFile env config with
  | Some _ =>
      run env (retryLoop name config (modelUrl env config)
                         (Z.to_nat (retryAttempts config)) 1 None)
          (log (EvAccess (modelFile env config) true) w)
  | None =>
      (Err (fileNotFound name), log (EvAccess (modelFile env config) false) w)
  end.
Proof.
  intros H. unfold loadModelWithRetry.
  rewrite run_bind, run_try_catch, (run_checkModelFiles name config w H), H.
  destruct (files w !! modelFile env config); reflexivity.
Qed.

Lemma run_getModel_miss (name : string) (config : ModelConfig) (w : World) :
  MODEL_CONFIG !! name = Some config ->
  modelCache w !! name = None ->
  run env (getModel env name) w =
  run env (loadModelWithRetry env name) (log (EvCacheLookup name) w).
Proof.
  intros H Hmiss. unfold getModel. rewrite H, run_bind, run_call.
  cbn [fst snd perform]. rewrite Hmiss. reflexivity.
Qed.

Lemma run_getModel_hit (name : string) (config : ModelConfig) (m : Model)
    (w : World) :
  MODEL_CONFIG !! name = Some config ->
  modelCache w !! name = Some m ->
  run env (getModel env name) w = (Ok m, log (EvCacheLookup name) w).
Proof.
  intros H Hhit. unfold getModel. rewrite H, run_bind, run_call.
  cbn [fst snd perform]. rewrite Hhit. reflexivity.
Qed.

Lemma MODEL_CONFIG_retryAttempts (name : string) (config : ModelConfig) :
  MODEL_CONFIG !! name = Some config ->
  retryAttempts config = 3 /\ retryDelay config = 5000
  /\ timeout config = 60000
  /\ (name = "yolov5" \/ name = "yolov7").
Proof.
  unfold MODEL_CONFIG. cbn [list_to_map foldr]. intros H.
  destruct (decide (name = "yolov5")) as [-> | H5].
  - rewrite lookup_insert_eq in H. injection H as <-. auto.
  - rewrite lookup_insert_ne in H by (intros Heq; apply H5; symmetry; exact Heq).
    destruct (decide (name = "yolov7")) as [-> | H7].
    + rewrite lookup_insert_eq in H. injection H as <-. auto.
    + rewrite lookup_insert_ne in H by (intros Heq; apply H7; symmetry; exact Heq).
      rewrite lookup_empty in H. discriminate.
Qed.

End Registry.

(** C6. A configured model whose file is missing is refused at once: the
    load fails with the file-not-found error after the single file check,
    starts no load and waits for nothing, and so does [getModel] for a
    model that is not cached. *)
Theorem missing_files_fail_fast (env : Env) (name : string)
    (config : ModelInitialization.ModelConfig) (w : World) :
  ModelInitialization.MODEL_CONFIG !! name = Some config ->
  files w !! Loading.modelFile env config = None ->
  let failure :=
    mkError (Str.toUpperCase name
             ++ " model file not found. See console for details.") in
  let checked := EvAccess (Loading.modelFile env config) false in
  (exists w',
     run env (ModelInitialization.loadModelWithRetry env name) w
     = (Err failure, w')
     /\ trace w' = (trace w ++ [checked])%list
     /\ loadsStarted w' = loadsStarted w
     /\ clock w' = clock w
     /\ modelCache w' = modelCache w)
  /\ (modelCache w !! name = None ->
      exists w',
        run env (ModelInitialization.getModel env name) w = (Err failure, w')
        /\ trace w' = (trace w ++ [EvCacheLookup name; checked])%list
        /\ Loading.attempts [EvCacheLookup name; checked] = 0%nat
        /\ Loading.steps [EvCacheLookup name; checked] = []
        /\ loadsStarted w' = loadsStarted w
        /\ clock w' = clock w
        /\ modelCache w' = modelCache w).
Proof.
  intros Hconfig Hmissing failure checked. split.
  - rewrite (run_loadModelWithRetry env name config w Hconfig), Hmissing.
    eexists. split; [reflexivity |]. repeat split.
  - intros Hmiss.
    rewrite (run_getModel_miss env name config w Hconfig Hmiss).
    rewrite (run_loadModelWithRetry env name config _ Hconfig).
    cbn [files log]. rewrite Hmissing.
    eexists. split; [reflexivity |]. cbn. rewrite <- app_assoc.
    repeat split.
Qed.

Lemma missing_files_fail_fast_witness :
  ModelInitialization.MODEL_CONFIG !! "yolov5" = Some Scenario.yolov5Config
  /\ files Scenario.bareWorld
       !! Loading.modelFile Scenario.rejectingEnv Scenario.yolov5Config = None
  /\ exists w',
       run Scenario.rejectingEnv
           (ModelInitialization.loadModelWithRetry Scenario.rejectingEnv "yolov5")
           Scenario.bareWorld
       = (Err (mkError
                 "YOLOV5 model file not found. See console for details."), w')
       /\ trace w'
          = [EvAccess "/srv/utils/../models/yolov5/yolov5_model.json" false]
       /\ loadsStarted w' = 0%nat
       /\ clock w' = 1000
       /\ modelCache w' = ∅.
Proof.
  split; [vm_compute; reflexivity |]. split; [vm_compute; reflexivity |].
  apply (proj1 (missing_files_fail_fast Scenario.rejectingEnv "yolov5"
                  Scenario.yolov5Config Scenario.bareWorld
                  ltac:(vm_compute; reflexivity) ltac:(vm_compute; reflexivity))).
Defined.

(** C7. A configured model that is not cached and whose file exists is
    loaded with between one and [retryAttempts] calls of
    [tf.loadGraphModel]; every call settles within [timeout], and one
    that overruns it counts as failed; consecutive calls are separated by
    exactly one wait of [retryDelay]; the first success is cached and
    returned, and when every attempt fails a single error is raised that
    names the model and carries the last attempt's message. *)
Theorem load_retries_bounded (env : Env) (name : string)
    (config : ModelInitialization.ModelConfig) (w : World) :
  ModelInitialization.MODEL_CONFIG !! name = Some config ->
  modelCache w !! name = None ->
  is_Some (files w !! Loading.modelFile env config) ->
  exists evs,
    let r := (run env (ModelInitialization.getModel env name) w).1 in
    let w' := (run env (ModelInitialization.getModel env name) w).2 in
    let last := (loadsStarted w + Loading.attempts evs - 1)%nat in
    trace w'
    = (trace w ++ [EvCacheLookup name;
                   EvAccess (Loading.modelFile env config) true] ++ evs)%list
    /\ (1 <= Loading.attempts evs
             <= Z.to_nat (ModelInitialization.retryAttempts config))%nat
    /\ Forall (Loading.withinTimeout (ModelInitialization.timeout config)) evs
    /\ Forall (Loading.resolvedInTime env (ModelInitialization.timeout config))
              evs
    /\ Loading.steps evs
       = Loading.separated (ModelInitialization.retryDelay config)
                           (Loading.attempts evs)
    /\ (forall k, (k < Loading.attempts evs - 1)%nat ->
                  Loading.attemptError env config (loadsStarted w + k) <> None)
    /\ match r with
       | Ok m =>
           m = mkModel (Loading.modelUrl env config) last
           /\ Loading.attemptError env config last = None
           /\ modelCache w' !! name = Some m
       | Err e =>
           Loading.attempts evs
           = Z.to_nat (ModelInitialization.retryAttempts config)
           /\ exists lastError,
                Loading.attemptError env config last = Some lastError
                /\ e = mkError
                         ("Failed to load " ++ Str.toUpperCase name
                          ++ " model after "
                          ++ pretty (ModelInitialization.retryAttempts config)
                          ++ " attempts: " ++ message lastError)
       end.
Proof.
  intros Hconfig Hmiss [b Hfile].
  destruct (MODEL_CONFIG_retryAttempts name config Hconfig)
    as (Hattempts & _ & _ & _).
  rewrite (run_getModel_miss env name config w Hconfig Hmiss).
  rewrite (run_loadModelWithRetry env name config _ Hconfig).
  cbn [files log]. rewrite Hfile.
  destruct (retryLoop_effect env name config (Loading.modelUrl env config)
              (Z.to_nat (ModelInitialization.retryAttempts config)) 1 None
              (log (EvAccess (Loading.modelFile env config) true)
                   (log (EvCacheLookup name) w)) ltac:(lia))
    as (evs & Ht & Hle & Hpos & Hl & Hw & Hr & Hs & Hf & Hfail & Hres).
  cbn zeta in Ht, Hl, Hf, Hres. exists evs. cbn zeta.
  destruct (run env _ _) as [r w']. cbn [fst snd] in *.
  cbn [trace log loadsStarted modelCache] in *.
  rewrite Hattempts in *. specialize (Hpos ltac:(lia)).
  split; [rewrite Ht, <- !app_assoc; reflexivity |].
  split; [lia |]. split; [exact Hw |]. split; [exact Hr |].
  split; [exact Hs |]. split; [exact Hfail |].
  destruct r as [m | e].
  - destruct Hres as (-> & Hnone & Hcache).
    split; [reflexivity |]. split; [exact Hnone |].
    rewrite Hcache. apply lookup_insert_eq.
  - destruct Hres as (Hall & _ & Hfailed & ->). split; [exact Hall |].
    replace (loadsStarted w + Loading.attempts evs - 1)%nat
      with (loadsStarted w + 2)%nat by lia.
    change (Z.to_nat 3) with 3%nat in *. cbn iota.
    destruct (Loading.attemptError env config (loadsStarted w + 2))
      as [lastError |] eqn:Hlast.
    + exists lastError. split; [reflexivity |].
      unfold ModelInitialization.failedAfter. rewrite Hattempts.
      rewrite !append_assoc. reflexivity.
    + destruct (Hfailed 2%nat ltac:(lia) Hlast).
Qed.

Lemma load_retries_bounded_witness :
  let env := Scenario.rejectingEnv in
  let name := "yolov5" in
  let config := Scenario.yolov5Config in
  let w := Scenario.world 0 in
  ModelInitialization.MODEL_CONFIG !! name = Some config
  /\ modelCache w !! name = None
  /\ is_Some (files w !! Loading.modelFile env config)
  /\ exists evs,
       let r := (run env (ModelInitialization.getModel env name) w).1 in
       let w' := (run env (ModelInitialization.getModel env name) w).2 in
       let last := (loadsStarted w + Loading.attempts evs - 1)%nat in
       trace w'
       = (trace w ++ [EvCacheLookup name;
                      EvAccess (Loading.modelFile env config) true] ++ evs)%list
       /\ (1 <= Loading.attempts evs
               <= Z.to_nat (ModelInitialization.retryAttempts config))%nat
       /\ Forall (Loading.withinTimeout (ModelInitialization.timeout config)) evs
       /\ Forall (Loading.resolvedInTime env
                    (ModelInitialization.timeout config)) evs
       /\ Loading.steps evs
          = Loading.separated (ModelInitialization.retryDelay config)
                              (Loading.attempts evs)
       /\ (forall k, (k < Loading.attempts evs - 1)%nat ->
                     Loading.attemptError env config (loadsStarted w + k)
                     <> None)
       /\ match r with
          | Ok m =>
              m = mkModel (Loading.modelUrl env config) last
              /\ Loading.attemptError env config last = None
              /\ modelCache w' !! name = Some m
          | Err e =>
              Loading.attempts evs
              = Z.to_nat (ModelInitialization.retryAttempts config)
              /\ exists lastError,
                   Loading.attemptError env config last = Some lastError
                   /\ e = mkError
                            ("Failed to load " ++ Str.toUpperCase name
                             ++ " model after "
                             ++ pretty (ModelInitialization.retryAttempts config)
                             ++ " attempts: " ++ message lastError)
          end.
Proof.
  intros env name config w.
  split; [vm_compute; reflexivity |]. split; [reflexivity |].
  split; [eexists; vm_compute; reflexivity |].
  apply (load_retries_bounded env name config w);
    [vm_compute; reflexivity | reflexivity | eexists; vm_compute; reflexivity].
Defined.

(** With every load rejected after 40 ms: three attempts, two waits of
    5 s between them, and the aggregated error. *)
Example rejected_three_times :
  let r := run Scenario.rejectingEnv
             (ModelInitialization.getModel Scenario.rejectingEnv "yolov5")
             (Scenario.world 0) in
  r.1 = Err (mkError
          "Failed to load YOLOV5 model after 3 attempts: weights corrupted")
  /\ Loading.steps (trace r.2)
     = [Loading.Attempt; Loading.Wait 5000; Loading.Attempt;
        Loading.Wait 5000; Loading.Attempt]
  /\ clock r.2 = 1000 + 40 + 5000 + 40 + 5000 + 40.
Proof. vm_compute. repeat split; reflexivity. Qed.

(** ** The image quality check *)

Section Quality.
Import ImageProcessor DetectionController Loading.
Context (env : Env).

Local Arguments run env {A} p w : simpl never.

Lemma includes_Image (s : string) : Str.includes "Image" ("Image" ++ s) = true.
Proof. destruct s; reflexivity. Qed.

(** A file below 10240 bytes is refused after the [stat] alone. *)
Lemma checkImageQuality_small (path : string) (b : Buffer) (w : World) :
  files w !! path = Some b ->
  Z.of_nat (length b) < 10240 ->
  run env (checkImageQuality path noQualityOptions) w
  = (Err (tooSmallFile (Z.of_nat (length b)) 10240), log (EvStat path) w).
Proof.
  intros Hfile Hsize. unfold checkImageQuality.
  rewrite run_try_catch, run_bind, run_attempt. cbn [perform].
  rewrite Hfile. cbn [noQualityOptions optMinSize default].
  change (10 * 1024) with 10240.
  destruct (Z.ltb_spec (Z.of_nat (length b)) 10240) as [_ | Hge]; [| lia].
  rewrite run_throw.
  change (message (tooSmallFile (Z.of_nat (length b)) 10240))
    with ("Image" ++ (" file too small (" ++ pretty (Z.of_nat (length b))
                      ++ " bytes). Minimum size: " ++ pretty 10240 ++ " bytes")).
  rewrite includes_Image. reflexivity.
Qed.

(** A large enough file whose width or height is below 224 is refused
    after the metadata are read. *)
Lemma checkImageQuality_narrow (path : string) (b : Buffer) (m : Metadata)
    (w : World) :
  files w !! path = Some b ->
  10240 <= Z.of_nat (length b) ->
  sharp_metadata env b = Ok m ->
  lt_undef (metaWidth m) 224 || lt_undef (metaHeight m) 224 = true ->
  run env (checkImageQuality path noQualityOptions) w
  = (Err (tooSmallDimensions m 224 224),
     log (EvMetadata path) (log (EvStat path) w)).
Proof.
  intros Hfile Hsize Hmeta Hdims. unfold checkImageQuality.
  rewrite run_try_catch, run_bind, run_attempt. cbn [perform].
  rewrite Hfile. cbn [noQualityOptions optMinSize optMinWidth optMinHeight default].
  change (10 * 1024) with 10240.
  destruct (Z.ltb_spec (Z.of_nat (length b)) 10240) as [Hlt | _]; [lia |].
  rewrite run_bind, run_attempt. cbn [perform files log].
  rewrite Hfile, Hmeta, Hdims, run_throw.
  change (message (tooSmallDimensions m 224 224))
    with ("Image" ++ (" dimensions too small (" ++ Str.show (metaWidth m) ++ "x"
                      ++ Str.show (metaHeight m) ++ "). Minimum: " ++ pretty 224
                      ++ "x" ++ pretty 224)).
  rewrite includes_Image. reflexivity.
Qed.

End Quality.

(** C9. An uploaded file of fewer than 10240 bytes, or one that decodes to
    a width or a height below 224 pixels, is refused with status 400
    "Image quality check failed"; up to that answer no model is looked up
    or loaded and no forward pass runs. *)
Theorem low_quality_rejected (env : Env)
    (req : DetectionController.ImageRequest)
    (file : DetectionController.UploadedFile) (b : Buffer) (w : World) :
  DetectionController.reqFile req = Some file ->
  files w !! path_resolve env (DetectionController.uploadPath file) = Some b ->
  (Z.of_nat (length b) < 10240
   \/ exists m,
        sharp_metadata env b = Ok m
        /\ ((exists x, metaWidth m = Some x /\ x < 224)
            \/ (exists y, metaHeight m = Some y /\ y < 224))) ->
  exists resp w' evs,
    run env (DetectionController.analyzeImage env req) w = (Ok resp, w')
    /\ DetectionController.status resp = 400
    /\ DetectionController.success (DetectionController.body resp) = false
    /\ DetectionController.data (DetectionController.body resp) = None
    /\ DetectionController.bodyMessage (DetectionController.body resp)
       = Some "Image quality check failed"
    /\ trace w' = (trace w ++ evs)%list
    /\ Forall Loading.noModelEvent evs
    /\ modelCache w' = modelCache w
    /\ loadsStarted w' = loadsStarted w
    /\ tensors w' = tensors w.
Proof.
  intros Hreq Hfile Hlow.
  set (path := path_resolve env (DetectionController.uploadPath file)) in *.
  assert (Hquality :
    exists e evs0 w1,
      run env (ImageProcessor.checkImageQuality path
                 ImageProcessor.noQualityOptions)
          (log (EvAccess path true) w) = (Err e, w1)
      /\ trace w1 = (trace w ++ EvAccess path true :: evs0)%list
      /\ Forall Loading.noModelEvent evs0
      /\ modelCache w1 = modelCache w /\ loadsStarted w1 = loadsStarted w
      /\ tensors w1 = tensors w).
  { destruct (Z.lt_ge_cases (Z.of_nat (length b)) 10240) as [Hsmall | Hlarge].
    - eexists _, [EvStat path], _.
      rewrite (checkImageQuality_small env path b (log (EvAccess path true) w)
               Hfile Hsmall).
      split; [reflexivity |]. cbn. rewrite <- app_assoc.
      repeat split. repeat constructor.
    - destruct Hlow as [Hsmall | (m & Hmeta & Hdims)]; [lia |].
      eexists _, [EvStat path; EvMetadata path], _.
      rewrite (checkImageQuality_narrow env path b m
                 (log (EvAccess path true) w) Hfile Hlarge Hmeta).
      + split; [reflexivity |]. cbn. rewrite <- !app_assoc.
        repeat split. repeat constructor.
      + apply orb_true_iff.
        destruct Hdims as [(x & -> & Hx) | (y & -> & Hy)]; [left | right];
          cbn; apply Z.ltb_lt; assumption. }
  destruct Hquality as (e & evs0 & w1 & Hrun & Htrace & Hev & Hc & Hl & Ht).
  unfold DetectionController.analyzeImage.
  rewrite run_bind, run_call. cbn [perform fst snd]. rewrite Hreq.
  rewrite run_try_catch. unfold DetectionController.analyzeUpload.
  fold path.
  rewrite run_bind, run_settled, run_attempt. cbn [perform].
  rewrite Hfile. cbn [fst snd].
  rewrite run_bind, run_settled, Hrun. cbn [fst snd].
  eexists _, w1, (EvAccess path true :: evs0).
  split; [reflexivity |]. cbn.
  repeat split; auto. constructor; [exact I | exact Hev].
Qed.

Lemma low_quality_rejected_witness :
  let env := Scenario.tieEnv in
  let req := Scenario.request in
  let file := DetectionController.mkUpload Scenario.upload "leaf.jpg" in
  let b := replicate 5000 0 in
  let w := Scenario.world 5000 in
  DetectionController.reqFile req = Some file
  /\ files w !! path_resolve env (DetectionController.uploadPath file) = Some b
  /\ (Z.of_nat (length b) < 10240
      \/ exists m,
           sharp_metadata env b = Ok m
           /\ ((exists x, metaWidth m = Some x /\ x < 224)
               \/ (exists y, metaHeight m = Some y /\ y < 224)))
  /\ exists resp w' evs,
       run env (DetectionController.analyzeImage env req) w = (Ok resp, w')
       /\ DetectionController.status resp = 400
       /\ DetectionController.success (DetectionController.body resp) = false
       /\ DetectionController.data (DetectionController.body resp) = None
       /\ DetectionController.bodyMessage (DetectionController.body resp)
          = Some "Image quality check failed"
       /\ trace w' = (trace w ++ evs)%list
       /\ Forall Loading.noModelEvent evs
       /\ modelCache w' = modelCache w
       /\ loadsStarted w' = loadsStarted w
       /\ tensors w' = tensors w.
Proof.
  intros env req file b w.
  assert (Hsize : Z.of_nat (length b) < 10240) by (vm_compute; reflexivity).
  split; [reflexivity |]. split; [vm_compute; reflexivity |].
  split; [left; exact Hsize |].
  apply (low_quality_rejected env req file b w);
    [reflexivity | vm_compute; reflexivity | left; exact Hsize].
Defined.

(** ** The cache across a request *)

Section CacheFrame.
Import ModelInitialization ImageProcessor DetectionController Loading Outcome.
Context (env : Env).

Local Arguments run env {A} p w : simpl never.

(** Only [modelCache.set] changes the cache. *)
Lemma perform_modelCache {X} (op : eff X) (w : World) :
  modelCache (perform env op w).2 =
  match op with
  | CacheSet name m => <[name := m]> (modelCache w)
  | _ => modelCache w
  end.
Proof. destruct op; cbn; repeat case_match; reflexivity. Qed.

Lemma checkImageQuality_modelCache (path : string) (options : QualityOptions)
    (w : World) :
  modelCache (run env (checkImageQuality path options) w).2 = modelCache w.
Proof.
  unfold checkImageQuality. rewrite run_try_catch, run_bind, run_attempt.
  pose proof (perform_modelCache (FsStat path) w) as H1.
  destruct (perform env (FsStat path) w) as [[size | e1] w1]; cbn [snd] in H1.
  - destruct (size <? _).
    + rewrite run_throw. destruct (Str.includes _ _); rewrite run_throw; exact H1.
    + rewrite run_bind, run_attempt.
      pose proof (perform_modelCache (SharpMetadata path) w1) as H2.
      destruct (perform env (SharpMetadata path) w1) as [[meta | e2] w2];
        cbn [snd] in H2.
      * destruct (_ || _); rewrite ?run_throw, ?run_ret;
          try (destruct (Str.includes _ _); rewrite run_throw);
          cbn [snd]; congruence.
      * destruct (Str.includes _ _); rewrite run_throw; cbn [snd]; congruence.
  - destruct (Str.includes _ _); rewrite run_throw; exact H1.
Qed.

(** A model handed out by [getModel] was loaded from the file of its
    name, and the cache stays consistent. *)
Lemma getModel_consistent (name : string) (w : World) :
  cacheConsistent env w ->
  cacheConsistent env (run env (getModel env name) w).2
  /\ forall m,
       (run env (getModel env name) w).1 = Ok m ->
       exists config,
         MODEL_CONFIG !! name = Some config /\ mUrl m = modelUrl env config.
Proof.
  intros Hcons.
  destruct (MODEL_CONFIG !! name) as [config |] eqn:Hconfig.
  2:{ unfold getModel. rewrite Hconfig, run_throw. split; [exact Hcons |].
      discriminate. }
  destruct (modelCache w !! name) as [m0 |] eqn:Hcache.
  { rewrite (run_getModel_hit env name config m0 w Hconfig Hcache).
    split; [exact Hcons |]. intros m [= <-].
    destruct (Hcons name m0 Hcache) as (config' & Hc' & Hurl).
    rewrite Hconfig in Hc'. injection Hc' as <-.
    exists config. auto. }
  rewrite (run_getModel_miss env name config w Hconfig Hcache).
  rewrite (run_loadModelWithRetry env name config _ Hconfig).
  cbn [files log].
  destruct (files w !! modelFile env config) as [b |].
  2:{ split; [exact Hcons |]. discriminate. }
  destruct (MODEL_CONFIG_retryAttempts name config Hconfig) as (Hra & _).
  destruct (retryLoop_effect env name config (modelUrl env config)
              (Z.to_nat (retryAttempts config)) 1 None
              (log (EvAccess (modelFile env config) true)
                   (log (EvCacheLookup name) w)) ltac:(lia))
    as (evs & _ & _ & _ & _ & _ & _ & _ & _ & _ & Hres).
  cbn zeta in Hres.
  destruct (run env _ _) as [[m | e] w']; cbn [fst snd modelCache log] in *.
  - destruct Hres as (Hm & _ & Hcache').
    split.
    + intros name' m' Hlook. rewrite Hcache' in Hlook.
      destruct (decide (name = name')) as [<- | Hne].
      * rewrite lookup_insert_eq in Hlook. injection Hlook as <-.
        exists config. rewrite Hm. auto.
      * rewrite lookup_insert_ne in Hlook by exact Hne. eauto.
    + intros m' [= <-]. exists config. rewrite Hm. auto.
  - destruct Hres as (_ & Hcache' & _).
    split; [| discriminate].
    intros name' m' Hlook. rewrite Hcache' in Hlook. eauto.
Qed.

(** Results come from forward passes on the two models that [getModel]
    handed out, asked for with the cache as the request found it. *)
Lemma analyzeUpload_models (file : UploadedFile) (startTime : Z)
    (filePath processedFilePath : string) (filesToCleanup : list string)
    (w w' : World) (resp : Response ImageResults) (r : ImageResults) :
  run env (analyzeUpload env file startTime filePath processedFilePath
                         filesToCleanup) w = (Ok resp, w') ->
  data (body resp) = Some r ->
  exists w2 w3 yolov5 yolov7 info5 info7 out5 out7,
    modelCache w2 = modelCache w
    /\ run env (Promise_all2 (getYOLOv5Model env) (getYOLOv7Model env)) w2
       = (Ok (yolov5, yolov7), w3)
    /\ predictOutcome env yolov5 info5 = Ok out5
    /\ predictOutcome env yolov7 info7 = Ok out7.
Proof.
  unfold analyzeUpload. intros H Hdata.
  rewrite run_bind, run_settled, run_attempt in H.
  pose proof (perform_modelCache (FsAccess filePath) w) as Hc0.
  destruct (perform env (FsAccess filePath) w) as [[[] | e0] w0];
    cbn [fst snd] in H, Hc0.
  2:{ rewrite run_respond in H. injection H as <- _. discriminate. }
  rewrite run_bind, run_settled in H.
  pose proof (checkImageQuality_modelCache filePath noQualityOptions w0) as Hc1.
  destruct (run env (checkImageQuality filePath noQualityOptions) w0)
    as [[q | e1] w1]; cbn [fst snd] in H, Hc1.
  2:{ rewrite run_respond in H. injection H as <- _. discriminate. }
  rewrite run_bind, run_attempt in H.
  pose proof (perform_modelCache
                (SharpResizeToFile filePath (contain 640 640) processedFilePath)
                w1) as Hc2.
  destruct (perform env (SharpResizeToFile _ _ _) w1) as [[[] | e2] w2];
    cbn [snd] in Hc2; [| discriminate].
  rewrite run_bind in H.
  destruct (run env (Promise_all2 _ _) w2) as [[[yolov5 yolov7] | e3] w3]
    eqn:Hmodels; [| discriminate].
  rewrite run_bind in H.
  destruct (run env (attempt (FsReadFile _)) w3) as [[imageBuffer | e4] w4];
    [| discriminate].
  rewrite run_bind in H.
  destruct (run env (preprocessImage _) w4) as [[tensor | e5] w5];
    [| discriminate].
  rewrite run_bind in H.
  destruct (run env (predictBoth env yolov5 yolov7 tensor) w5)
    as [[[a5 a7] | e6] w6] eqn:Hpredict; [| discriminate].
  destruct (predictBoth_ok env _ _ _ _ _ _ _ Hpredict)
    as (info5 & info7 & out5 & out7 & H5 & H7 & _ & _).
  exists w2, w3, yolov5, yolov7, info5, info7, out5, out7.
  split; [congruence |]. auto.
Qed.

End CacheFrame.

(** ** C2: one failing model *)

Section Failure.
Import ModelInitialization ImageProcessor DetectionController Loading Outcome.

Local Arguments run env {A} p w : simpl never.

(** C2, as the code has it. When the forward pass of one configured
    model throws on every input, no request is answered with a per-model
    result, however healthy the other model is: every answer of
    [analyzeImage] is a failure without data. *)
Theorem failing_model_fails_request (env : Env) (name : string)
    (config : ModelConfig) (e : Error) (req : ImageRequest) (w : World) :
  MODEL_CONFIG !! name = Some config ->
  cacheConsistent env w ->
  (forall m info, mUrl m = modelUrl env config ->
                  predictOutcome env m info = Err e) ->
  exists resp w',
    run env (analyzeImage env req) w = (Ok resp, w')
    /\ data (body resp) = None
    /\ success (body resp) = false
    /\ (status resp = 400 \/ status resp = 404 \/ status resp = 500).
Proof.
  intros Hconfig Hcons Hthrows.
  destruct (analyzeImage_returns env req w) as (resp & w' & Hrun).
  exists resp, w'. split; [exact Hrun |].
  pose proof (analyzeImage_response env req w w' resp Hrun) as Hout.
  unfold imageOutcome in Hout.
  destruct (data (body resp)) as [r |] eqn:Hdata; [exfalso | tauto].
  clear Hout. revert Hrun. unfold analyzeImage.
  rewrite run_bind, run_call. cbn [perform fst snd].
  destruct (reqFile req) as [file |].
  2:{ rewrite run_respond. intros [= <-]. discriminate. }
  rewrite run_try_catch.
  destruct (run env (analyzeUpload _ _ _ _ _ _) w) as [[resp0 | e0] w1] eqn:Hup.
  2:{ rewrite run_bind.
      pose proof (run_detached env
        (cleanupFiles [path_resolve env (uploadPath file);
                       path_resolve env (uploadPath file) ++ "_processed.jpg"])
        w1) as Hd.
      destruct (run env (detached _) w1) as [[[] | e'] w2]; [| discriminate].
      rewrite run_respond. intros [= <-]. discriminate. }
  intros [= -> ->].
  destruct (analyzeUpload_models env _ _ _ _ _ _ _ _ _ Hup Hdata)
    as (w2 & w3 & m5 & m7 & i5 & i7 & o5 & o7 & Hcache & Hmodels & H5 & H7).
  rewrite run_Promise_all2 in Hmodels.
  assert (Hcons2 : cacheConsistent env w2)
    by (intros n m Hl; rewrite Hcache in Hl; eauto).
  destruct (getModel_consistent env "yolov5" w2 Hcons2) as [Hcons5 Hurl5].
  unfold getYOLOv5Model, getYOLOv7Model in Hmodels.
  destruct (run env (getModel env "yolov5") w2) as [[m5' | e5] w5];
    cbn [fst snd] in *.
  2:{ destruct (run env (getModel env "yolov7") w5) as [[] ?]; discriminate. }
  destruct (getModel_consistent env "yolov7" w5 Hcons5) as [_ Hurl7].
  destruct (run env (getModel env "yolov7") w5) as [[m7' | e7] w7];
    cbn [fst snd] in *; [| discriminate].
  injection Hmodels as -> -> _.
  destruct (Hurl5 m5 eq_refl) as (c5 & Hc5 & Hu5).
  destruct (Hurl7 m7 eq_refl) as (c7 & Hc7 & Hu7).
  destruct (MODEL_CONFIG_retryAttempts name config Hconfig)
    as (_ & _ & _ & [-> | ->]).
  - rewrite Hconfig in Hc5. injection Hc5 as <-.
    rewrite (Hthrows m5 i5 Hu5) in H5. discriminate.
  - rewrite Hconfig in Hc7. injection Hc7 as <-.
    rewrite (Hthrows m7 i7 Hu7) in H7. discriminate.
Qed.

Lemma failing_model_fails_request_witness :
  let env := Scenario.brokenEnv in
  let config := Scenario.yolov7Config in
  let e := mkError "yolov7 forward pass failed" in
  let w := Scenario.world (Z.to_nat 10240) in
  MODEL_CONFIG !! "yolov7" = Some config
  /\ cacheConsistent env w
  /\ (forall m info, mUrl m = modelUrl env config ->
                     predictOutcome env m info = Err e)
  /\ exists resp w',
       run env (analyzeImage env Scenario.request) w = (Ok resp, w')
       /\ data (body resp) = None
       /\ success (body resp) = false
       /\ (status resp = 400 \/ status resp = 404 \/ status resp = 500).
Proof.
  intros env config e w.
  assert (Hconfig : MODEL_CONFIG !! "yolov7" = Some config)
    by (vm_compute; reflexivity).
  assert (Hcons : cacheConsistent env w)
    by (intros n m Hl; vm_compute in Hl; discriminate).
  assert (Hthrows : forall m info, mUrl m = modelUrl env config ->
                                   predictOutcome env m info = Err e)
    by (intros m info Hurl; cbn; rewrite Hurl; vm_compute; reflexivity).
  split; [exact Hconfig |]. split; [exact Hcons |]. split; [exact Hthrows |].
  exact (failing_model_fails_request env "yolov7" config e Scenario.request w
           Hconfig Hcons Hthrows).
Defined.

(** YOLOv5's forward pass succeeds (score 0.75 for "Late Blight") and
    YOLOv7's throws: the request is answered with status 500 and no data;
    the healthy model's result is not returned. *)
Lemma healthy_result_is_dropped :
  exists resp w',
    run Scenario.brokenEnv
        (analyzeImage Scenario.brokenEnv Scenario.request)
        (Scenario.world (Z.to_nat 10240)) = (Ok resp, w')
    /\ status resp = 500
    /\ data (body resp) = None
    /\ bodyMessage (body resp) = Some "Error processing image"
    /\ bodyError (body resp) = Some "yolov7 forward pass failed"
    /\ trace w' !! 28%nat
       = Some (EvPredict
                 (mkModel "file:///srv/utils/../models/yolov5/yolov5_model.json"
                          0) true)
    /\ trace w' !! 30%nat
       = Some (EvPredict
                 (mkModel "file:///srv/utils/../models/yolov7/yolov7_model.json"
                          1) false).
Proof.
  eexists _, _. split; [vm_compute; reflexivity |].
  repeat split; reflexivity.
Qed.

End Failure.

(** ** C3: what a request leaves behind *)

(** C3, at a request that succeeds. The request is answered while four
    tensors it created are still allocated (the normalized image, its batched copy and the two
    outputs), and while the two deletions are only started; when the
    event loop has settled the deletions the tensors are still there. *)
Example resources_remain_after_response :
  let w := Scenario.world (Z.to_nat 10240) in
  let answered :=
    run Scenario.clearEnv
        (DetectionController.analyzeImage Scenario.clearEnv Scenario.request) w in
  DetectionController.status <$> option_of_result answered.1 = Some 200
  /\ size (tensors w) = 0%nat
  /\ size (tensors answered.2) = 4%nat
  /\ shape <$> tensors answered.2 !! 5%nat = Some [2; 2; 3]
  /\ shape <$> tensors answered.2 !! 6%nat = Some [1; 2; 2; 3]
  /\ shape <$> tensors answered.2 !! 7%nat = Some [1; 2]
  /\ shape <$> tensors answered.2 !! 8%nat = Some [1; 3]
  /\ pendingUnlinks answered.2
     = ["/uploads/leaf.jpg"; "/uploads/leaf.jpg_processed.jpg"]
  /\ is_Some (files answered.2 !! "/uploads/leaf.jpg_processed.jpg")
  /\ files (settleUnlinks answered.2) !! "/uploads/leaf.jpg_processed.jpg" = None
  /\ size (tensors (settleUnlinks answered.2)) = 4%nat.
Proof.
  vm_compute. repeat split; try reflexivity; eauto.
Qed.

(** ** C5: the normalized image *)

Section Normalization.
Import ImageProcessor Normalized.

(** Every 8-bit value divided by 255 in single precision lies in [0, 1]. *)
Lemma scaled_inUnit (z : Z) :
  0 <= z <= 255 -> inUnit (F32.div (F32.of_Z z) (F32.of_Z 255)).
Proof.
  intros Hz.
  assert (Hall : forallb scaledInUnit (seq 0 256) = true)
    by (vm_compute; reflexivity).
  rewrite forallb_forall in Hall.
  specialize (Hall (Z.to_nat z)).
  unfold scaledInUnit in Hall. rewrite Z2Nat.id in Hall by lia.
  unfold inUnit. apply andb_true_iff. apply Hall.
  apply in_seq. lia.
Qed.

(** C5. For every image buffer that the libraries read,
    [processImageBuffer] asks sharp for a contain fit on a black
    background at the requested size (640 by 640 when no size is given)
    and returns a live tensor that is the fitted image as a batch of one:
    its shape is (1, height, width, 3), that is (1, targetSize,
    targetSize, 3) for a square target, and its value at every position
    is the channel value of the fitted image there divided by 255, which
    lies in [0, 1]. *)
Theorem normalized_shape_and_range (env : Env) (imageBuffer : Buffer)
    (options : BufferOptions) (w : World) (img : Image) :
  let width := default 640 (optWidth options) in
  let height := default 640 (optHeight options) in
  fittedTo env imageBuffer width height img ->
  exists t w' info,
    run env (processImageBuffer imageBuffer options) w = (Ok t, w')
    /\ tensors w' !! t = Some info
    /\ shape info = [1; height; width; 3]
    /\ (forall i,
          values info i = F32.div (F32.of_Z (pixel img i)) (F32.of_Z 255)
          /\ inUnit (values info i))
    /\ trace w' !! length (trace w)
       = Some (EvResize (mkResize width height FitContain (0, 0, 0))).
Proof.
  intros width height (resized & Hresize & Hdecode & Hh & Hw & Hc & Hpix).
  unfold processImageBuffer. fold width. fold height.
  rewrite run_try_catch, run_bind, run_attempt. cbn [perform].
  rewrite Hresize. unfold toBatch. cbn. rewrite Hdecode. cbn.
  rewrite lookup_insert_eq. cbn. rewrite lookup_insert_eq. cbn.
  eexists _, _, _. split; [reflexivity |]. cbn.
  rewrite lookup_delete_ne by lia. rewrite lookup_insert_eq.
  split; [reflexivity |]. cbn. rewrite Hh, Hw, Hc.
  split; [reflexivity |].
  split; [intros i; split; [reflexivity | apply scaled_inUnit, Hpix] |].
  rewrite <- !app_assoc. rewrite lookup_app_r by lia.
  rewrite Nat.sub_diag. reflexivity.
Qed.

Lemma normalized_shape_and_range_witness :
  let env := Scenario.squareEnv in
  let imageBuffer := [255; 216; 255; 224] in
  let options := noOptions in
  let w := Scenario.bareWorld in
  let img := mkImage 640 640 3 (fun i => Z.of_nat (i mod 256)) in
  fittedTo env imageBuffer 640 640 img
  /\ exists t w' info,
       run env (processImageBuffer imageBuffer options) w = (Ok t, w')
       /\ tensors w' !! t = Some info
       /\ shape info = [1; 640; 640; 3]
       /\ (forall i,
             values info i = F32.div (F32.of_Z (pixel img i)) (F32.of_Z 255)
             /\ inUnit (values info i))
       /\ trace w' !! length (trace w)
          = Some (EvResize (mkResize 640 640 FitContain (0, 0, 0))).
Proof.
  intros env imageBuffer options w img.
  assert (Hfitted : fittedTo env imageBuffer 640 640 img).
  { exists (0 :: imageBuffer).
    repeat split; try reflexivity; cbn.
    - lia.
    - pose proof (Nat.mod_upper_bound i 256). lia. }
  split; [exact Hfitted |].
  exact (normalized_shape_and_range env imageBuffer options w img Hfitted).
Defined.

End Normalization.

(** ** C4: concurrent callers of [getModel] *)

Section InFlight.
Import ModelInitialization Loading Flight.
Context (env : Env).

Lemma perform_loadsStarted {X} (op : eff X) (w : World) :
  loadsStarted (perform env op w).2 = (loadsStarted w + startsLoad op)%nat.
Proof.
  destruct op; cbn; repeat case_match; cbn; try lia;
    unfold settleUnlinks; cbn; lia.
Qed.

Lemma owes_finished (I : World -> Prop) {A} (j : nat) (p : prog A) :
  owes env I j p -> finished p = true -> j = 0%nat.
Proof. destruct p; cbn; auto; discriminate. Qed.

(** Running a function up to its next [await] moves loads from what it
    owes to what was started. *)
Lemma advance_owes (I : World -> Prop) {A} (p : prog A) :
  forall (j : nat) (w : World),
    owes env I j p -> I w ->
    I (advance env p w).2
    /\ exists j',
         owes env I j' (advance env p w).1
         /\ (loadsStarted (advance env p w).2 + j'
             = loadsStarted w + j)%nat.
Proof.
  induction p as [a | e | X op k IH]; intros j w Howes Hw.
  - cbn. eauto.
  - cbn. eauto.
  - cbn [advance]. destruct (is_async op).
    + cbn [fst snd]. eauto.
    + cbn [owes] in Howes. destruct (Howes w Hw) as (Hw' & j' & -> & Hk).
      pose proof (perform_loadsStarted op w) as Hl.
      destruct (perform env op w) as [x w1]. cbn [fst snd] in *.
      destruct (IH x j' w1 Hk Hw') as (HI & j'' & Ho & Hsum).
      split; [exact HI |]. exists j''. split; [exact Ho |].
      rewrite Hsum, Hl. symmetry. apply Nat.add_assoc.
Qed.

Lemma resume_owes (I : World -> Prop) {A} (p : prog A) (j : nat) (w : World) :
  owes env I j p -> I w ->
  I (resume env p w).2
  /\ exists j',
       owes env I j' (resume env p w).1
       /\ (loadsStarted (resume env p w).2 + j' = loadsStarted w + j)%nat.
Proof.
  intros Howes Hw. destruct p as [a | e | X op k]; cbn [resume].
  - cbn. eauto.
  - cbn. eauto.
  - cbn [owes] in Howes. destruct (Howes w Hw) as (Hw' & j' & -> & Hk).
    pose proof (perform_loadsStarted op w) as Hl.
    destruct (perform env op w) as [x w1]. cbn [fst snd] in *.
    destruct (advance_owes I (k x) j' w1 Hk Hw') as (HI & j'' & Ho & Hsum).
    split; [exact HI |]. exists j''. split; [exact Ho |].
    rewrite Hsum, Hl. symmetry. apply Nat.add_assoc.
Qed.

Lemma sum_list_insert (js : list nat) (i j j' : nat) :
  js !! i = Some j ->
  (sum_list (<[i := j']> js) + j = sum_list js + j')%nat.
Proof.
  revert i. induction js as [| x js IH]; intros i Hi; [discriminate |].
  destruct i as [| i]; cbn in Hi.
  - injection Hi as ->. clear IH.
    change (j' + sum_list js + j = j + sum_list js + j')%nat.
    generalize (sum_list js). intros s. lia.
  - specialize (IH i Hi). revert IH.
    change (sum_list (<[i := j']> js) + j = sum_list js + j' ->
            x + sum_list (<[i := j']> js) + j = x + sum_list js + j')%nat.
    generalize (sum_list (<[i := j']> js)), (sum_list js). intros s s'. lia.
Qed.

(** Whatever the order in which the callers are resumed, the loads
    started and the loads still owed add up to the same total. *)
Lemma schedule_owes (I : World -> Prop) {A} (order : list nat) :
  forall (pool : list (prog A)) (js : list nat) (w : World),
    Forall2 (owes env I) js pool -> I w ->
    I (schedule env order pool w).2
    /\ exists js',
         Forall2 (owes env I) js' (schedule env order pool w).1
         /\ (loadsStarted (schedule env order pool w).2 + sum_list js'
             = loadsStarted w + sum_list js)%nat.
Proof.
  induction order as [| i order IH]; intros pool js w Hpool Hw.
  - cbn. eauto.
  - cbn [schedule]. unfold resumeAt.
    destruct (pool !! i) as [p |] eqn:Hp.
    + destruct (Forall2_lookup_r _ _ _ _ _ Hpool Hp) as (j & Hj & Hpj).
      destruct (resume_owes I p j w Hpj Hw) as (HI & j' & Ho & Hsum).
      destruct (resume env p w) as [p' w1]. cbn [fst snd] in *.
      destruct (IH (<[i := p']> pool) (<[i := j']> js) w1) as (HI' & js' & Hf & Hs).
      { apply Forall2_insert; assumption. }
      { exact HI. }
      split; [exact HI' |]. exists js'. split; [exact Hf |].
      pose proof (sum_list_insert js i j j' Hj). lia.
    + apply IH; assumption.
Qed.

Lemma loadModelWithRetry_owes (name : string) (config : ModelConfig) :
  MODEL_CONFIG !! name = Some config ->
  loadsResolve env config ->
  owes env (fileInPlace env config) 1 (loadModelWithRetry env name).
Proof.
  intros Hconfig Hresolve.
  destruct (MODEL_CONFIG_retryAttempts name config Hconfig) as (Hra & _).
  unfold loadModelWithRetry, checkModelFiles. rewrite Hconfig, Hra.
  change (Z.to_nat 3) with 3%nat. cbn.
  intros w Hw. pose proof Hw as [b Hb]. unfold modelFile in Hb. rewrite Hb. cbn.
  split; [exact Hw |]. exists 1%nat. split; [reflexivity |].
  intros w1 Hw1. split; [exact Hw1 |]. exists 0%nat. split; [reflexivity |].
  intros w2 Hw2.
  destruct (Hresolve (loadsStarted w1)) as (d & Hd & Hlt). rewrite Hd. cbn.
  destruct (Z.ltb_spec d (timeout config)) as [_ | Hge]; [| lia]. cbn.
  split; [exact Hw2 |]. exists 0%nat. split; [reflexivity |].
  unfold warmupModel. rewrite Hconfig. cbn.
  repeat (first
    [ match goal with
      | |- forall w, _ -> _ => intros ? ?
      | |- _ /\ _ => split
      | |- fileInPlace _ _ _ => unfold fileInPlace in *; cbn; assumption
      | |- exists j, _ = _ /\ _ => eexists; split; [reflexivity |]
      | |- @eq nat _ _ => reflexivity
      | |- context [match ?x with _ => _ end] => destruct x eqn:?
      end
    | progress cbn ]).
Qed.

(** A caller that misses the cache is suspended at the file check of its
    own load sequence. *)
Lemma advance_getModel_miss (name : string) (config : ModelConfig) (w : World) :
  MODEL_CONFIG !! name = Some config ->
  modelCache w !! name = None ->
  advance env (getModel env name) w
  = (loadModelWithRetry env name, log (EvCacheLookup name) w).
Proof.
  intros Hconfig Hmiss. unfold getModel. rewrite Hconfig.
  cbn [advance bind call is_async perform]. rewrite Hmiss.
  unfold loadModelWithRetry, checkModelFiles. rewrite Hconfig. reflexivity.
Qed.

Lemma callAll_getModel (name : string) (config : ModelConfig) (n : nat) :
  forall w : World,
    MODEL_CONFIG !! name = Some config ->
    modelCache w !! name = None ->
    exists w0,
      callAll env (replicate n (getModel env name)) w
      = (replicate n (loadModelWithRetry env name), w0)
      /\ files w0 = files w /\ loadsStarted w0 = loadsStarted w.
Proof.
  induction n as [| n IH]; intros w Hconfig Hmiss.
  - exists w. auto.
  - cbn [replicate callAll].
    rewrite (advance_getModel_miss name config w Hconfig Hmiss).
    destruct (IH (log (EvCacheLookup name) w) Hconfig Hmiss)
      as (w0 & -> & Hf & Hl).
    exists w0. auto.
Qed.

Lemma owes_all_finished (I : World -> Prop) {A} (js : list nat)
    (pool : list (prog A)) :
  Forall2 (owes env I) js pool ->
  forallb finished pool = true ->
  sum_list js = 0%nat.
Proof.
  induction 1 as [| j p js pool Hjp _ IH]; [reflexivity |].
  cbn [forallb]. intros [Hp Hrest]%andb_true_iff.
  rewrite (owes_finished I j p Hjp Hp). cbn. exact (IH Hrest).
Qed.

End InFlight.

(** C4, as the code has it. [getModel] keeps no record of a load in
    flight: every caller that finds the model absent runs its own load
    sequence. With the model file in place and loads that resolve in
    time, [n] callers that call before the model is cached start exactly
    [n] loads, in whatever order they are resumed. *)
Theorem concurrent_callers_load_separately (env : Env) (name : string)
    (config : ModelInitialization.ModelConfig) (n : nat) (order : list nat)
    (w : World) :
  ModelInitialization.MODEL_CONFIG !! name = Some config ->
  modelCache w !! name = None ->
  Flight.fileInPlace env config w ->
  Flight.loadsResolve env config ->
  let called :=
    callAll env (replicate n (ModelInitialization.getModel env name)) w in
  let settled := schedule env order called.1 called.2 in
  forallb finished settled.1 = true ->
  loadsStarted settled.2 = (loadsStarted w + n)%nat.
Proof.
  intros Hconfig Hmiss Hfile Hresolve called settled Hdone.
  destruct (callAll_getModel env name config n w Hconfig Hmiss)
    as (w0 & Hcalled & Hf & Hl).
  subst settled called. rewrite Hcalled in *. cbn [fst snd] in *.
  assert (Hw0 : Flight.fileInPlace env config w0)
    by (unfold Flight.fileInPlace in *; rewrite Hf; exact Hfile).
  destruct (schedule_owes env (Flight.fileInPlace env config) order
              (replicate n (ModelInitialization.loadModelWithRetry env name))
              (replicate n 1%nat) w0)
    as (_ & js' & Hpool & Hsum); [| exact Hw0 |].
  { apply Forall2_replicate.
    apply loadModelWithRetry_owes; assumption. }
  rewrite (owes_all_finished env _ js' _ Hpool Hdone) in Hsum.
  assert (Hn : sum_list (replicate n 1%nat) = n).
  { clear. induction n as [| n IH]; [reflexivity |].
    cbn [replicate]. change (S (sum_list (replicate n 1%nat)) = S n).
    rewrite IH. reflexivity. }
  rewrite Hn, Hl, Nat.add_0_r in Hsum. exact Hsum.
Qed.

Lemma concurrent_callers_load_separately_witness :
  let env := Scenario.tieEnv in
  let config := Scenario.yolov5Config in
  let w := Scenario.world 0 in
  let order := [0; 1; 2; 2; 1; 0; 0; 1; 2]%nat in
  ModelInitialization.MODEL_CONFIG !! "yolov5" = Some config
  /\ modelCache w !! "yolov5" = None
  /\ Flight.fileInPlace env config w
  /\ Flight.loadsResolve env config
  /\ forallb finished (Scenario.resumed env 3 order).1 = true
  /\ loadsStarted (Scenario.resumed env 3 order).2 = (loadsStarted w + 3)%nat.
Proof.
  intros env config w order.
  assert (H1 : ModelInitialization.MODEL_CONFIG !! "yolov5" = Some config)
    by (vm_compute; reflexivity).
  assert (H2 : modelCache w !! "yolov5" = None) by reflexivity.
  assert (H3 : Flight.fileInPlace env config w)
    by (eexists; vm_compute; reflexivity).
  assert (H4 : Flight.loadsResolve env config)
    by (intros load; exists 1200; split; reflexivity).
  assert (H5 : forallb finished (Scenario.resumed env 3 order).1 = true)
    by (vm_compute; reflexivity).
  split; [exact H1 |]. split; [exact H2 |]. split; [exact H3 |].
  split; [exact H4 |]. split; [exact H5 |].
  exact (concurrent_callers_load_separately env "yolov5" config 3 order w
           H1 H2 H3 H4 H5).
Defined.

(** Two callers ask for "yolov5" before it is cached: two loads are
    started and the callers receive two different models, one per load. *)
Lemma two_callers_two_loads :
  (Scenario.resumed Scenario.tieEnv 2 [0; 1; 0; 1; 0; 1]%nat).1
  = [Ret (mkModel "file:///srv/utils/../models/yolov5/yolov5_model.json" 0);
     Ret (mkModel "file:///srv/utils/../models/yolov5/yolov5_model.json" 1)]
  /\ loadsStarted (Scenario.resumed Scenario.tieEnv 2 [0; 1; 0; 1; 0; 1]%nat).2
     = 2%nat
  /\ Loading.attempts
       (trace (Scenario.resumed Scenario.tieEnv 2 [0; 1; 0; 1; 0; 1]%nat).2)
     = 2%nat.
Proof. repeat split; vm_compute; reflexivity. Qed.

(** * The rest of the pipeline *)

(** ** What a program can touch *)

Section FootprintLemmas.
Import Footprint.
Context (env : Env).

Lemma only_bind (allowed : forall X, eff X -> bool) {A B} (p : prog A)
    (f : A -> prog B) :
  only allowed p -> (forall a, only allowed (f a)) -> only allowed (bind p f).
Proof.
  intros Hp Hf. induction p as [a | e | X op k IH]; cbn; auto.
  destruct Hp as [Hop Hk]. split; auto.
Qed.

Lemma only_try_catch (allowed : forall X, eff X -> bool) {A} (p : prog A)
    (h : Error -> prog A) :
  only allowed p -> (forall e, only allowed (h e)) ->
  only allowed (try_catch p h).
Proof.
  intros Hp Hh. induction p as [a | e | X op k IH]; cbn; auto.
  destruct Hp as [Hop Hk]. split; auto.
Qed.

Lemma only_settled (allowed : forall X, eff X -> bool) {A} (p : prog A) :
  only allowed p -> only allowed (settled p).
Proof.
  intros Hp. unfold settled. apply only_try_catch; [| intros; exact I].
  apply only_bind; [assumption | intros; exact I].
Qed.

Lemma only_Promise_all2 (allowed : forall X, eff X -> bool) {A B}
    (p : prog A) (q : prog B) :
  only allowed p -> only allowed q -> only allowed (Promise_all2 p q).
Proof.
  intros Hp Hq. unfold Promise_all2.
  apply only_bind; [apply only_settled; assumption | intros ra].
  apply only_bind; [apply only_settled; assumption | intros rb].
  destruct ra, rb; exact I.
Qed.

Lemma only_detached (allowed : forall X, eff X -> bool) {A} (p : prog A) :
  only allowed p -> only allowed (detached p).
Proof.
  intros Hp. induction p as [a | e | X op k IH]; cbn; auto.
  destruct Hp as [Hop Hk]. destruct (is_async op); cbn; auto.
Qed.

(** A relation that every allowed operation keeps is kept by the run of
    a program that performs allowed operations only. *)
Lemma run_only (allowed : forall X, eff X -> bool)
    (R : World -> World -> Prop) :
  (forall w, R w w) ->
  (forall a b c, R a b -> R b c -> R a c) ->
  (forall X (op : eff X) w, allowed X op = true -> R w (perform env op w).2) ->
  forall A (p : prog A) w, only allowed p -> R w (run env p w).2.
Proof.
  intros Hrefl Htrans Hop A p.
  induction p as [a | e | X op k IH]; intros w Hp; cbn; auto.
  destruct Hp as [Hallowed Hk].
  specialize (Hop X op w Hallowed).
  destruct (perform env op w) as [x w1]. cbn in Hop.
  eapply Htrans; [exact Hop | apply IH, Hk].
Qed.

Lemma observes_same {X} (op : eff X) (w : World) :
  observes op = true -> sameButTrace w (perform env op w).2.
Proof.
  destruct op; try discriminate; intros _; cbn;
    repeat case_match; cbn; repeat split.
Qed.

Lemma offDisk_same {X} (op : eff X) (w : World) :
  offDisk op = true ->
  files (perform env op w).2 = files w
  /\ pendingUnlinks (perform env op w).2 = pendingUnlinks w.
Proof.
  destruct op; try discriminate; intros _; cbn;
    repeat case_match; cbn; repeat split.
Qed.

Lemma offModels_same {X} (op : eff X) (w : World) :
  offModels op = true ->
  modelCache (perform env op w).2 = modelCache w
  /\ loadsStarted (perform env op w).2 = loadsStarted w.
Proof.
  destruct op; try discriminate; intros _; cbn;
    repeat case_match; cbn; repeat split.
Qed.

Lemma instant_same {X} (op : eff X) (w : World) :
  instant op = true -> clock (perform env op w).2 = clock w.
Proof.
  destruct op; try discriminate; intros _; cbn;
    repeat case_match; cbn; repeat split.
Qed.

Lemma run_observes {A} (p : prog A) (w : World) :
  only (@observes) p -> sameButTrace w (run env p w).2.
Proof.
  apply (run_only (@observes) sameButTrace).
  - intros w0. repeat split.
  - intros a b c (H1 & H2 & H3 & H4 & H5 & H6 & H7)
                 (G1 & G2 & G3 & G4 & G5 & G6 & G7).
    repeat split; congruence.
  - intros X op w0. apply observes_same.
Qed.

Lemma run_offDisk {A} (p : prog A) (w : World) :
  only (@offDisk) p ->
  files (run env p w).2 = files w
  /\ pendingUnlinks (run env p w).2 = pendingUnlinks w.
Proof.
  apply (run_only (@offDisk)
           (fun w w' => files w' = files w
                        /\ pendingUnlinks w' = pendingUnlinks w)).
  - intros w0. split; reflexivity.
  - intros a b c [H1 H2] [G1 G2]. split; congruence.
  - intros X op w0. apply offDisk_same.
Qed.

Lemma run_offModels {A} (p : prog A) (w : World) :
  only (@offModels) p ->
  modelCache (run env p w).2 = modelCache w
  /\ loadsStarted (run env p w).2 = loadsStarted w.
Proof.
  apply (run_only (@offModels)
           (fun w w' => modelCache w' = modelCache w
                        /\ loadsStarted w' = loadsStarted w)).
  - intros w0. split; reflexivity.
  - intros a b c [H1 H2] [G1 G2]. split; congruence.
  - intros X op w0. apply offModels_same.
Qed.

Lemma run_instant {A} (p : prog A) (w : World) :
  only (@instant) p -> clock (run env p w).2 = clock w.
Proof.
  apply (run_only (@instant) (fun w w' => clock w' = clock w)).
  - reflexivity.
  - intros a b c H1 H2. congruence.
  - intros X op w0. apply instant_same.
Qed.

End FootprintLemmas.

(** The operations of a program written with [bind], [try_catch] and
    conditionals are checked constructor by constructor. *)
Ltac footprint :=
  repeat first
    [ exact I | reflexivity | split | progress intros
    | apply only_bind | apply only_try_catch | apply only_settled
    | apply only_Promise_all2 | apply only_detached
    | progress cbn | case_match ].

Section QualityVerdict.
Import ImageProcessor Footprint.
Context (env : Env).

Lemma checkImageQuality_observes (imagePath : string)
    (options : QualityOptions) :
  only (@observes) (checkImageQuality imagePath options).
Proof. unfold checkImageQuality. footprint. Qed.

Lemma rethrown (e0 : Error) (w1 : World) :
  exists e,
    run env (if Str.includes "Image" (message e0) then Throw e0
             else Throw (mkError ("Image quality check failed: "
                                  ++ message e0))) w1
    = (Err e : result bool, w1)
    /\ Str.includes "Image" (message e) = true.
Proof.
  destruct (Str.includes "Image" (message e0)) eqn:Hinc.
  - exists e0. split; [reflexivity | exact Hinc].
  - eexists. split; [reflexivity |].
    change (message (mkError ("Image quality check failed: " ++ message e0)))
      with ("Image" ++ (" quality check failed: " ++ message e0)).
    apply includes_Image.
Qed.

End QualityVerdict.

(** X1. [checkImageQuality] only reads: it leaves the world as it found
    it, the trace apart. It never answers [false]: it returns [true]
    exactly when the file exists, holds at least [minSize] bytes, its
    metadata can be read, and neither the width nor the height that sharp
    reports is below the minimum (a dimension sharp does not report
    passes); otherwise it throws, and the message of every error it throws
    contains "Image". *)
Theorem checkImageQuality_verdict (env : Env) (imagePath : string)
    (options : ImageProcessor.QualityOptions) (w : World) :
  let minSize := default 10240 (ImageProcessor.optMinSize options) in
  let minWidth := default 224 (ImageProcessor.optMinWidth options) in
  let minHeight := default 224 (ImageProcessor.optMinHeight options) in
  let r := run env (ImageProcessor.checkImageQuality imagePath options) w in
  Footprint.sameButTrace w r.2
  /\ r.1 <> Ok false
  /\ (r.1 = Ok true <->
      exists b m,
        files w !! imagePath = Some b
        /\ minSize <= Z.of_nat (length b)
        /\ sharp_metadata env b = Ok m
        /\ (forall x, metaWidth m = Some x -> minWidth <= x)
        /\ (forall y, metaHeight m = Some y -> minHeight <= y))
  /\ (forall e, r.1 = Err e -> Str.includes "Image" (message e) = true).
Proof.
  intros minSize minWidth minHeight r.
  split; [apply run_observes, checkImageQuality_observes |].
  subst r. unfold ImageProcessor.checkImageQuality.
  change (10 * 1024) with 10240. fold minSize minWidth minHeight.
  rewrite run_try_catch, run_bind, run_attempt. cbn [perform].
  destruct (files w !! imagePath) as [b |] eqn:Hfile.
  - destruct (Z.ltb_spec (Z.of_nat (length b)) minSize) as [Hsmall | Hlarge].
    + rewrite run_throw.
      destruct (rethrown env (ImageProcessor.tooSmallFile
                                (Z.of_nat (length b)) minSize)
                  (log (EvStat imagePath) w)) as (e & -> & He).
      cbn [fst]. repeat split; try discriminate.
      * intros (b' & m & Hb & Hsize & _).
        injection Hb as <-. lia.
      * intros e' [= <-]. exact He.
    + rewrite run_bind, run_attempt. cbn [perform files log]. rewrite Hfile.
      destruct (sharp_metadata env b) as [m | e0] eqn:Hmeta.
      * destruct (ImageProcessor.lt_undef (metaWidth m) minWidth
                  || ImageProcessor.lt_undef (metaHeight m) minHeight)
          eqn:Hdims.
        -- rewrite run_throw.
           destruct (rethrown env
                       (ImageProcessor.tooSmallDimensions m minWidth minHeight)
                       (log (EvMetadata imagePath) (log (EvStat imagePath) w)))
             as (e & -> & He).
           cbn [fst]. repeat split; try discriminate.
           ++ intros (b' & m' & Hb & _ & Hm & Hw & Hh).
              injection Hb as <-. rewrite Hmeta in Hm. injection Hm as <-.
              apply orb_true_iff in Hdims as [Hd | Hd];
                unfold ImageProcessor.lt_undef in Hd.
              ** destruct (metaWidth m) as [x |]; [| discriminate].
                 apply Z.ltb_lt in Hd. specialize (Hw x eq_refl). lia.
              ** destruct (metaHeight m) as [y |]; [| discriminate].
                 apply Z.ltb_lt in Hd. specialize (Hh y eq_refl). lia.
           ++ intros e' [= <-]. exact He.
        -- rewrite run_ret. cbn [fst]. repeat split; try discriminate.
           intros _. exists b, m. apply orb_false_iff in Hdims as [Hw Hh].
           repeat split; auto.
           ++ intros x Hx. rewrite Hx in Hw. cbn in Hw.
              apply Z.ltb_ge in Hw. exact Hw.
           ++ intros y Hy. rewrite Hy in Hh. cbn in Hh.
              apply Z.ltb_ge in Hh. exact Hh.
      * destruct (rethrown env e0
                    (log (EvMetadata imagePath) (log (EvStat imagePath) w)))
          as (e & -> & He).
        cbn [fst]. repeat split; try discriminate.
        -- intros (b' & m' & Hb & _ & Hm & _).
           injection Hb as <-. rewrite Hmeta in Hm. discriminate Hm.
        -- intros e' [= <-]. exact He.
  - destruct (rethrown env (noSuchFile imagePath) (log (EvStat imagePath) w))
      as (e & -> & He).
    cbn [fst]. repeat split; try discriminate.
    + intros (b' & m' & Hb & _). discriminate Hb.
    + intros e' [= <-]. exact He.
Qed.

(** ** The tables and the reading of a model's output *)

(** X2. Every label of [labelMap] has a list of four recommendations of
    its own in the table; an index outside the table is named "Unknown",
    which the table does not hold, and gets the three general
    recommendations. *)
Theorem recommendations_cover_labels (classIndex : Z) :
  let name := Tables.diseaseName classIndex in
  let advice := DetectionController.getRecommendations name in
  (0 <= classIndex <= 8 ->
   Tables.labelMap !! classIndex = Some name
   /\ DetectionController.recommendations !! name = Some advice
   /\ length advice = 4%nat)
  /\ (~ 0 <= classIndex <= 8 ->
      name = "Unknown"
      /\ DetectionController.recommendations !! name = None
      /\ length advice = 3%nat).
Proof.
  intros name advice. split.
  - intros Hin.
    assert (classIndex = 0 \/ classIndex = 1 \/ classIndex = 2
            \/ classIndex = 3 \/ classIndex = 4 \/ classIndex = 5
            \/ classIndex = 6 \/ classIndex = 7 \/ classIndex = 8) as Hcases
      by lia.
    subst name advice.
    repeat (destruct Hcases as [-> | Hcases];
            [vm_compute; repeat split; reflexivity |]).
    subst classIndex. vm_compute. repeat split; reflexivity.
  - intros Hout. subst advice name. unfold Tables.diseaseName.
    rewrite (labelMap_lookup_out classIndex Hout).
    vm_compute. repeat split; reflexivity.
Qed.

Section Reading.
Import DetectionController.

Lemma SFeqb_NaN (y : JS.number) : SFeqb y JS.NaN = false.
Proof. destruct y as [? | ? | | ? ? ?]; reflexivity. Qed.

Lemma indexOf_from_NaN (data : list JS.number) :
  forall i, JS.indexOf_from data JS.NaN i = -1.
Proof.
  induction data as [| y rest IH]; intros i; cbn; [reflexivity |].
  rewrite SFeqb_NaN. apply IH.
Qed.

Lemma max_step_NaN_r (acc : JS.number) : JS.max_step acc JS.NaN = JS.NaN.
Proof. destruct acc as [[] | [] | | [] ? ?]; reflexivity. Qed.

Lemma fold_max_step_NaN (data : list JS.number) :
  fold_left JS.max_step data JS.NaN = JS.NaN.
Proof. induction data as [| y rest IH]; cbn; auto. Qed.

Lemma Math_max_NaN (data : list JS.number) :
  forall acc, JS.NaN ∈ data -> fold_left JS.max_step data acc = JS.NaN.
Proof.
  induction data as [| y rest IH]; intros acc Hin.
  - inversion Hin.
  - apply elem_of_cons in Hin as [<- | Hin]; cbn.
    + rewrite max_step_NaN_r. apply fold_max_step_NaN.
    + apply IH, Hin.
Qed.

End Reading.

(** X3. An output that is empty or holds a NaN, of no more scores than
    the engine takes as arguments of one call, cannot be read: the class
    index is -1, and the code goes on with the disease "Unknown", the
    confidence [undefined] and the general recommendations. *)
Theorem readPrediction_unreadable (env : Env) (data : list JS.number) :
  Z.of_nat (length data) <= argumentLimit env ->
  data = [] \/ JS.NaN ∈ data ->
  DetectionController.classIndexOf data = -1
  /\ DetectionController.spreadMax env data
     = Ret (DetectionController.mkAnalysis "Unknown" JS.VUndefined
              (DetectionController.getRecommendations "Unknown")).
Proof.
  intros Hfits Hdata.
  assert (DetectionController.classIndexOf data = -1) as Hindex.
  { destruct Hdata as [-> | Hnan]; [reflexivity |].
    unfold DetectionController.classIndexOf, JS.Math_max, JS.indexOf.
    rewrite (Math_max_NaN data _ Hnan). apply indexOf_from_NaN. }
  split; [exact Hindex |].
  unfold DetectionController.spreadMax.
  apply Z.ltb_ge in Hfits. rewrite Hfits.
  unfold DetectionController.readPrediction. rewrite Hindex. reflexivity.
Qed.

Lemma readPrediction_unreadable_witness :
  let env := Scenario.tieEnv in
  let data := [Scenario.half; JS.NaN; Scenario.quarter] in
  Z.of_nat (length data) <= argumentLimit env
  /\ (data = [] \/ JS.NaN ∈ data)
  /\ DetectionController.classIndexOf data = -1
  /\ DetectionController.spreadMax env data
     = Ret (DetectionController.mkAnalysis "Unknown" JS.VUndefined
              (DetectionController.getRecommendations "Unknown")).
Proof.
  assert (Z.of_nat (length [Scenario.half; JS.NaN; Scenario.quarter])
          <= argumentLimit Scenario.tieEnv) as Hfits
    by (vm_compute; discriminate).
  assert (JS.NaN ∈ [Scenario.half; JS.NaN; Scenario.quarter]) as Hnan
    by (apply list_elem_of_further, list_elem_of_here).
  split; [exact Hfits |]. split; [right; exact Hnan |].
  apply (readPrediction_unreadable Scenario.tieEnv
           [Scenario.half; JS.NaN; Scenario.quarter] Hfits).
  right. exact Hnan.
Defined.

(** ** The order of the scores *)

Section ScoreOrder.
Import Order DetectionController.

Lemma SFltb_rank (x y : JS.number) :
  x <> JS.NaN -> y <> JS.NaN ->
  (SFltb x y = true <-> before (rank x) (rank y)).
Proof.
  unfold JS.NaN, SFltb, before. intros Hx Hy.
  destruct x as [[] | [] | | [] mx ex], y as [[] | [] | | [] my ey];
    try congruence; cbn;
    try (split; [discriminate | lia]);
    try (split; [intros _; lia | reflexivity]);
    change (PosDef.Pos.compare_cont Eq mx my) with (Pos.compare mx my);
    destruct (Z.compare_spec ex ey) as [He | He | He];
    destruct (Pos.compare_spec mx my) as [Hm | Hm | Hm]; cbn;
    split; try discriminate; try reflexivity; lia.
Qed.

Lemma SFeqb_rank (x y : JS.number) :
  x <> JS.NaN -> y <> JS.NaN ->
  (SFeqb x y = true <-> rank x = rank y).
Proof.
  unfold JS.NaN, SFeqb. intros Hx Hy.
  destruct x as [[] | [] | | [] mx ex], y as [[] | [] | | [] my ey];
    try congruence; cbn;
    try (split; [discriminate | intros [=]; lia]);
    try (split; reflexivity);
    change (PosDef.Pos.compare_cont Eq mx my) with (Pos.compare mx my);
    destruct (Z.compare_spec ex ey) as [He | He | He];
    destruct (Pos.compare_spec mx my) as [Hm | Hm | Hm]; cbn;
    split; try discriminate; try (intros [=]; lia);
    intros _; subst; reflexivity.
Qed.

Lemma before_irrefl (a : Z * (Z * Z)) : ~ before a a.
Proof. unfold before. lia. Qed.

Lemma not_before_trans (a b c : Z * (Z * Z)) :
  ~ before c b -> ~ before b a -> ~ before c a.
Proof. destruct a as [? [? ?]], b as [? [? ?]], c as [? [? ?]]. unfold before. cbn. lia. Qed.

Lemma not_before_antisym (a b : Z * (Z * Z)) :
  ~ before a b -> ~ before b a -> a = b.
Proof.
  destruct a as [a1 [a2 a3]], b as [b1 [b2 b3]]. unfold before. cbn.
  intros H1 H2. assert (a1 = b1 /\ a2 = b2 /\ a3 = b3) as (-> & -> & ->) by lia.
  reflexivity.
Qed.

Lemma not_before_cases (a b : Z * (Z * Z)) :
  ~ before a b -> a <> b -> before b a.
Proof.
  destruct a as [a1 [a2 a3]], b as [b1 [b2 b3]]. unfold before. cbn.
  intros H1 H2.
  destruct (Z.eq_dec a1 b1) as [-> |]; [| lia].
  destruct (Z.eq_dec a2 b2) as [-> |]; [| lia].
  destruct (Z.eq_dec a3 b3) as [-> |]; [congruence | lia].
Qed.

Lemma nothing_before_neg_Infinity (x : JS.number) :
  x <> JS.NaN -> ~ before (rank x) (rank JS.neg_Infinity).
Proof.
  unfold JS.NaN, before. destruct x as [[] | [] | | [] ? ?]; cbn; try congruence; lia.
Qed.

Lemma max_step_cases (acc x : JS.number) :
  acc <> JS.NaN -> x <> JS.NaN ->
  JS.max_step acc x = (if SFltb acc x then x else acc)
  \/ (rank acc = rank x /\ JS.max_step acc x = x).
Proof.
  unfold JS.NaN.
  destruct acc as [[] | [] | | ? ? ?], x as [[] | [] | | ? ? ?];
    try congruence; intros _ _;
    first [left; reflexivity | right; split; reflexivity].
Qed.

Lemma max_step_upper (acc x : JS.number) :
  acc <> JS.NaN -> x <> JS.NaN ->
  JS.max_step acc x <> JS.NaN
  /\ (JS.max_step acc x = acc \/ JS.max_step acc x = x)
  /\ ~ before (rank (JS.max_step acc x)) (rank acc)
  /\ ~ before (rank (JS.max_step acc x)) (rank x).
Proof.
  intros Hacc Hx.
  destruct (max_step_cases acc x Hacc Hx) as [-> | [Hrank ->]].
  - pose proof (SFltb_rank acc x Hacc Hx) as Hlt.
    destruct (SFltb acc x).
    + assert (before (rank acc) (rank x)) as Hb by (apply Hlt; reflexivity).
      repeat split; auto using before_irrefl.
      destruct (rank acc) as [? [? ?]], (rank x) as [? [? ?]].
      revert Hb. unfold before. cbn. lia.
    + repeat split; auto using before_irrefl.
      intros Hb. apply Hlt in Hb. discriminate.
  - repeat split; auto using before_irrefl.
    rewrite Hrank. apply before_irrefl.
Qed.

Lemma fold_max_upper (data : list JS.number) :
  forall acc,
    acc <> JS.NaN -> Forall (fun x => x <> JS.NaN) data ->
    fold_left JS.max_step data acc <> JS.NaN
    /\ (fold_left JS.max_step data acc = acc
        \/ fold_left JS.max_step data acc ∈ data)
    /\ ~ before (rank (fold_left JS.max_step data acc)) (rank acc)
    /\ Forall (fun x => ~ before (rank (fold_left JS.max_step data acc))
                                 (rank x)) data.
Proof.
  induction data as [| x rest IH]; intros acc Hacc Hdata; cbn.
  - repeat split; auto using before_irrefl.
  - apply Forall_cons in Hdata as [Hx Hrest].
    destruct (max_step_upper acc x Hacc Hx) as (Hm & Hor & Hma & Hmx).
    destruct (IH (JS.max_step acc x) Hm Hrest) as (HM & HMor & HMm & HMrest).
    repeat split; auto.
    + destruct HMor as [-> | Hin].
      * destruct Hor as [-> | ->]; [left; reflexivity | right; left].
      * right. right. exact Hin.
    + eapply not_before_trans; eassumption.
    + constructor; [| exact HMrest].
      eapply not_before_trans; eassumption.
Qed.

Lemma indexOf_from_first (data : list JS.number) (x : JS.number) :
  forall i,
    x <> JS.NaN -> Forall (fun y => y <> JS.NaN) data ->
    (exists y, y ∈ data /\ rank y = rank x) ->
    exists (k : nat) (n : JS.number),
      JS.indexOf_from data x i = i + Z.of_nat k
      /\ data !! k = Some n
      /\ rank n = rank x
      /\ forall (j : nat) (y : JS.number),
           (j < k)%nat -> data !! j = Some y -> rank y <> rank x.
Proof.
  induction data as [| z rest IH]; intros i Hx Hdata (y & Hin & Hy).
  - inversion Hin.
  - apply Forall_cons in Hdata as [Hz Hrest]. cbn.
    pose proof (SFeqb_rank z x Hz Hx) as Heq.
    destruct (SFeqb z x).
    + exists 0%nat, z. repeat split.
      * lia.
      * apply Heq. reflexivity.
      * intros j y' Hj. lia.
    + assert (rank z <> rank x) as Hne
        by (intros Hr; apply Heq in Hr; discriminate).
      apply elem_of_cons in Hin as [-> | Hin]; [contradiction |].
      destruct (IH (i + 1) Hx Hrest (ex_intro _ y (conj Hin Hy)))
        as (k & n & Hk & Hn & Hr & Hfirst).
      exists (S k), n. repeat split; auto.
      * rewrite Hk. lia.
      * intros [| j] y' Hj Hy'; cbn in Hy'.
        -- injection Hy' as <-. exact Hne.
        -- apply (Hfirst j y'); [lia | exact Hy'].
Qed.

End ScoreOrder.

(** X4. Of a non-empty output without NaN, of no more scores than the
    engine takes as arguments of one call, the class index is a position
    of the output, the confidence is the score at that position, no score
    of the output is greater than it, and every score before that
    position is smaller: the first position of the largest score. *)
Theorem readPrediction_argmax (env : Env) (data : list JS.number) :
  Z.of_nat (length data) <= argumentLimit env ->
  data <> [] -> Forall (fun x => x <> JS.NaN) data ->
  exists (k : nat) (n : JS.number),
    DetectionController.classIndexOf data = Z.of_nat k
    /\ data !! k = Some n
    /\ DetectionController.spreadMax env data
       = Ret (DetectionController.mkAnalysis
                (Tables.diseaseName (Z.of_nat k)) (JS.VNum n)
                (DetectionController.getRecommendations
                   (Tables.diseaseName (Z.of_nat k))))
    /\ Forall (fun x => SFltb n x = false) data
    /\ forall (j : nat) (y : JS.number),
         (j < k)%nat -> data !! j = Some y -> SFltb y n = true.
Proof.
  intros Hfits Hne Hdata.
  assert (JS.neg_Infinity <> JS.NaN) as Hinf by discriminate.
  destruct (fold_max_upper data JS.neg_Infinity Hinf Hdata)
    as (HM & HMor & HMacc & HMall).
  fold (JS.Math_max data) in HM, HMor, HMacc, HMall.
  assert (exists y, y ∈ data /\ Order.rank y = Order.rank (JS.Math_max data))
    as Hreached.
  { destruct HMor as [HMeq | Hin]; [| eauto].
    destruct data as [| y rest]; [congruence |].
    exists y. split; [left |].
    apply Forall_cons in Hdata as [Hy _].
    apply Forall_cons in HMall as [HMy _].
    apply not_before_antisym; [| exact HMy].
    rewrite HMeq. apply nothing_before_neg_Infinity, Hy. }
  destruct (indexOf_from_first data (JS.Math_max data) 0 HM Hdata Hreached)
    as (k & n & Hk & Hn & Hr & Hfirst).
  assert (DetectionController.classIndexOf data = Z.of_nat k) as Hindex
    by (unfold DetectionController.classIndexOf, JS.indexOf; rewrite Hk; lia).
  assert (n <> JS.NaN) as Hnn.
  { rewrite Forall_lookup in Hdata. exact (Hdata k n Hn). }
  exists k, n. repeat split; auto.
  - unfold DetectionController.spreadMax.
    apply Z.ltb_ge in Hfits. rewrite Hfits.
    unfold DetectionController.readPrediction. rewrite Hindex.
    unfold JS.get.
    destruct (Z.ltb_spec (Z.of_nat k) 0) as [Hneg | _]; [lia |].
    rewrite Nat2Z.id, Hn. reflexivity.
  - rewrite Forall_forall in HMall, Hdata |- *. intros x Hx.
    destruct (SFltb n x) eqn:Hlt; [| reflexivity].
    apply (SFltb_rank n x Hnn (Hdata x Hx)) in Hlt.
    rewrite Hr in Hlt. destruct (HMall x Hx Hlt).
  - intros j y Hj Hy.
    assert (y <> JS.NaN) as Hyn.
    { rewrite Forall_lookup in Hdata. exact (Hdata j y Hy). }
    apply (SFltb_rank y n Hyn Hnn). rewrite Hr.
    apply not_before_cases.
    + rewrite Forall_lookup in HMall. exact (HMall j y Hy).
    + intros Heq. apply (Hfirst j y Hj Hy). symmetry. exact Heq.
Qed.

Lemma readPrediction_argmax_witness :
  let env := Scenario.tieEnv in
  let data := [Scenario.quarter; Scenario.half; Scenario.half] in
  Z.of_nat (length data) <= argumentLimit env
  /\ data <> []
  /\ Forall (fun x => x <> JS.NaN) data
  /\ exists (k : nat) (n : JS.number),
       DetectionController.classIndexOf data = Z.of_nat k
       /\ data !! k = Some n
       /\ DetectionController.spreadMax env data
          = Ret (DetectionController.mkAnalysis
                   (Tables.diseaseName (Z.of_nat k)) (JS.VNum n)
                   (DetectionController.getRecommendations
                      (Tables.diseaseName (Z.of_nat k))))
       /\ Forall (fun x => SFltb n x = false) data
       /\ forall (j : nat) (y : JS.number),
            (j < k)%nat -> data !! j = Some y -> SFltb y n = true.
Proof.
  assert (Z.of_nat (length [Scenario.quarter; Scenario.half; Scenario.half])
          <= argumentLimit Scenario.tieEnv) as Hfits
    by (vm_compute; discriminate).
  assert ([Scenario.quarter; Scenario.half; Scenario.half] <> []) as Hne
    by discriminate.
  assert (Forall (fun x => x <> JS.NaN)
            [Scenario.quarter; Scenario.half; Scenario.half]) as Hdata
    by (repeat constructor; discriminate).
  split; [exact Hfits |]. split; [exact Hne |]. split; [exact Hdata |].
  exact (readPrediction_argmax Scenario.tieEnv
           [Scenario.quarter; Scenario.half; Scenario.half] Hfits Hne Hdata).
Defined.

(** ** The model registry *)

Section ModelStore.
Import ModelInitialization Loading Footprint.
Context (env : Env).

Local Arguments run env {A} p w : simpl never.

Lemma warmupModel_offDisk (name : string) (m : Model) :
  only (@offDisk) (warmupModel name m).
Proof. unfold warmupModel. footprint. Qed.

Lemma warmupModel_instant (name : string) (m : Model) :
  only (@instant) (warmupModel name m).
Proof. unfold warmupModel. footprint. Qed.

Lemma loadOnce_offDisk (name : string) (config : ModelConfig) (url : string) :
  only (@offDisk) (loadOnce name config url).
Proof.
  unfold loadOnce. apply only_bind; [footprint | intros load].
  apply only_bind; [footprint | intros model].
  apply only_bind; [apply warmupModel_offDisk | intros _]. footprint.
Qed.

Lemma retryLoop_offDisk (name : string) (config : ModelConfig) (url : string)
    (remaining : nat) :
  forall attempt lastError,
    only (@offDisk) (retryLoop name config url remaining attempt lastError).
Proof.
  induction remaining as [| r IH]; intros attempt lastError; cbn [retryLoop].
  - destruct lastError; exact I.
  - apply only_try_catch; [apply loadOnce_offDisk | intros e].
    apply only_bind; [destruct (attempt <? retryAttempts config); footprint |].
    intros _. apply IH.
Qed.

Lemma getModel_offDisk (name : string) : only (@offDisk) (getModel env name).
Proof.
  unfold getModel, loadModelWithRetry, checkModelFiles.
  destruct (MODEL_CONFIG !! name) as [config |]; [| exact I].
  apply only_bind; [footprint | intros [model |]]; [exact I |].
  apply only_bind; [footprint | intros path]. apply retryLoop_offDisk.
Qed.

(** What a call of [getModel] leaves in the cache. *)
Lemma getModel_cache (name : string) (w : World) :
  match (run env (getModel env name) w).1 with
  | Ok m =>
      modelCache (run env (getModel env name) w).2
      = <[name := m]> (modelCache w)
      /\ (modelCache w !! name = None \/ modelCache w !! name = Some m)
  | Err _ => modelCache (run env (getModel env name) w).2 = modelCache w
  end.
Proof.
  destruct (MODEL_CONFIG !! name) as [config |] eqn:Hconfig.
  2:{ unfold getModel. rewrite Hconfig, run_throw. reflexivity. }
  destruct (modelCache w !! name) as [m |] eqn:Hcache.
  - rewrite (run_getModel_hit env name config m w Hconfig Hcache). cbn.
    split; [| right; reflexivity].
    symmetry. apply insert_id. exact Hcache.
  - rewrite (run_getModel_miss env name config w Hconfig Hcache).
    rewrite (run_loadModelWithRetry env name config _ Hconfig).
    cbn [files log].
    destruct (files w !! modelFile env config); [| reflexivity].
    destruct (MODEL_CONFIG_retryAttempts name config Hconfig)
      as (Hthree & _ & _ & _).
    destruct (retryLoop_effect env name config (modelUrl env config)
                (Z.to_nat (retryAttempts config)) 1 None
                (log (EvAccess (modelFile env config) true)
                     (log (EvCacheLookup name) w)))
      as (evs & _ & _ & _ & _ & _ & _ & _ & _ & _ & Hres);
      [rewrite Hthree; reflexivity |].
    cbn zeta in Hres.
    destruct (run env (retryLoop name config (modelUrl env config)
                         (Z.to_nat (retryAttempts config)) 1 None) _)
      as [[m | e] w1]; cbn [fst snd] in *.
    + destruct Hres as (_ & _ & ->). split; [reflexivity | left; reflexivity].
    + destruct Hres as (_ & -> & _). reflexivity.
Qed.

End ModelStore.

(** X5. Once [getModel] has returned a model, the next call for the same
    name returns that same model from the cache: its only operation is
    the cache lookup. No file is checked, no load is started, and the
    cache, the clock and the file system stay as they were. *)
Theorem getModel_reuses_cached_model (env : Env) (name : string) (m : Model)
    (w w1 : World) :
  run env (ModelInitialization.getModel env name) w = (Ok m, w1) ->
  run env (ModelInitialization.getModel env name) w1
  = (Ok m, log (EvCacheLookup name) w1).
Proof.
  intros Hfirst.
  pose proof (getModel_cache env name w) as Hcache.
  rewrite Hfirst in Hcache. cbn in Hcache. destruct Hcache as [Hcache _].
  destruct (ModelInitialization.MODEL_CONFIG !! name) as [config |] eqn:Hconfig.
  - apply (run_getModel_hit env name config m w1 Hconfig).
    rewrite Hcache. apply lookup_insert_eq.
  - unfold ModelInitialization.getModel in Hfirst.
    rewrite Hconfig in Hfirst. discriminate Hfirst.
Qed.

Lemma getModel_reuses_cached_model_witness :
  let env := Scenario.tieEnv in
  let first :=
    run env (ModelInitialization.getModel env "yolov5") (Scenario.world 0) in
  let m := mkModel "file:///srv/utils/../models/yolov5/yolov5_model.json" 0 in
  first = (Ok m, first.2)
  /\ run env (ModelInitialization.getModel env "yolov5") first.2
     = (Ok m, log (EvCacheLookup "yolov5") first.2).
Proof.
  assert (run Scenario.tieEnv
              (ModelInitialization.getModel Scenario.tieEnv "yolov5")
              (Scenario.world 0)
          = (Ok (mkModel
                   "file:///srv/utils/../models/yolov5/yolov5_model.json" 0),
             (run Scenario.tieEnv
                  (ModelInitialization.getModel Scenario.tieEnv "yolov5")
                  (Scenario.world 0)).2)) as Hfirst
    by (vm_compute; reflexivity).
  split; [exact Hfirst |].
  exact (getModel_reuses_cached_model _ _ _ _ _ Hfirst).
Defined.

Section LoadTime.
Import ModelInitialization Loading Footprint.
Context (env : Env).

Local Arguments run env {A} p w : simpl never.

Lemma loadOnce_clock (name : string) (config : ModelConfig) (url : string)
    (w : World) :
  clock (run env (loadOnce name config url) w).2
  = clock w + (race (timeout config) (loadOutcome env (loadsStarted w))).1.
Proof.
  unfold loadOnce.
  rewrite run_bind, run_call. cbn [fst snd perform].
  rewrite run_bind, run_attempt. cbn [perform loadsStarted log setLoads].
  destruct (race (timeout config) (loadOutcome env (loadsStarted w)))
    as [elapsed [[] | e]]; cbn [fst snd].
  - rewrite run_instant; [reflexivity |].
    apply only_bind; [apply warmupModel_instant | intros _]. footprint.
  - reflexivity.
Qed.

(** The waiting of the retry loop of a configured model: at most the
    timeout for each iteration and the delay between two of them. *)
Lemma retryLoop_clock (name : string) (config : ModelConfig) (url : string)
    (remaining : nat) :
  timeout config = 60000 -> retryDelay config = 5000 ->
  forall (attempt : Z) (lastError : option Error) (w : World),
    attempt + Z.of_nat remaining = retryAttempts config + 1 ->
    clock (run env (retryLoop name config url remaining attempt lastError) w).2
    <= clock w + 60000 * Z.of_nat remaining
       + 5000 * Z.max 0 (Z.of_nat remaining - 1).
Proof.
  intros Htimeout Hdelay.
  induction remaining as [| r IH]; intros attempt lastError w Hinv.
  - cbn [retryLoop]. destruct lastError; rewrite run_throw; cbn; lia.
  - cbn [retryLoop]. rewrite run_try_catch.
    pose proof (loadOnce_clock name config url w) as Hclock.
    pose proof (race_bounded (timeout config)
                  (loadOutcome env (loadsStarted w))) as Hbound.
    rewrite Htimeout in Hbound, Hclock.
    destruct (run env (loadOnce name config url) w) as [[m | e] w1];
      cbn [fst snd] in *; [lia |].
    rewrite run_bind.
    destruct (Z.ltb_spec attempt (retryAttempts config)) as [Hlt | Hge].
    + rewrite run_call. cbn [fst snd perform].
      specialize (IH (attempt + 1) (Some e)
                     (log (EvWait (retryDelay config))
                          (advanceClock (retryDelay config) w1))
                     ltac:(lia)).
      cbn [clock log advanceClock] in IH. rewrite Hdelay in IH |- *. lia.
    + rewrite run_ret.
      specialize (IH (attempt + 1) (Some e) w1 ltac:(lia)). lia.
Qed.

End LoadTime.

(** X6. Whatever the loads do, one call of [getModel] waits no longer
    than three timeouts of 60000 ms and two delays of 5000 ms: the clock,
    which the races against the timer and the waits between attempts
    advance, ends at most 190000 ms after the call. *)
Theorem getModel_waits_at_most (env : Env) (name : string) (w : World) :
  clock (run env (ModelInitialization.getModel env name) w).2
  <= clock w + 190000.
Proof.
  destruct (ModelInitialization.MODEL_CONFIG !! name) as [config |] eqn:Hconfig.
  2:{ unfold ModelInitialization.getModel. rewrite Hconfig. cbn. lia. }
  destruct (MODEL_CONFIG_retryAttempts name config Hconfig)
    as (Hthree & Hdelay & Htimeout & _).
  destruct (modelCache w !! name) as [m |] eqn:Hcache.
  - rewrite (run_getModel_hit env name config m w Hconfig Hcache). cbn. lia.
  - rewrite (run_getModel_miss env name config w Hconfig Hcache).
    rewrite (run_loadModelWithRetry env name config _ Hconfig).
    cbn [files log].
    destruct (files w !! Loading.modelFile env config); [| cbn; lia].
    pose proof (retryLoop_clock env name config (Loading.modelUrl env config)
                  (Z.to_nat (ModelInitialization.retryAttempts config))
                  Htimeout Hdelay 1 None
                  (log (EvAccess (Loading.modelFile env config) true)
                       (log (EvCacheLookup name) w))) as Hclock.
    rewrite Hthree in Hclock. specialize (Hclock eq_refl).
    cbn in Hclock. rewrite Hthree. cbn. lia.
Qed.

Section Stalled.
Import ModelInitialization Loading.
Context (env : Env).
Hypothesis stalled : forall load, loadOutcome env load = NeverSettles.

Local Arguments run env {A} p w : simpl never.

Lemma loadOnce_stalled (name : string) (config : ModelConfig) (url : string)
    (w : World) :
  run env (loadOnce name config url) w
  = (Err (mkError (timeoutMessage (timeout config))),
     log (EvLoadSettled (loadsStarted w) (timeout config) false)
         (advanceClock (timeout config)
            (log (EvLoadStart (loadsStarted w) url)
                 (setLoads (S (loadsStarted w)) w)))).
Proof.
  unfold loadOnce.
  rewrite run_bind, run_call. cbn [fst snd perform].
  rewrite run_bind, run_attempt. cbn [perform loadsStarted log setLoads].
  rewrite stalled. reflexivity.
Qed.

Lemma retryLoop_stalled (name : string) (config : ModelConfig) (url : string)
    (remaining : nat) :
  timeout config = 60000 -> retryDelay config = 5000 ->
  forall (attempt : Z) (lastError : option Error) (w : World),
    attempt + Z.of_nat remaining = retryAttempts config + 1 ->
    let r := run env (retryLoop name config url remaining attempt lastError) w in
    r.1 = Err (match match remaining with
                     | O => lastError
                     | S _ => Some (mkError (timeoutMessage 60000))
                     end with
               | Some last =>
                   mkError (failedAfter name config ++ ": " ++ message last)
               | None =>
                   mkError "Cannot read properties of null (reading 'message')"
               end)
    /\ clock r.2 = clock w + 60000 * Z.of_nat remaining
                   + 5000 * Z.max 0 (Z.of_nat remaining - 1)
    /\ loadsStarted r.2 = (loadsStarted w + remaining)%nat
    /\ modelCache r.2 = modelCache w.
Proof.
  intros Htimeout Hdelay.
  induction remaining as [| r IH]; intros attempt lastError w Hinv.
  - cbn [retryLoop]. destruct lastError; rewrite run_throw; cbn;
      repeat split; lia.
  - cbn [retryLoop]. rewrite run_try_catch, loadOnce_stalled, run_bind.
    rewrite Htimeout.
    destruct (Z.ltb_spec attempt (retryAttempts config)) as [Hlt | Hge].
    + rewrite run_call. cbn [fst snd perform]. rewrite Hdelay.
      destruct (IH (attempt + 1) (Some (mkError (timeoutMessage 60000)))
                   (log (EvWait 5000)
                      (advanceClock 5000
                         (log (EvLoadSettled (loadsStarted w) 60000 false)
                            (advanceClock 60000
                               (log (EvLoadStart (loadsStarted w) url)
                                  (setLoads (S (loadsStarted w)) w))))))
                   ltac:(lia)) as (Hres & Hclock & Hloads & Hcache).
      cbn zeta. rewrite Hres, Hclock, Hloads, Hcache. cbn.
      repeat split; try lia.
      destruct r; [lia | reflexivity].
    + rewrite run_ret.
      destruct (IH (attempt + 1) (Some (mkError (timeoutMessage 60000)))
                   (log (EvLoadSettled (loadsStarted w) 60000 false)
                      (advanceClock 60000
                         (log (EvLoadStart (loadsStarted w) url)
                            (setLoads (S (loadsStarted w)) w))))
                   ltac:(lia)) as (Hres & Hclock & Hloads & Hcache).
      cbn zeta. rewrite Hres, Hclock, Hloads, Hcache. cbn.
      repeat split; try lia.
      destruct r; [reflexivity | lia].
Qed.

End Stalled.

(** X7. When no load of a configured model ever settles, [getModel]
    gives up after exactly three timeouts of 60000 ms and two delays of
    5000 ms: it rejects with the message of the last timeout, three loads
    have been started, and nothing is cached. *)
Theorem stalled_loads_time_out (env : Env) (name : string)
    (config : ModelInitialization.ModelConfig) (w : World) :
  ModelInitialization.MODEL_CONFIG !! name = Some config ->
  modelCache w !! name = None ->
  is_Some (files w !! Loading.modelFile env config) ->
  (forall load, loadOutcome env load = NeverSettles) ->
  let r := run env (ModelInitialization.getModel env name) w in
  r.1 = Err (mkError
               ("Failed to load " ++ Str.toUpperCase name
                ++ " model after 3 attempts: "
                ++ "Model loading timed out after 60000ms"))
  /\ clock r.2 = clock w + 190000
  /\ loadsStarted r.2 = (loadsStarted w + 3)%nat
  /\ modelCache r.2 = modelCache w.
Proof.
  intros Hconfig Hcache [b Hfile] Hstalled r. subst r.
  destruct (MODEL_CONFIG_retryAttempts name config Hconfig)
    as (Hthree & Hdelay & Htimeout & _).
  rewrite (run_getModel_miss env name config w Hconfig Hcache).
  rewrite (run_loadModelWithRetry env name config _ Hconfig).
  cbn [files log]. rewrite Hfile, Hthree.
  destruct (retryLoop_stalled env Hstalled name config
              (Loading.modelUrl env config) (Z.to_nat 3)
              Htimeout Hdelay 1 None
              (log (EvAccess (Loading.modelFile env config) true)
                   (log (EvCacheLookup name) w)))
    as (Hres & Hclock & Hloads & Hcached).
  { rewrite Hthree. reflexivity. }
  cbn zeta. rewrite Hres, Hclock, Hloads, Hcached.
  split; [| repeat split; cbn; lia].
  unfold ModelInitialization.failedAfter. rewrite Hthree.
  cbn [Z.to_nat Pos.to_nat Pos.iter_op Nat.add message].
  f_equal. f_equal.
  change (pretty 3) with "3". change (timeoutMessage 60000)
    with "Model loading timed out after 60000ms".
  rewrite !append_assoc. reflexivity.
Qed.

Lemma stalled_loads_time_out_witness :
  let env := Cases.stalledEnv in
  let w := Scenario.world 0 in
  let r := run env (ModelInitialization.getModel env "yolov7") w in
  ModelInitialization.MODEL_CONFIG !! "yolov7" = Some Scenario.yolov7Config
  /\ modelCache w !! "yolov7" = None
  /\ is_Some (files w !! Loading.modelFile env Scenario.yolov7Config)
  /\ (forall load, loadOutcome env load = NeverSettles)
  /\ r.1 = Err (mkError
                  ("Failed to load " ++ Str.toUpperCase "yolov7"
                   ++ " model after 3 attempts: "
                   ++ "Model loading timed out after 60000ms"))
  /\ clock r.2 = clock w + 190000
  /\ loadsStarted r.2 = (loadsStarted w + 3)%nat
  /\ modelCache r.2 = modelCache w.
Proof.
  assert (ModelInitialization.MODEL_CONFIG !! "yolov7"
          = Some Scenario.yolov7Config) as Hconfig by reflexivity.
  assert (modelCache (Scenario.world 0) !! "yolov7" = None) as Hcache
    by reflexivity.
  assert (is_Some (files (Scenario.world 0)
                     !! Loading.modelFile Cases.stalledEnv
                          Scenario.yolov7Config)) as Hfile
    by (eexists; vm_compute; reflexivity).
  assert (forall load, loadOutcome Cases.stalledEnv load = NeverSettles)
    as Hstalled by reflexivity.
  split; [exact Hconfig |]. split; [exact Hcache |].
  split; [exact Hfile |]. split; [exact Hstalled |].
  exact (stalled_loads_time_out Cases.stalledEnv "yolov7"
           Scenario.yolov7Config (Scenario.world 0)
           Hconfig Hcache Hfile Hstalled).
Defined.

(** ** Live tensors *)

Section Tensors.
Import ModelInitialization ImageProcessor Footprint.
Context (env : Env).

Lemma fresh_above (w : World) (t : nat) :
  tensorsFresh w -> (nextTensor w <= t)%nat -> tensors w !! t = None.
Proof.
  intros Hfresh Hle. destruct (tensors w !! t) eqn:Hlive; [| reflexivity].
  specialize (Hfresh t (mk_is_Some _ _ Hlive)). lia.
Qed.

Lemma delete_decoded (live : gmap nat TensorInfo) (t : nat)
    (batched normalized image : TensorInfo) :
  live !! t = None ->
  delete t (<[S (S t) := batched]> (<[S t := normalized]>
                                      (<[t := image]> live)))
  = <[S (S t) := batched]> (<[S t := normalized]> live).
Proof.
  intros Hdead. rewrite !delete_insert_ne by lia.
  rewrite delete_insert_eq, (delete_id live t Hdead). reflexivity.
Qed.

End Tensors.

(** X8. A warmup never fails its caller. When its forward pass succeeds,
    the live tensors are afterwards the ones that were live before; when
    the forward pass throws, the dummy input of zeros is left live: the
    two [dispose] calls are skipped. *)
Theorem warmup_leaves_dummy_on_failure (env : Env) (name : string)
    (config : ModelInitialization.ModelConfig) (m : Model) (w : World) :
  ModelInitialization.MODEL_CONFIG !! name = Some config ->
  Footprint.tensorsFresh w ->
  let dummy :=
    mkTensor (ModelInitialization.warmupShape config) (fun _ => F32.zero) in
  let r := run env (ModelInitialization.warmupModel name m) w in
  r.1 = Ok tt
  /\ Footprint.tensorsFresh r.2
  /\ match predictOutcome env m dummy with
     | Ok _ => tensors r.2 = tensors w
     | Err _ => tensors r.2 = <[nextTensor w := dummy]> (tensors w)
     end.
Proof.
  intros Hconfig Hfresh dummy r. subst r dummy.
  pose proof (fresh_above w (nextTensor w) Hfresh (Nat.le_refl _)) as H0.
  pose proof (fresh_above w (S (nextTensor w)) Hfresh (Nat.le_succ_diag_r _))
    as H1.
  unfold ModelInitialization.warmupModel. rewrite Hconfig.
  unfold run. cbn. rewrite lookup_insert_eq.
  destruct (predictOutcome env m _) as [out | e]; cbn.
  - split; [reflexivity |]. split.
    + intros t [info Hlive]. cbn in Hlive |- *.
      destruct (decide (t = nextTensor w)) as [-> | Hne0]; [lia |].
      destruct (decide (t = S (nextTensor w))) as [-> | Hne1]; [lia |].
      rewrite lookup_delete_ne, lookup_delete_ne, lookup_insert_ne,
        lookup_insert_ne in Hlive by congruence.
      specialize (Hfresh t (mk_is_Some _ _ Hlive)). lia.
    + rewrite delete_insert_eq, delete_insert_ne by lia.
      rewrite delete_insert_eq.
      rewrite (delete_id (tensors w) (S (nextTensor w)) H1).
      apply delete_id, H0.
  - split; [reflexivity |]. split; [| reflexivity].
    intros t [info Hlive]. cbn in Hlive |- *.
    destruct (decide (t = nextTensor w)) as [-> | Hne0]; [lia |].
    rewrite lookup_insert_ne in Hlive by congruence.
    specialize (Hfresh t (mk_is_Some _ _ Hlive)). lia.
Qed.

Lemma warmup_leaves_dummy_on_failure_witness :
  let env := Scenario.brokenEnv in
  let m := mkModel "file:///srv/utils/../models/yolov7/yolov7_model.json" 1 in
  let w := Scenario.world 0 in
  let dummy := mkTensor [1; 640; 640; 3] (fun _ => F32.zero) in
  let r := run env (ModelInitialization.warmupModel "yolov7" m) w in
  ModelInitialization.MODEL_CONFIG !! "yolov7" = Some Scenario.yolov7Config
  /\ Footprint.tensorsFresh w
  /\ r.1 = Ok tt
  /\ Footprint.tensorsFresh r.2
  /\ match predictOutcome env m dummy with
     | Ok _ => tensors r.2 = tensors w
     | Err _ => tensors r.2 = <[nextTensor w := dummy]> (tensors w)
     end.
Proof.
  assert (ModelInitialization.MODEL_CONFIG !! "yolov7"
          = Some Scenario.yolov7Config) as Hconfig by reflexivity.
  assert (Footprint.tensorsFresh (Scenario.world 0)) as Hfresh.
  { intros t [info Hlive]. cbn in Hlive. rewrite lookup_empty in Hlive.
    discriminate Hlive. }
  split; [exact Hconfig |]. split; [exact Hfresh |].
  exact (warmup_leaves_dummy_on_failure Scenario.brokenEnv "yolov7"
           Scenario.yolov7Config
           (mkModel "file:///srv/utils/../models/yolov7/yolov7_model.json" 1)
           (Scenario.world 0) Hconfig Hfresh).
Defined.

(** X9. A successful [preprocessImage] leaves two more live tensors than
    it found: the batch it returns and the normalized tensor the batch
    was made from, which no one holds and nothing disposes; the decoded
    image is disposed. A failed one leaves the live tensors as they were
    and its message starts with "Image preprocessing failed: ". *)
Theorem preprocessImage_keeps_normalized (env : Env) (imagePath : string)
    (w : World) :
  Footprint.tensorsFresh w ->
  let r := run env (ImageProcessor.preprocessImage imagePath) w in
  let image := nextTensor w in
  let normalized := S (nextTensor w) in
  Footprint.tensorsFresh r.2
  /\ match r.1 with
     | Ok batched =>
         exists (b : Buffer) (img : Image),
           files w !! imagePath = Some b
           /\ decodeImage env b 3 = Ok img
           /\ batched = S normalized
           /\ tensors r.2 !! image = None
           /\ tensors r.2
              = <[batched :=
                    mkTensor [1; imgHeight img; imgWidth img; imgChannels img]
                      (fun i => F32.div (F32.of_Z (pixel img i))
                                        (F32.of_Z 255))]>
                  (<[normalized :=
                       mkTensor [imgHeight img; imgWidth img; imgChannels img]
                         (fun i => F32.div (F32.of_Z (pixel img i))
                                           (F32.of_Z 255))]>
                     (tensors w))
           /\ size (tensors r.2) = S (S (size (tensors w)))
     | Err e =>
         tensors r.2 = tensors w
         /\ exists reason,
              message e = "Image preprocessing failed: " ++ reason
     end.
Proof.
  intros Hfresh r image normalized. subst r image normalized.
  pose proof (fresh_above w (nextTensor w) Hfresh (Nat.le_refl _)) as H0.
  pose proof (fresh_above w (S (nextTensor w)) Hfresh (Nat.le_succ_diag_r _))
    as H1.
  pose proof (fresh_above w (S (S (nextTensor w))) Hfresh ltac:(lia)) as H2.
  unfold ImageProcessor.preprocessImage, ImageProcessor.toBatch.
  unfold run. cbn.
  destruct (files w !! imagePath) as [b |] eqn:Hfile; cbn.
  2:{ split; [| split; [reflexivity | eexists; reflexivity]].
      intros t Hlive. exact (Hfresh t Hlive). }
  destruct (decodeImage env b 3) as [img | e] eqn:Hdecode; cbn.
  2:{ split; [| split; [reflexivity | eexists; reflexivity]].
      intros t Hlive. exact (Hfresh t Hlive). }
  rewrite lookup_insert_eq. cbn. rewrite lookup_insert_eq. cbn.
  rewrite !(delete_decoded (tensors w) (nextTensor w)) by exact H0.
  split.
  - intros t [info Ht]. cbn in Ht |- *.
    destruct (decide (t = S (S (nextTensor w)))) as [-> | Hne2]; [lia |].
    destruct (decide (t = S (nextTensor w))) as [-> | Hne1]; [lia |].
    rewrite !lookup_insert_ne in Ht by congruence.
    specialize (Hfresh t (mk_is_Some _ _ Ht)). lia.
  - exists b, img. repeat split.
    + exact Hdecode.
    + rewrite !lookup_insert_ne by lia. exact H0.
    + rewrite !map_size_insert_None; [reflexivity | exact H1 |].
      rewrite lookup_insert_ne by lia. exact H2.
Qed.

Lemma preprocessImage_keeps_normalized_witness :
  let env := Scenario.tieEnv in
  let imagePath := Scenario.upload in
  let w := Scenario.world 16 in
  let r := run env (ImageProcessor.preprocessImage imagePath) w in
  let image := nextTensor w in
  let normalized := S (nextTensor w) in
  Footprint.tensorsFresh w
  /\ Footprint.tensorsFresh r.2
  /\ match r.1 with
     | Ok batched =>
         exists (b : Buffer) (img : Image),
           files w !! imagePath = Some b
           /\ decodeImage env b 3 = Ok img
           /\ batched = S normalized
           /\ tensors r.2 !! image = None
           /\ tensors r.2
              = <[batched :=
                    mkTensor [1; imgHeight img; imgWidth img; imgChannels img]
                      (fun i => F32.div (F32.of_Z (pixel img i))
                                        (F32.of_Z 255))]>
                  (<[normalized :=
                       mkTensor [imgHeight img; imgWidth img; imgChannels img]
                         (fun i => F32.div (F32.of_Z (pixel img i))
                                           (F32.of_Z 255))]>
                     (tensors w))
           /\ size (tensors r.2) = S (S (size (tensors w)))
     | Err e =>
         tensors r.2 = tensors w
         /\ exists reason,
              message e = "Image preprocessing failed: " ++ reason
     end.
Proof.
  assert (Footprint.tensorsFresh (Scenario.world 16)) as Hfresh.
  { intros t [info Hlive]. cbn in Hlive. rewrite lookup_empty in Hlive.
    discriminate Hlive. }
  split; [exact Hfresh |].
  exact (preprocessImage_keeps_normalized Scenario.tieEnv Scenario.upload
           (Scenario.world 16) Hfresh).
Defined.

(** ** Files *)

Section Files.
Import DetectionController Footprint.
Context (env : Env).

Local Arguments run env {A} p w : simpl never.

(** The calls of [fs.unlink], one after the other in one turn. *)
Lemma run_unlinks {A} (paths : list string) (k : prog A) (w : World) :
  exists w1,
    run env (foldr (fun filePath rest => call (FsUnlinkStart filePath) ;;; rest)
                   (Ret tt) paths ;;; k) w
    = run env k w1
    /\ files w1 = files w
    /\ pendingUnlinks w1 = (pendingUnlinks w ++ paths)%list
    /\ modelCache w1 = modelCache w /\ tensors w1 = tensors w
    /\ loadsStarted w1 = loadsStarted w /\ clock w1 = clock w.
Proof.
  revert w. induction paths as [| path rest IH]; intros w.
  - exists w. rewrite app_nil_r. repeat split.
  - destruct (IH (log (EvUnlinkStart path)
                      (setPending (pendingUnlinks w ++ [path]) w)))
      as (w1 & Hrun & Hfiles & Hpending & Hcache & Htensors & Hloads & Hclock).
    exists w1. cbn [foldr]. rewrite run_bind, run_bind, run_call.
    cbn [fst snd perform]. rewrite run_bind in Hrun. rewrite Hrun.
    cbn in Hfiles, Hpending, Hcache, Htensors, Hloads, Hclock.
    rewrite <- app_assoc in Hpending. repeat split; assumption.
Qed.

(** [cleanupFiles] as the controller calls it, without [await]: the
    deletions are started and the caller goes on. *)
Lemma run_cleanupFiles_detached (filePaths : list string) (w : World) :
  exists w1,
    run env (detached (cleanupFiles filePaths)) w = (Ok tt, w1)
    /\ files w1 = files w
    /\ pendingUnlinks w1
       = (pendingUnlinks w
          ++ filter (fun path => JS.truthy path = true) filePaths)%list
    /\ modelCache w1 = modelCache w /\ tensors w1 = tensors w
    /\ loadsStarted w1 = loadsStarted w /\ clock w1 = clock w.
Proof.
  unfold cleanupFiles.
  generalize (filter (fun path => JS.truthy path = true) filePaths).
  intros paths. revert w.
  induction paths as [| path rest IH]; intros w.
  - exists w. rewrite app_nil_r. repeat split.
  - destruct (IH (log (EvUnlinkStart path)
                      (setPending (pendingUnlinks w ++ [path]) w)))
      as (w1 & Hrun & Hfiles & Hpending & Hcache & Htensors & Hloads & Hclock).
    exists w1. cbn in Hfiles, Hpending, Hcache, Htensors, Hloads, Hclock.
    rewrite <- app_assoc in Hpending.
    split; [exact Hrun | repeat split; assumption].
Qed.

End Files.

(** X10. An awaited [cleanupFiles] never throws. When it returns no
    deletion is pending, every path of the list that is not empty is gone
    from the file system, as is every file whose deletion had been
    started before, and every other file is as it was. *)
Theorem cleanupFiles_removes_listed (env : Env) (filePaths : list string)
    (w : World) :
  let started := filter (fun path => JS.truthy path = true) filePaths in
  let r := run env (DetectionController.cleanupFiles filePaths) w in
  r.1 = Ok tt
  /\ pendingUnlinks r.2 = []
  /\ (forall path,
        path ∈ (pendingUnlinks w ++ started)%list -> files r.2 !! path = None)
  /\ (forall path,
        path ∉ (pendingUnlinks w ++ started)%list ->
        files r.2 !! path = files w !! path).
Proof.
  intros started r. subst r started.
  unfold DetectionController.cleanupFiles. rewrite run_try_catch.
  destruct (run_unlinks env
              (filter (fun path => JS.truthy path = true) filePaths)
              (call AwaitUnlinks) w)
    as (w1 & Hrun & Hfiles & Hpending & _).
  rewrite Hrun. cbn. rewrite Hfiles, Hpending. repeat split.
  - intros path Hin. apply lookup_foldr_delete, Hin.
  - intros path Hout. apply lookup_foldr_delete_not_elem_of, Hout.
Qed.

Section Disk.
Import ModelInitialization ImageProcessor DetectionController Footprint.
Context (env : Env).

Local Arguments run env {A} p w : simpl never.

Lemma respond_offDisk {D} (st : Z) (s : bool) (d : option D) (m : string)
    (e : option Error) :
  only (@offDisk) (respond st s d m e).
Proof. unfold respond, createResponse. footprint. Qed.

Lemma checkImageQuality_offDisk (imagePath : string)
    (options : QualityOptions) :
  only (@offDisk) (checkImageQuality imagePath options).
Proof. unfold checkImageQuality. footprint. Qed.

Lemma preprocessImage_offDisk (imagePath : string) :
  only (@offDisk) (preprocessImage imagePath).
Proof. unfold preprocessImage, toBatch. footprint. Qed.

Lemma processImageBuffer_offDisk (imageBuffer : Buffer)
    (options : BufferOptions) :
  only (@offDisk) (processImageBuffer imageBuffer options).
Proof. unfold processImageBuffer, toBatch. footprint. Qed.

Lemma predictBoth_offDisk (yolov5 yolov7 : Model) (tensor : Tensor) :
  only (@offDisk) (predictBoth env yolov5 yolov7 tensor).
Proof. unfold predictBoth, spreadMax. footprint. Qed.

Lemma models_offDisk :
  only (@offDisk) (Promise_all2 (getYOLOv5Model env) (getYOLOv7Model env)).
Proof. apply only_Promise_all2; apply getModel_offDisk. Qed.

Lemma analyzeStream_offDisk (req : StreamRequest) :
  only (@offDisk) (analyzeStream env req).
Proof.
  unfold analyzeStream. apply only_bind; [footprint | intros startTime].
  apply only_try_catch; [| intros e; apply respond_offDisk].
  destruct (imageData req) as [imageData |]; [| apply respond_offDisk].
  destruct (negb (JS.truthy imageData)); [apply respond_offDisk |].
  apply only_bind; [apply models_offDisk | intros [yolov5 yolov7]].
  apply only_bind; [unfold frameBuffer; footprint | intros buffer].
  apply only_bind; [apply processImageBuffer_offDisk | intros tensor].
  apply only_bind; [apply predictBoth_offDisk | intros [a5 a7]].
  apply only_bind; [footprint | intros now]. apply respond_offDisk.
Qed.

End Disk.

(** X11. [analyzeStream] never touches the disk: whatever the request,
    the file system and the pending deletions are afterwards as they were
    before. A request without image data, or with the empty string, is
    answered 400 "No image data provided" and leaves the world exactly as
    it found it: no model is requested. *)
Theorem analyzeStream_leaves_disk (env : Env)
    (req : DetectionController.StreamRequest) (w : World) :
  let r := run env (DetectionController.analyzeStream env req) w in
  files r.2 = files w
  /\ pendingUnlinks r.2 = pendingUnlinks w
  /\ (DetectionController.imageData req = None
      \/ DetectionController.imageData req = Some "" ->
      r.2 = w
      /\ exists resp,
           r.1 = Ok resp
           /\ DetectionController.status resp = 400
           /\ DetectionController.data (DetectionController.body resp) = None
           /\ DetectionController.bodyError (DetectionController.body resp)
              = Some "No image data provided").
Proof.
  intros r. subst r.
  destruct (run_offDisk env (DetectionController.analyzeStream env req) w
              (analyzeStream_offDisk env req)) as [Hfiles Hpending].
  split; [exact Hfiles |]. split; [exact Hpending |].
  intros Hnone. unfold DetectionController.analyzeStream.
  destruct Hnone as [-> | ->]; cbn; (split; [reflexivity |]);
    eexists; repeat split.
Qed.

Section UploadDisk.
Import ModelInitialization ImageProcessor DetectionController Footprint.
Context (env : Env).

Local Arguments run env {A} p w : simpl never.

(** One step of a program that stays off the disk. *)
Ltac off_disk_step :=
  match goal with
  | |- context [run env ?p ?w0] =>
      let H := fresh in
      let Hf := fresh "Hfiles" in
      let Hp := fresh "Hpending" in
      assert (only (@offDisk) p) as H
        by first [ apply models_offDisk | apply preprocessImage_offDisk
                 | apply predictBoth_offDisk | apply checkImageQuality_offDisk
                 | apply respond_offDisk | footprint ];
      destruct (run_offDisk env p w0 H) as [Hf Hp]; clear H;
      destruct (run env p w0) as [[? | ?] ?]; cbn [fst snd] in *
  end.

Lemma analyzeUpload_disk (file : UploadedFile) (startTime : Z)
    (filePath processedFilePath : string) (filesToCleanup : list string)
    (w : World) :
  let r := run env (analyzeUpload env file startTime filePath
                                  processedFilePath filesToCleanup) w in
  (forall path,
     path <> processedFilePath -> files r.2 !! path = files w !! path)
  /\ match r.1 with
     | Ok resp =>
         (status resp = 404 \/ status resp = 400)
         /\ files r.2 = files w /\ pendingUnlinks r.2 = pendingUnlinks w
         \/ status resp = 200
            /\ pendingUnlinks r.2
               = (pendingUnlinks w
                  ++ filter (fun path => JS.truthy path = true)
                            filesToCleanup)%list
     | Err _ => pendingUnlinks r.2 = pendingUnlinks w
     end.
Proof.
  cbn zeta. unfold analyzeUpload.
  rewrite run_bind, run_settled.
  off_disk_step.
  2:{ rewrite run_respond. cbn. rewrite Hfiles, Hpending.
      split; [reflexivity |]. left. auto. }
  rewrite run_bind, run_settled. off_disk_step.
  2:{ rewrite run_respond. cbn.
      split; [intros path _ |]; [congruence |].
      left. repeat split; [auto | congruence | congruence]. }
  rewrite run_bind, run_attempt. cbn [perform].
  destruct (files w1 !! filePath) as [uploaded |];
    [| cbn; split; [intros path _ |]; congruence].
  destruct (sharp_resize env uploaded (contain 640 640)) as [out | e];
    [| cbn; split; [intros path _ |]; congruence].
  match goal with
  | |- context [log (EvResize ?o) ?w0] => set (w2 := log (EvResize o) w0)
  end.
  assert (forall path, path <> processedFilePath ->
                       files w2 !! path = files w !! path) as Hkept.
  { intros path Hne. subst w2. cbn.
    rewrite lookup_insert_ne by congruence. congruence. }
  assert (pendingUnlinks w2 = pendingUnlinks w) as Hnone
    by (subst w2; cbn; congruence).
  clearbody w2.
  rewrite run_bind. off_disk_step;
    [| split; [intros path Hne; rewrite <- (Hkept path Hne) |]; congruence].
  match goal with
  | |- context [let '(yolov5, yolov7) := ?models in _] =>
      destruct models as [yolov5 yolov7]
  end.
  rewrite run_bind. off_disk_step;
    [| split; [intros path Hne; rewrite <- (Hkept path Hne) |]; congruence].
  rewrite run_bind. off_disk_step;
    [| split; [intros path Hne; rewrite <- (Hkept path Hne) |]; congruence].
  rewrite run_bind. off_disk_step;
    [| split; [intros path Hne; rewrite <- (Hkept path Hne) |]; congruence].
  match goal with
  | |- context [let '(yolov5Result, yolov7Result) := ?predictions in _] =>
      destruct predictions as [yolov5Result yolov7Result]
  end.
  rewrite run_bind, run_call. cbn [fst snd perform]. rewrite run_bind.
  match goal with
  | |- context [run env (detached (cleanupFiles ?l)) ?w0] =>
      destruct (run_cleanupFiles_detached env l w0)
        as (w7 & -> & Hfiles7 & Hpending7 & _)
  end.
  rewrite run_respond. cbn.
  split; [intros path Hne; rewrite <- (Hkept path Hne); congruence |].
  right. split; [reflexivity |]. congruence.
Qed.

End UploadDisk.

(** X12. [analyzeImage] always answers. When it answers 404 or 400 it
    has started no deletion; when it answers 200 or 500 it has started
    the deletion of exactly the upload and the processed copy, and of
    nothing else. In both cases every file that is not under a deletion
    that was started, by this request or before, is as it was before the
    request; of the files under a started deletion nothing is said, as
    the deletion may be made at any time. *)
Theorem analyzeImage_cleanup (env : Env)
    (req : DetectionController.ImageRequest) (w : World) :
  let r := run env (DetectionController.analyzeImage env req) w in
  exists resp,
    r.1 = Ok resp
    /\ (forall path,
          path ∉ pendingUnlinks r.2 -> files r.2 !! path = files w !! path)
    /\ ((DetectionController.status resp = 404
         \/ DetectionController.status resp = 400)
        /\ pendingUnlinks r.2 = pendingUnlinks w
        \/ (DetectionController.status resp = 200
            \/ DetectionController.status resp = 500)
           /\ exists file,
                DetectionController.reqFile req = Some file
                /\ let filePath :=
                     path_resolve env (DetectionController.uploadPath file) in
                   let processedFilePath := filePath ++ "_processed.jpg" in
                   pendingUnlinks r.2
                   = (pendingUnlinks w
                      ++ filter (fun path => JS.truthy path = true)
                                [filePath; processedFilePath])%list).
Proof.
  intros r. subst r. unfold DetectionController.analyzeImage.
  rewrite run_bind, run_call. cbn [fst snd perform].
  destruct (DetectionController.reqFile req) as [file |].
  2:{ rewrite run_respond. eexists. split; [reflexivity |]. cbn. auto. }
  rewrite run_try_catch.
  set (filePath := path_resolve env (DetectionController.uploadPath file)).
  pose proof (analyzeUpload_disk env file (clock w) filePath
                (filePath ++ "_processed.jpg")
                [filePath; filePath ++ "_processed.jpg"] w) as [Hkept Hcase].
  cbn zeta in Hkept, Hcase.
  assert (forall started : list string,
            started = filter (fun path => JS.truthy path = true)
                             [filePath; filePath ++ "_processed.jpg"] ->
            forall pending : list string,
              filePath ++ "_processed.jpg" ∈ (pending ++ started)%list)
    as Hstarts.
  { intros started -> pending. apply elem_of_app. right.
    apply list_elem_of_filter. split.
    - destruct filePath; reflexivity.
    - apply list_elem_of_further, list_elem_of_here. }
  destruct (run env (DetectionController.analyzeUpload env file (clock w) _ _ _)
                w) as [[resp | e] w1]; cbn [fst snd] in *.
  - exists resp. split; [reflexivity |].
    destruct Hcase as [(Hrefused & Hfiles & Hpending) | [Hok Hstarted]].
    + split; [intros path _; rewrite Hfiles; reflexivity |].
      left. split; [exact Hrefused | exact Hpending].
    + split.
      * intros path Hout. apply Hkept. intros ->. apply Hout.
        rewrite Hstarted. apply Hstarts. reflexivity.
      * right. split; [left; exact Hok |]. exists file.
        split; [reflexivity | exact Hstarted].
  - rewrite run_bind.
    match goal with
    | |- context [run env (detached (DetectionController.cleanupFiles ?l)) ?w0] =>
        destruct (run_cleanupFiles_detached env l w0)
          as (w2 & -> & Hfiles2 & Hpending2 & _)
    end.
    rewrite run_respond. eexists. split; [reflexivity |]. cbn [fst snd].
    rewrite Hcase in Hpending2. split.
    + intros path Hout. rewrite Hfiles2. apply Hkept. intros ->. apply Hout.
      rewrite Hpending2. apply Hstarts. reflexivity.
    + right. split; [right; reflexivity |]. exists file.
      split; [reflexivity | exact Hpending2].
Qed.

(** ** Initialization and cleanup of the models *)

Section Lifecycle.
Import ModelInitialization ModelLifecycle Loading Flight Footprint.
Context (env : Env).

Local Arguments run env {A} p w : simpl never.

Lemma attemptError_resolves (config : ModelConfig) (load : nat) :
  loadsResolve env config -> attemptError env config load = None.
Proof.
  intros Hresolve. destruct (Hresolve load) as (elapsed & Hout & Hlt).
  unfold attemptError. rewrite Hout. cbn.
  destruct (Z.ltb_spec elapsed (timeout config)); [reflexivity | lia].
Qed.

(** With its file in place and loads that resolve in time, a configured
    model is returned. *)
Lemma getModel_succeeds (name : string) (config : ModelConfig) (w : World) :
  MODEL_CONFIG !! name = Some config ->
  fileInPlace env config w ->
  loadsResolve env config ->
  exists m, (run env (getModel env name) w).1 = Ok m.
Proof.
  intros Hconfig [b Hfile] Hresolve.
  destruct (modelCache w !! name) as [m |] eqn:Hcache.
  - exists m. rewrite (run_getModel_hit env name config m w Hconfig Hcache).
    reflexivity.
  - rewrite (run_getModel_miss env name config w Hconfig Hcache).
    rewrite (run_loadModelWithRetry env name config _ Hconfig).
    cbn [files log]. rewrite Hfile.
    destruct (MODEL_CONFIG_retryAttempts name config Hconfig)
      as (Hthree & _ & _ & _).
    destruct (retryLoop_effect env name config (modelUrl env config)
                (Z.to_nat (retryAttempts config)) 1 None
                (log (EvAccess (modelFile env config) true)
                     (log (EvCacheLookup name) w)))
      as (evs & _ & _ & _ & _ & _ & _ & _ & _ & _ & Hres);
      [rewrite Hthree; reflexivity |].
    cbn zeta in Hres.
    destruct (run env (retryLoop name config (modelUrl env config)
                         (Z.to_nat (retryAttempts config)) 1 None) _)
      as [[m | e] w1]; cbn [fst snd] in *; [eauto |].
    destruct Hres as (_ & _ & Hfailed & _).
    rewrite Hthree in Hfailed.
    destruct (Hfailed 0%nat ltac:(cbn; lia)).
    apply attemptError_resolves, Hresolve.
Qed.

Lemma loadedOrNull_offDisk (name : string) :
  only (@offDisk) (loadedOrNull env name).
Proof.
  unfold loadedOrNull. apply only_try_catch; [| intros; exact I].
  apply only_bind; [apply getModel_offDisk | intros; exact I].
Qed.

Lemma run_loadedOrNull (name : string) (w : World) :
  run env (loadedOrNull env name) w
  = (Ok (option_of_result (run env (getModel env name) w).1),
     (run env (getModel env name) w).2).
Proof.
  unfold loadedOrNull. rewrite run_try_catch, run_bind.
  destruct (run env (getModel env name) w) as [[m | e] w1]; reflexivity.
Qed.

(** The calls for the names, each run to settlement. *)
Lemma allSettled_effect (names : list string) :
  forall w,
    let r := run env (allSettled env names) w in
    (exists models, r.1 = Ok models)
    /\ modelCache w ⊆ modelCache r.2
    /\ files r.2 = files w
    /\ (forall name,
          is_Some (modelCache r.2 !! name) ->
          is_Some (modelCache w !! name) \/ name ∈ names)
    /\ (forall name config,
          name ∈ names ->
          MODEL_CONFIG !! name = Some config ->
          fileInPlace env config w ->
          loadsResolve env config ->
          is_Some (modelCache r.2 !! name)).
Proof.
  induction names as [| name rest IH]; intros w; cbn zeta.
  - cbn [allSettled]. rewrite run_ret. cbn. repeat split; eauto.
    intros name config Hin. inversion Hin.
  - cbn [allSettled]. rewrite run_bind, run_loadedOrNull.
    pose proof (getModel_cache env name w) as Hcache.
    destruct (run_offDisk env (getModel env name) w (getModel_offDisk env name))
      as [Hfiles _].
    pose proof (fun config => getModel_succeeds name config w) as Hsucceeds.
    destruct (run env (getModel env name) w) as [res w1]; cbn [fst snd] in *.
    specialize (IH w1). cbn zeta in IH.
    destruct IH as ((models & Hmodels) & Hsub & Hfiles1 & Hdom & Hloaded).
    rewrite run_bind.
    destruct (run env (allSettled env rest) w1) as [res1 w2];
      cbn [fst snd] in *.
    subst res1. rewrite run_ret. cbn [fst snd].
    assert (modelCache w ⊆ modelCache w1) as Hsub0.
    { destruct res as [m | e]; [| rewrite Hcache; reflexivity].
      destruct Hcache as [-> [Hnone | Hsame]].
      - apply insert_subseteq, Hnone.
      - rewrite insert_id by exact Hsame. reflexivity. }
    split; [eauto |].
    split; [etransitivity; eassumption |].
    split; [congruence |].
    split.
    + intros other Hother. destruct (Hdom other Hother) as [Hin | Hin].
      * destruct (decide (other = name)) as [-> | Hne];
          [right; left |].
        left. destruct res as [m | e].
        -- destruct Hcache as [Hcache _]. rewrite Hcache in Hin.
           rewrite lookup_insert_ne in Hin by congruence. exact Hin.
        -- rewrite Hcache in Hin. exact Hin.
      * right. right. exact Hin.
    + intros other config Hin Hconfig Hplace Hresolve.
      apply elem_of_cons in Hin as [-> | Hin].
      * destruct (Hsucceeds config Hconfig Hplace Hresolve) as [m ->].
        destruct Hcache as [Hcache _].
        assert (modelCache w1 !! name = Some m) as Hhit
          by (rewrite Hcache; apply lookup_insert_eq).
        exists m. eapply lookup_weaken; eassumption.
      * apply (Hloaded other config Hin Hconfig); [| exact Hresolve].
        unfold fileInPlace in *. rewrite Hfiles. exact Hplace.
Qed.

End Lifecycle.

(** X13. [initializeAllModels] never rejects, whatever fails. It drops
    nothing from the cache and changes no entry of it; what it adds is
    cached under "yolov5" or "yolov7"; and it leaves the file system as
    it was. *)
Theorem initializeAllModels_settles (env : Env) (w : World) :
  let r := run env (ModelLifecycle.initializeAllModels env) w in
  r.1 = Ok tt
  /\ modelCache w ⊆ modelCache r.2
  /\ (forall name,
        is_Some (modelCache r.2 !! name) ->
        is_Some (modelCache w !! name) \/ name = "yolov5" \/ name = "yolov7")
  /\ files r.2 = files w.
Proof.
  intros r. subst r. unfold ModelLifecycle.initializeAllModels.
  rewrite run_bind.
  destruct (allSettled_effect env ModelLifecycle.modelNames w)
    as ((models & Hmodels) & Hsub & Hfiles & Hdom & _).
  cbn zeta in Hmodels, Hsub, Hfiles, Hdom.
  destruct (run env (ModelLifecycle.allSettled env ModelLifecycle.modelNames) w)
    as [res w1]; cbn [fst snd] in *.
  subst res. cbn. repeat split; auto.
  intros name Hname. destruct (Hdom name Hname) as [Hin | Hin]; [auto |].
  right. unfold ModelLifecycle.modelNames in Hin.
  apply elem_of_cons in Hin as [-> | Hin]; [auto |].
  apply elem_of_cons in Hin as [-> | Hin]; [auto |]. inversion Hin.
Qed.

(** X14. With both model files in place and loads that resolve before the
    timer, [initializeAllModels] leaves both models cached, and a call of
    [getModel] after it is answered from the cache: its only operation is
    the lookup. *)
Theorem initializeAllModels_warms_cache (env : Env) (w : World) :
  Flight.fileInPlace env Scenario.yolov5Config w ->
  Flight.fileInPlace env Scenario.yolov7Config w ->
  Flight.loadsResolve env Scenario.yolov5Config ->
  let r := run env (ModelLifecycle.initializeAllModels env) w in
  forall name,
    name ∈ ModelLifecycle.modelNames ->
    exists m,
      modelCache r.2 !! name = Some m
      /\ run env (ModelInitialization.getModel env name) r.2
         = (Ok m, log (EvCacheLookup name) r.2).
Proof.
  intros Hfile5 Hfile7 Hresolve r name Hname. subst r.
  unfold ModelLifecycle.initializeAllModels. rewrite run_bind.
  destruct (allSettled_effect env ModelLifecycle.modelNames w)
    as ((models & Hmodels) & _ & _ & _ & Hloaded).
  cbn zeta in Hmodels, Hloaded.
  destruct (run env (ModelLifecycle.allSettled env ModelLifecycle.modelNames) w)
    as [res w1]; cbn [fst snd] in *.
  subst res. cbn [fst snd run].
  assert (exists config,
            ModelInitialization.MODEL_CONFIG !! name = Some config
            /\ Flight.fileInPlace env config w
            /\ Flight.loadsResolve env config) as (config & Hconfig & Hplace & Hres).
  { unfold ModelLifecycle.modelNames in Hname.
    apply elem_of_cons in Hname as [-> | Hname];
      [exists Scenario.yolov5Config; auto |].
    apply elem_of_cons in Hname as [-> | Hname];
      [exists Scenario.yolov7Config; auto | inversion Hname]. }
  destruct (Hloaded name config Hname Hconfig Hplace Hres) as [m Hm].
  exists m. split; [exact Hm |].
  apply (run_getModel_hit env name config m w1 Hconfig Hm).
Qed.

Lemma initializeAllModels_warms_cache_witness :
  let env := Scenario.tieEnv in
  let w := Scenario.world 0 in
  let r := run env (ModelLifecycle.initializeAllModels env) w in
  Flight.fileInPlace env Scenario.yolov5Config w
  /\ Flight.fileInPlace env Scenario.yolov7Config w
  /\ Flight.loadsResolve env Scenario.yolov5Config
  /\ forall name,
       name ∈ ModelLifecycle.modelNames ->
       exists m,
         modelCache r.2 !! name = Some m
         /\ run env (ModelInitialization.getModel env name) r.2
            = (Ok m, log (EvCacheLookup name) r.2).
Proof.
  assert (Flight.fileInPlace Scenario.tieEnv Scenario.yolov5Config
            (Scenario.world 0)) as Hfile5
    by (eexists; vm_compute; reflexivity).
  assert (Flight.fileInPlace Scenario.tieEnv Scenario.yolov7Config
            (Scenario.world 0)) as Hfile7
    by (eexists; vm_compute; reflexivity).
  assert (Flight.loadsResolve Scenario.tieEnv Scenario.yolov5Config)
    as Hresolve
    by (intros load; exists 1200; split; reflexivity).
  split; [exact Hfile5 |]. split; [exact Hfile7 |].
  split; [exact Hresolve |].
  exact (initializeAllModels_warms_cache Scenario.tieEnv (Scenario.world 0)
           Hfile5 Hfile7 Hresolve).
Defined.

(** X15. [cleanupModels] disposes exactly the models it takes out of the
    cache and touches nothing else of the world. A cleanup by name leaves
    every other entry of the cache in place; one without a name, or with
    the empty string, empties the cache. A second call with the same
    argument disposes nothing and changes nothing. *)
Theorem cleanupModels_disposes_what_it_drops (modelName : option string)
    (w : World) :
  let r := ModelLifecycle.cleanupModels modelName w in
  r.1 ∪ modelCache r.2 = modelCache w
  /\ r.1 ##ₘ modelCache r.2
  /\ r.2 = setCache (modelCache r.2) w
  /\ match modelName with
     | Some (String c rest) =>
         modelCache r.2 !! String c rest = None
         /\ forall other,
              other <> String c rest ->
              modelCache r.2 !! other = modelCache w !! other
     | _ => modelCache r.2 = ∅
     end
  /\ ModelLifecycle.cleanupModels modelName r.2 = (∅, r.2).
Proof.
  intros r. subst r. unfold ModelLifecycle.cleanupModels.
  destruct modelName as [[| c rest] |]; cbn [JS.truthy].
  - cbn. rewrite map_union_empty. repeat split.
    apply map_disjoint_empty_r.
  - destruct (modelCache w !! String c rest) as [model |] eqn:Hcached; cbn.
    + rewrite lookup_delete_eq. repeat split.
      * rewrite <- insert_union_singleton_l.
        rewrite insert_delete_eq. apply insert_id, Hcached.
      * apply map_disjoint_singleton_l. apply lookup_delete_eq.
      * intros other Hne. apply lookup_delete_ne. congruence.
    + rewrite Hcached. rewrite map_empty_union. repeat split.
      * apply map_disjoint_empty_l.
      * destruct w. reflexivity.
  - cbn. rewrite map_union_empty. repeat split.
    apply map_disjoint_empty_r.
Qed.

Section AfterCleanup.
Import ModelInitialization ModelLifecycle Loading.
Context (env : Env).

Lemma cleanupModels_uncaches (name : string) (w : World) :
  JS.truthy name = true ->
  modelCache (cleanupModels (Some name) w).2 !! name = None
  /\ files (cleanupModels (Some name) w).2 = files w
  /\ loadsStarted (cleanupModels (Some name) w).2 = loadsStarted w
  /\ trace (cleanupModels (Some name) w).2 = trace w.
Proof.
  intros Htruthy. unfold cleanupModels. rewrite Htruthy.
  destruct (modelCache w !! name) eqn:Hcached; cbn.
  - rewrite lookup_delete_eq. repeat split.
  - repeat split. exact Hcached.
Qed.

End AfterCleanup.

(** X16. After [cleanupModels(name)] a call of [getModel(name)] is not
    answered from the cache, whatever was cached before: it looks the
    name up, then checks the model file again. If the file is gone it
    rejects with the file-not-found error and starts no load; otherwise
    it starts at least one new load. *)
Theorem getModel_after_cleanup_reloads (env : Env) (name : string)
    (config : ModelInitialization.ModelConfig) (w : World) :
  ModelInitialization.MODEL_CONFIG !! name = Some config ->
  let cleaned := (ModelLifecycle.cleanupModels (Some name) w).2 in
  let r := run env (ModelInitialization.getModel env name) cleaned in
  match files w !! Loading.modelFile env config with
  | None =>
      r.1 = Err (mkError (Str.toUpperCase name
                          ++ " model file not found. See console for details."))
      /\ loadsStarted r.2 = loadsStarted w
      /\ trace r.2
         = (trace w ++ [EvCacheLookup name;
                        EvAccess (Loading.modelFile env config) false])%list
  | Some _ =>
      exists evs,
        trace r.2
        = (trace w ++ [EvCacheLookup name;
                       EvAccess (Loading.modelFile env config) true]
           ++ evs)%list
        /\ (1 <= Loading.attempts evs)%nat
        /\ loadsStarted r.2 = (loadsStarted w + Loading.attempts evs)%nat
  end.
Proof.
  intros Hconfig cleaned r. subst r cleaned.
  destruct (MODEL_CONFIG_retryAttempts name config Hconfig)
    as (Hthree & _ & _ & Hname).
  assert (JS.truthy name = true) as Htruthy
    by (destruct Hname as [-> | ->]; reflexivity).
  destruct (cleanupModels_uncaches name w Htruthy)
    as (Hmiss & Hfiles & Hloads & Htrace).
  rewrite (run_getModel_miss env name config _ Hconfig Hmiss).
  rewrite (run_loadModelWithRetry env name config _ Hconfig).
  cbn [files log]. rewrite Hfiles.
  destruct (files w !! Loading.modelFile env config) as [b |].
  - destruct (retryLoop_effect env name config (Loading.modelUrl env config)
                (Z.to_nat (ModelInitialization.retryAttempts config)) 1 None
                (log (EvAccess (Loading.modelFile env config) true)
                     (log (EvCacheLookup name)
                          (ModelLifecycle.cleanupModels (Some name) w).2)))
      as (evs & Htr & _ & Hpos & Hstarted & _);
      [rewrite Hthree; reflexivity |].
    cbn zeta in Htr, Hstarted. exists evs.
    rewrite Htr, Hstarted. cbn [trace loadsStarted log].
    rewrite Htrace, Hloads, <- !app_assoc.
    repeat split. apply Hpos. rewrite Hthree. cbn. lia.
  - cbn [fst snd loadsStarted trace log].
    rewrite Hloads, Htrace, <- app_assoc. repeat split.
Qed.

Lemma getModel_after_cleanup_reloads_witness :
  let env := Scenario.tieEnv in
  let name := "yolov5" in
  let config := Scenario.yolov5Config in
  let w :=
    setFiles ∅ (run env (ModelInitialization.getModel env name)
                    (Scenario.world 0)).2 in
  let cleaned := (ModelLifecycle.cleanupModels (Some name) w).2 in
  let r := run env (ModelInitialization.getModel env name) cleaned in
  ModelInitialization.MODEL_CONFIG !! name = Some config
  /\ is_Some (modelCache w !! name)
  /\ match files w !! Loading.modelFile env config with
     | None =>
         r.1 = Err (mkError
                      (Str.toUpperCase name
                       ++ " model file not found. See console for details."))
         /\ loadsStarted r.2 = loadsStarted w
         /\ trace r.2
            = (trace w ++ [EvCacheLookup name;
                           EvAccess (Loading.modelFile env config) false])%list
     | Some _ =>
         exists evs,
           trace r.2
           = (trace w ++ [EvCacheLookup name;
                          EvAccess (Loading.modelFile env config) true]
              ++ evs)%list
           /\ (1 <= Loading.attempts evs)%nat
           /\ loadsStarted r.2 = (loadsStarted w + Loading.attempts evs)%nat
     end.
Proof.
  assert (ModelInitialization.MODEL_CONFIG !! "yolov5"
          = Some Scenario.yolov5Config) as Hconfig by reflexivity.
  split; [exact Hconfig |].
  split; [eexists; vm_compute; reflexivity |].
  exact (getModel_after_cleanup_reloads Scenario.tieEnv "yolov5"
           Scenario.yolov5Config
           (setFiles ∅
              (run Scenario.tieEnv
                   (ModelInitialization.getModel Scenario.tieEnv "yolov5")
                   (Scenario.world 0)).2)
           Hconfig).
Defined.

(** X17. The health check always answers 200 "Detection service is
    operational" and reports both models as loaded, whatever the cache
    holds, an empty cache included: what it reads is the configuration,
    not the cache. It changes nothing. *)
Theorem healthCheck_reads_configuration (env : Env) (w : World) :
  let r := run env Health.healthCheck w in
  r.2 = w
  /\ exists resp d,
       r.1 = Ok resp
       /\ DetectionController.status resp = 200
       /\ DetectionController.success (DetectionController.body resp) = true
       /\ DetectionController.bodyMessage (DetectionController.body resp)
          = Some "Detection service is operational"
       /\ DetectionController.data (DetectionController.body resp) = Some d
       /\ Health.yolov5Loaded d = true
       /\ Health.yolov7Loaded d = true
       /\ Health.serviceStatus d = "operational"
       /\ Health.healthTimestamp d = clock w.
Proof.
  cbn. split; [reflexivity |]. eexists _, _. repeat split.
Qed.

(** ** Requests with both models cached *)

Section Warm.
Import ModelInitialization ImageProcessor DetectionController Footprint.
Context (env : Env).

Lemma stays_bind (Inv : World -> Prop) {A B} (p : prog A) (f : A -> prog B) :
  stays env Inv p -> (forall a, stays env Inv (f a)) -> stays env Inv (bind p f).
Proof.
  intros Hp Hf. induction p as [a | e | X op k IH]; cbn; auto.
  intros w Hw. destruct (Hp w Hw) as [HI Hk]. split; auto.
Qed.

Lemma stays_try_catch (Inv : World -> Prop) {A} (p : prog A)
    (h : Error -> prog A) :
  stays env Inv p -> (forall e, stays env Inv (h e)) ->
  stays env Inv (try_catch p h).
Proof.
  intros Hp Hh. induction p as [a | e | X op k IH]; cbn; auto.
  intros w Hw. destruct (Hp w Hw) as [HI Hk]. split; auto.
Qed.

Lemma stays_settled (Inv : World -> Prop) {A} (p : prog A) :
  stays env Inv p -> stays env Inv (settled p).
Proof.
  intros Hp. unfold settled. apply stays_try_catch; [| intros; exact I].
  apply stays_bind; [assumption | intros; exact I].
Qed.

Lemma stays_Promise_all2 (Inv : World -> Prop) {A B} (p : prog A) (q : prog B) :
  stays env Inv p -> stays env Inv q -> stays env Inv (Promise_all2 p q).
Proof.
  intros Hp Hq. unfold Promise_all2.
  apply stays_bind; [apply stays_settled; assumption | intros ra].
  apply stays_bind; [apply stays_settled; assumption | intros rb].
  destruct ra, rb; exact I.
Qed.

Lemma stays_detached (Inv : World -> Prop) {A} (p : prog A) :
  stays env Inv p -> stays env Inv (detached p).
Proof.
  intros Hp. induction p as [a | e | X op k IH]; cbn; auto.
  destruct (is_async op); cbn; auto.
  intros w Hw. destruct (Hp w Hw) as [HI Hk]. split; auto.
Qed.

Lemma only_stays (allowed : forall X, eff X -> bool) (Inv : World -> Prop)
    {A} (p : prog A) :
  (forall X (op : eff X) w,
     allowed X op = true -> Inv w -> Inv (perform env op w).2) ->
  only allowed p -> stays env Inv p.
Proof.
  intros Hop Hp. induction p as [a | e | X op k IH]; cbn; auto.
  destruct Hp as [Hallowed Hk]. intros w Hw. split; auto.
Qed.

Lemma run_stays (Inv : World -> Prop) {A} (p : prog A) :
  forall w, stays env Inv p -> Inv w -> Inv (run env p w).2.
Proof.
  induction p as [a | e | X op k IH]; intros w Hp Hw; cbn; auto.
  destruct (Hp w Hw) as [HI Hk].
  destruct (perform env op w) as [x w1]. cbn in *. apply IH; assumption.
Qed.

Lemma offModels_stays (cache : gmap string Model) (loads : nat) {A}
    (p : prog A) :
  only (@offModels) p -> stays env (warm cache loads) p.
Proof.
  apply only_stays. intros X op w Hop [Hcache Hloads].
  destruct (offModels_same env op w Hop) as [Hc Hl].
  split; congruence.
Qed.

(** A cached model is returned without a load. *)
Lemma getModel_stays (cache : gmap string Model) (loads : nat)
    (name : string) :
  is_Some (cache !! name) -> stays env (warm cache loads) (getModel env name).
Proof.
  intros [m Hm]. unfold getModel.
  destruct (MODEL_CONFIG !! name); [| exact I].
  cbn. intros w [Hcache Hloads]. split; [split; assumption |].
  rewrite Hcache, Hm. exact I.
Qed.

Lemma cleanupFiles_offModels (filePaths : list string) :
  only (@offModels) (cleanupFiles filePaths).
Proof.
  unfold cleanupFiles. apply only_try_catch; [| intros; exact I].
  apply only_bind; [| intros; footprint].
  induction (filter (fun path => JS.truthy path = true) filePaths)
    as [| path rest IH]; [exact I |].
  cbn [foldr]. apply only_bind; [footprint | intros _; exact IH].
Qed.

(** The steps of a request that leave the models alone. *)
Ltac off_models :=
  apply offModels_stays;
  first [ apply cleanupFiles_offModels
        | apply only_detached; apply cleanupFiles_offModels
        | unfold respond, createResponse, frameBuffer, processStreamFrame,
            processImageBuffer, preprocessImage, toBatch, predictBoth,
            spreadMax,
            checkImageQuality; footprint ].

Lemma analyzeStream_stays (cache : gmap string Model) (loads : nat)
    (req : StreamRequest) :
  is_Some (cache !! "yolov5") -> is_Some (cache !! "yolov7") ->
  stays env (warm cache loads) (analyzeStream env req).
Proof.
  intros H5 H7. unfold analyzeStream.
  apply stays_bind; [off_models | intros startTime].
  apply stays_try_catch; [| intros e; off_models].
  destruct (imageData req) as [imageData |]; [| off_models].
  destruct (negb (JS.truthy imageData)); [off_models |].
  apply stays_bind; [| intros [yolov5 yolov7]].
  { apply stays_Promise_all2; apply getModel_stays; assumption. }
  apply stays_bind; [off_models | intros buffer].
  apply stays_bind; [off_models | intros tensor].
  apply stays_bind; [off_models | intros [a5 a7]].
  apply stays_bind; [off_models | intros now]. off_models.
Qed.

Lemma analyzeImage_stays (cache : gmap string Model) (loads : nat)
    (req : ImageRequest) :
  is_Some (cache !! "yolov5") -> is_Some (cache !! "yolov7") ->
  stays env (warm cache loads) (analyzeImage env req).
Proof.
  intros H5 H7. unfold analyzeImage.
  apply stays_bind; [off_models | intros startTime].
  destruct (reqFile req) as [file |]; [| off_models].
  apply stays_try_catch.
  2:{ intros e. apply stays_bind; [off_models | intros _; off_models]. }
  unfold analyzeUpload.
  apply stays_bind; [apply stays_settled; off_models | intros [_ | e]];
    [| off_models].
  apply stays_bind; [apply stays_settled; off_models | intros [_ | e]];
    [| off_models].
  apply stays_bind; [off_models | intros _].
  apply stays_bind; [| intros [yolov5 yolov7]].
  { apply stays_Promise_all2; apply getModel_stays; assumption. }
  apply stays_bind; [off_models | intros imageBuffer].
  apply stays_bind; [off_models | intros tensor].
  apply stays_bind; [off_models | intros [a5 a7]].
  apply stays_bind; [off_models | intros now].
  apply stays_bind; [off_models | intros _]. off_models.
Qed.

End Warm.

(** X18. Once both models are cached, no request starts a load or
    changes the cache: after [analyzeImage] and after [analyzeStream],
    whatever the request and its outcome, the cache and the count of
    loads started are what they were. *)
Theorem warm_requests_start_no_load (env : Env) (m5 m7 : Model) (w : World) :
  modelCache w !! "yolov5" = Some m5 ->
  modelCache w !! "yolov7" = Some m7 ->
  (forall req,
     let r := run env (DetectionController.analyzeImage env req) w in
     modelCache r.2 = modelCache w /\ loadsStarted r.2 = loadsStarted w)
  /\ (forall req,
        let r := run env (DetectionController.analyzeStream env req) w in
        modelCache r.2 = modelCache w /\ loadsStarted r.2 = loadsStarted w).
Proof.
  intros H5 H7.
  assert (Footprint.warm (modelCache w) (loadsStarted w) w) as Hwarm
    by (split; reflexivity).
  split; intros req.
  - apply (run_stays env (Footprint.warm (modelCache w) (loadsStarted w))
             (DetectionController.analyzeImage env req) w); [| exact Hwarm].
    apply analyzeImage_stays; [rewrite H5 | rewrite H7]; eauto.
  - apply (run_stays env (Footprint.warm (modelCache w) (loadsStarted w))
             (DetectionController.analyzeStream env req) w); [| exact Hwarm].
    apply analyzeStream_stays; [rewrite H5 | rewrite H7]; eauto.
Qed.

Lemma warm_requests_start_no_load_witness :
  let env := Scenario.tieEnv in
  let w :=
    (run env (ModelLifecycle.initializeAllModels env)
         (Scenario.world (Z.to_nat 10240))).2 in
  let m5 := mkModel "file:///srv/utils/../models/yolov5/yolov5_model.json" 0 in
  let m7 := mkModel "file:///srv/utils/../models/yolov7/yolov7_model.json" 1 in
  modelCache w !! "yolov5" = Some m5
  /\ modelCache w !! "yolov7" = Some m7
  /\ (forall req,
        let r := run env (DetectionController.analyzeImage env req) w in
        modelCache r.2 = modelCache w /\ loadsStarted r.2 = loadsStarted w)
  /\ (forall req,
        let r := run env (DetectionController.analyzeStream env req) w in
        modelCache r.2 = modelCache w /\ loadsStarted r.2 = loadsStarted w).
Proof.
  assert (modelCache
            (run Scenario.tieEnv
                 (ModelLifecycle.initializeAllModels Scenario.tieEnv)
                 (Scenario.world (Z.to_nat 10240))).2 !! "yolov5"
          = Some (mkModel
                    "file:///srv/utils/../models/yolov5/yolov5_model.json" 0))
    as H5 by (vm_compute; reflexivity).
  assert (modelCache
            (run Scenario.tieEnv
                 (ModelLifecycle.initializeAllModels Scenario.tieEnv)
                 (Scenario.world (Z.to_nat 10240))).2 !! "yolov7"
          = Some (mkModel
                    "file:///srv/utils/../models/yolov7/yolov7_model.json" 1))
    as H7 by (vm_compute; reflexivity).
  split; [exact H5 |]. split; [exact H7 |].
  exact (warm_requests_start_no_load Scenario.tieEnv _ _ _ H5 H7).
Defined.

(** ** The camera-stream route *)

Section StreamRoute.
Import ModelInitialization ImageProcessor DetectionController Routes.
Context (env : Env).

Local Arguments run env {A} p w : simpl never.

Lemma split_without_separator (s : string) :
  Str.includes "," s = false -> Str.split "," s = [s].
Proof.
  induction s as [| c rest IH]; intros Hnone; [reflexivity |].
  cbn [Str.includes] in Hnone. apply orb_false_iff in Hnone as [Hhead Hrest].
  cbn [Str.split].
  assert (Ascii.eqb c "," = false) as ->.
  { apply Ascii.eqb_neq. intros ->. destruct rest; discriminate Hhead. }
  rewrite (IH Hrest). reflexivity.
Qed.

(** A request that holds image data is answered 200 or 500. *)
Lemma analyzeStream_accepted (req : StreamRequest) (s : string) (w : World) :
  imageData req = Some s -> JS.truthy s = true ->
  exists resp w',
    run env (analyzeStream env req) w = (Ok resp, w')
    /\ (status resp = 200 \/ status resp = 500)
    /\ (Str.includes "," s = false -> status resp = 500).
Proof.
  intros Hdata Htruthy. unfold analyzeStream.
  rewrite run_bind, run_call. cbn [fst snd perform].
  rewrite Hdata, Htruthy. cbn [negb].
  rewrite run_try_catch, run_bind.
  destruct (run env (Promise_all2 (getYOLOv5Model env) (getYOLOv7Model env)) w)
    as [[[yolov5 yolov7] | e] w1].
  2:{ rewrite run_respond. eexists _, _. split; [reflexivity |]. cbn. auto. }
  rewrite run_bind. unfold frameBuffer.
  destruct (Str.includes "," s) eqn:Hcomma.
  2:{ rewrite (split_without_separator s Hcomma). cbn [lookup list_lookup].
      rewrite run_throw, run_respond.
      eexists _, _. split; [reflexivity |]. cbn. auto. }
  destruct (Str.split "," s !! 1%nat) as [base64Data |].
  2:{ rewrite run_throw, run_respond.
      eexists _, _. split; [reflexivity |]. cbn. split; [auto | discriminate]. }
  rewrite run_ret, run_bind.
  destruct (run env (processStreamFrame env (SBuffer _)) w1) as [[tensor | e] w2].
  2:{ rewrite run_respond.
      eexists _, _. split; [reflexivity |]. cbn. split; [auto | discriminate]. }
  rewrite run_bind.
  destruct (run env (predictBoth env yolov5 yolov7 tensor) w2)
    as [[[a5 a7] | e] w3].
  2:{ rewrite run_respond.
      eexists _, _. split; [reflexivity |]. cbn. split; [auto | discriminate]. }
  rewrite run_bind, run_call. cbn [fst snd perform]. rewrite run_respond.
  eexists _, _. split; [reflexivity |]. cbn. split; [auto | discriminate].
Qed.

End StreamRoute.

(** X19. On the /stream route the validator refuses, with 400 and before
    anything else happens, a request whose image data is missing, empty
    or does not start with "data:image". A request it lets through is
    never answered 400 by the controller: it gets 200 or 500. The
    validator does not ask for the comma the controller splits at: a
    request it lets through whose data holds no comma is answered 500. *)
Theorem stream_route_validation (env : Env)
    (req : DetectionController.StreamRequest) (w : World) :
  let r := run env (Routes.streamRoute env req) w in
  match Routes.validateStreamInput req with
  | Some refusal =>
      r = (Ok (inl refusal), w)
      /\ Routes.refusalStatus refusal = 400
      /\ forall s,
           DetectionController.imageData req = Some s ->
           JS.truthy s = false \/ String.prefix "data:image" s = false
  | None =>
      exists s resp,
        DetectionController.imageData req = Some s
        /\ String.prefix "data:image" s = true
        /\ r.1 = Ok (inr resp)
        /\ (DetectionController.status resp = 200
            \/ DetectionController.status resp = 500)
        /\ (Str.includes "," s = false ->
            DetectionController.status resp = 500)
  end.
Proof.
  intros r. subst r. unfold Routes.streamRoute, Routes.validateStreamInput.
  destruct (DetectionController.imageData req) as [s |] eqn:Hdata.
  2:{ cbn. repeat split. intros s [=]. }
  destruct (JS.truthy s) eqn:Htruthy; cbn [negb].
  2:{ cbn. repeat split. intros s' [= <-]. auto. }
  destruct (String.prefix "data:image" s) eqn:Hprefix; cbn [negb].
  2:{ cbn. repeat split. intros s' [= <-]. auto. }
  destruct (analyzeStream_accepted env req s w Hdata Htruthy)
    as (resp & w' & Hrun & Hstatus & Hcomma).
  exists s, resp. rewrite run_bind, Hrun. cbn. auto.
Qed.

(** ** Camera frames *)

Section Frames.
Import ImageProcessor.

Lemma includes_separator (prefix rest : string) :
  Str.includes "," (prefix ++ "," ++ rest) = true.
Proof.
  induction prefix as [| c prefix IH].
  - destruct rest; reflexivity.
  - change (String c prefix ++ "," ++ rest)
      with (String c (prefix ++ "," ++ rest)).
    cbn [Str.includes]. rewrite IH. apply orb_true_r.
Qed.

Lemma split_at_separator (prefix rest : string) :
  Str.includes "," prefix = false ->
  Str.split "," (prefix ++ "," ++ rest) = prefix :: Str.split "," rest.
Proof.
  induction prefix as [| c prefix IH]; intros Hnone; [reflexivity |].
  cbn [Str.includes] in Hnone. apply orb_false_iff in Hnone as [Hhead Hrest].
  change (String c prefix ++ "," ++ rest)
    with (String c (prefix ++ "," ++ rest)).
  cbn [Str.split].
  assert (Ascii.eqb c "," = false) as ->.
  { apply Ascii.eqb_neq. intros ->. destruct prefix; discriminate Hhead. }
  rewrite (IH Hrest). reflexivity.
Qed.

End Frames.

(** X20. [processStreamFrame] treats a data URI and its bare payload
    alike: for a string made of a prefix, a comma and a payload, neither
    holding a comma, it processes the decoded payload with the default
    640 by 640 options, exactly as it does for the payload alone. *)
Theorem processStreamFrame_strips_data_uri (env : Env)
    (prefix payload : string) :
  Str.includes "," prefix = false ->
  Str.includes "," payload = false ->
  ImageProcessor.processStreamFrame env
    (ImageProcessor.SString (prefix ++ "," ++ payload))
  = ImageProcessor.processImageBuffer (base64_decode env payload)
      ImageProcessor.noOptions
  /\ ImageProcessor.processStreamFrame env (ImageProcessor.SString payload)
     = ImageProcessor.processImageBuffer (base64_decode env payload)
         ImageProcessor.noOptions.
Proof.
  intros Hprefix Hpayload. unfold ImageProcessor.processStreamFrame.
  rewrite includes_separator, Hpayload.
  rewrite (split_at_separator prefix payload Hprefix).
  rewrite (split_without_separator payload Hpayload).
  split; reflexivity.
Qed.

Lemma processStreamFrame_strips_data_uri_witness :
  let env := Scenario.tieEnv in
  let prefix := "data:image/jpeg;base64" in
  let payload := "AAAA" in
  Str.includes "," prefix = false
  /\ Str.includes "," payload = false
  /\ ImageProcessor.processStreamFrame env
       (ImageProcessor.SString (prefix ++ "," ++ payload))
     = ImageProcessor.processImageBuffer (base64_decode env payload)
         ImageProcessor.noOptions
  /\ ImageProcessor.processStreamFrame env (ImageProcessor.SString payload)
     = ImageProcessor.processImageBuffer (base64_decode env payload)
         ImageProcessor.noOptions.
Proof.
  assert (Str.includes "," "data:image/jpeg;base64" = false) as Hprefix
    by reflexivity.
  assert (Str.includes "," "AAAA" = false) as Hpayload by reflexivity.
  split; [exact Hprefix |]. split; [exact Hpayload |].
  exact (processStreamFrame_strips_data_uri Scenario.tieEnv
           "data:image/jpeg;base64" "AAAA" Hprefix Hpayload).
Defined.

(** X21. The [catch] of [processStreamFrame] relabels the invalid-input
    error only. A failure of the resize or of the decoding reaches the
    caller as "Buffer processing failed: ...", not as "Stream processing
    failed: ...": the call of [processImageBuffer] is returned without
    being awaited. *)
Theorem processStreamFrame_error_labels (env : Env)
    (data : ImageProcessor.StreamData) (e : Error) (w w' : World) :
  run env (ImageProcessor.processStreamFrame env data) w = (Err e, w') ->
  match data with
  | ImageProcessor.SOther =>
      message e
      = "Stream processing failed: Invalid input: expected Buffer or base64 string"
      /\ w' = w
  | _ => exists reason, message e = "Buffer processing failed: " ++ reason
  end.
Proof.
  assert (forall b w0 e0 w1,
            run env (ImageProcessor.processImageBuffer b
                       ImageProcessor.noOptions) w0 = (Err e0, w1) ->
            exists reason,
              message e0 = "Buffer processing failed: " ++ reason) as Hlabel.
  { intros b w0 e0 w1. unfold ImageProcessor.processImageBuffer.
    rewrite run_try_catch.
    destruct (run env _ w0) as [[t | e1] w2]; [discriminate |].
    cbn. intros [= <- _]. eexists. reflexivity. }
  destruct data as [b | s |]; cbn [ImageProcessor.processStreamFrame].
  - apply Hlabel.
  - apply Hlabel.
  - cbn. intros [= <- <-]. split; reflexivity.
Qed.

Lemma processStreamFrame_error_labels_witness :
  let env := Cases.unreadableEnv in
  let data := ImageProcessor.SBuffer [255; 216; 255] in
  let e :=
    mkError
      "Buffer processing failed: Input buffer contains unsupported image format"
  in
  let w := Scenario.bareWorld in
  let w' := (run env (ImageProcessor.processStreamFrame env data) w).2 in
  run env (ImageProcessor.processStreamFrame env data) w = (Err e, w')
  /\ exists reason, message e = "Buffer processing failed: " ++ reason.
Proof.
  assert (run Cases.unreadableEnv
              (ImageProcessor.processStreamFrame Cases.unreadableEnv
                 (ImageProcessor.SBuffer [255; 216; 255]))
              Scenario.bareWorld
          = (Err (mkError
                    "Buffer processing failed: Input buffer contains unsupported image format"),
             (run Cases.unreadableEnv
                  (ImageProcessor.processStreamFrame Cases.unreadableEnv
                     (ImageProcessor.SBuffer [255; 216; 255]))
                  Scenario.bareWorld).2)) as Hrun
    by (vm_compute; reflexivity).
  split; [exact Hrun |].
  exact (processStreamFrame_error_labels Cases.unreadableEnv
           (ImageProcessor.SBuffer [255; 216; 255]) _ _ _ Hrun).
Defined.

(** ** Tensors a camera frame leaves behind *)

Section FrameTensors.
Import ModelInitialization ImageProcessor DetectionController Footprint.
Context (env : Env).

Lemma toBatch_grows (buffer : Buffer) (w : World) :
  tensorsFresh w ->
  let r := run env (toBatch buffer) w in
  tensorsFresh r.2
  /\ tensors w ⊆ tensors r.2
  /\ match r.1 with
     | Ok t =>
         size (tensors r.2) = S (S (size (tensors w)))
         /\ is_Some (tensors r.2 !! t)
     | Err _ => tensors r.2 = tensors w
     end.
Proof.
  intros Hfresh.
  pose proof (fresh_above w (nextTensor w) Hfresh (Nat.le_refl _)) as H0.
  pose proof (fresh_above w (S (nextTensor w)) Hfresh (Nat.le_succ_diag_r _))
    as H1.
  pose proof (fresh_above w (S (S (nextTensor w))) Hfresh ltac:(lia)) as H2.
  unfold toBatch, run. cbn.
  destruct (decodeImage env buffer 3) as [img | e]; cbn.
  2:{ split; [exact Hfresh |]. split; reflexivity. }
  rewrite lookup_insert_eq. cbn. rewrite lookup_insert_eq. cbn.
  rewrite !(delete_decoded (tensors w) (nextTensor w)) by exact H0.
  split; [| split; [| split]].
  - intros t [info Ht]. cbn in Ht |- *.
    destruct (decide (t = S (S (nextTensor w)))) as [-> | Hne2]; [lia |].
    destruct (decide (t = S (nextTensor w))) as [-> | Hne1]; [lia |].
    rewrite !lookup_insert_ne in Ht by congruence.
    specialize (Hfresh t (mk_is_Some _ _ Ht)). lia.
  - etransitivity; [apply (insert_subseteq _ (S (nextTensor w))), H1 |].
    apply insert_subseteq. rewrite lookup_insert_ne by lia. exact H2.
  - rewrite !map_size_insert_None; [reflexivity | exact H1 |].
    rewrite lookup_insert_ne by lia. exact H2.
  - rewrite lookup_insert_eq. eauto.
Qed.

Lemma predictBoth_grows (yolov5 yolov7 : Model) (tensor : Tensor) (w : World) :
  tensorsFresh w ->
  let r := run env (predictBoth env yolov5 yolov7 tensor) w in
  tensors w ⊆ tensors r.2
  /\ match r.1 with
     | Ok _ => size (tensors r.2) = S (S (size (tensors w)))
     | Err _ => True
     end.
Proof.
  intros Hfresh.
  pose proof (fresh_above w (nextTensor w) Hfresh (Nat.le_refl _)) as H0.
  pose proof (fresh_above w (S (nextTensor w)) Hfresh (Nat.le_succ_diag_r _))
    as H1.
  unfold predictBoth, spreadMax, run. cbn.
  destruct (tensors w !! tensor) as [info |] eqn:Hlive; cbn;
    [| split; [reflexivity | exact I]].
  assert (tensor <> nextTensor w) as Hold
    by (specialize (Hfresh tensor (mk_is_Some _ _ Hlive)); lia).
  destruct (predictOutcome env yolov5 info) as [out5 | e5]; cbn;
    [| split; [reflexivity | exact I]].
  rewrite lookup_insert_ne by congruence. rewrite Hlive.
  destruct (predictOutcome env yolov7 info) as [out7 | e7]; cbn;
    [| split; [apply insert_subseteq, H0 | exact I]].
  assert (tensors w ⊆ <[S (nextTensor w) := out7]>
                        (<[nextTensor w := out5]> (tensors w))) as Hsub.
  { etransitivity; [apply (insert_subseteq _ (nextTensor w)), H0 |].
    apply insert_subseteq. rewrite lookup_insert_ne by lia. exact H1. }
  rewrite lookup_insert_ne by lia. rewrite lookup_insert_eq. cbn.
  destruct (argumentLimit env <? Z.of_nat (length (dataOf out5))); cbn;
    [split; [exact Hsub | exact I] |].
  rewrite lookup_insert_eq. cbn.
  destruct (argumentLimit env <? Z.of_nat (length (dataOf out7))); cbn;
    [split; [exact Hsub | exact I] |].
  split; [exact Hsub |].
  rewrite !map_size_insert_None; [reflexivity | exact H0 |].
  rewrite lookup_insert_ne by lia. exact H1.
Qed.

Local Arguments run env {A} p w : simpl never.

Lemma processImageBuffer_grows (imageBuffer : Buffer) (options : BufferOptions)
    (w : World) :
  tensorsFresh w ->
  let r := run env (processImageBuffer imageBuffer options) w in
  tensorsFresh r.2
  /\ tensors w ⊆ tensors r.2
  /\ match r.1 with
     | Ok t => size (tensors r.2) = S (S (size (tensors w)))
     | Err _ => tensors r.2 = tensors w
     end.
Proof.
  intros Hfresh. cbn zeta. unfold processImageBuffer.
  rewrite run_try_catch, run_bind, run_attempt. cbn [perform].
  destruct (sharp_resize env imageBuffer _) as [resized | e].
  2:{ rewrite run_throw. cbn. split; [exact Hfresh |]. split; reflexivity. }
  match goal with
  | |- context [run env (toBatch resized) ?w0] =>
      destruct (toBatch_grows resized w0 Hfresh) as (Hfresh1 & Hsub & Hcase);
      cbn zeta in Hfresh1, Hsub, Hcase;
      destruct (run env (toBatch resized) w0) as [[t | e] w1]
  end; cbn [fst snd] in *.
  - destruct Hcase as [Hsize _]. auto.
  - rewrite run_throw. cbn. auto.
Qed.

End FrameTensors.

Section FrameLeak.
Import ModelInitialization ImageProcessor DetectionController Footprint.

Local Arguments run env {A} p w : simpl never.

(** X22. With both models cached, [analyzeStream] disposes no tensor
    that was live before the request, and every frame it answers with
    200 leaves four more live tensors than it found: the normalized
    image, its batch and the two model outputs. Nothing disposes them. *)
Theorem frame_leaves_four_tensors (env : Env) (req : StreamRequest)
    (m5 m7 : Model) (w : World) :
  modelCache w !! "yolov5" = Some m5 ->
  modelCache w !! "yolov7" = Some m7 ->
  tensorsFresh w ->
  let r := run env (analyzeStream env req) w in
  tensors w ⊆ tensors r.2
  /\ forall resp,
       r.1 = Ok resp -> status resp = 200 ->
       size (tensors r.2) = S (S (S (S (size (tensors w))))).
Proof.
  intros H5 H7 Hfresh. cbn zeta. unfold analyzeStream.
  rewrite run_bind, run_call. cbn [fst snd perform].
  rewrite run_try_catch.
  destruct (imageData req) as [s |].
  2:{ rewrite run_respond. cbn. split; [reflexivity |].
      intros resp [= <-]. discriminate. }
  destruct (negb (JS.truthy s)).
  { rewrite run_respond. cbn. split; [reflexivity |].
    intros resp [= <-]. discriminate. }
  rewrite run_bind, run_Promise_all2.
  unfold getYOLOv5Model, getYOLOv7Model.
  rewrite (run_getModel_hit env "yolov5" Scenario.yolov5Config m5 w eq_refl H5).
  rewrite (run_getModel_hit env "yolov7" Scenario.yolov7Config m7
             (log (EvCacheLookup "yolov5") w) eq_refl H7).
  rewrite run_bind. unfold frameBuffer.
  destruct (Str.split "," s !! 1%nat) as [base64Data |].
  2:{ rewrite run_throw, run_respond. cbn. split; [reflexivity |].
      intros resp [= <-]. discriminate. }
  rewrite run_ret, run_bind. cbn [processStreamFrame].
  match goal with
  | |- context [run env (processImageBuffer ?b ?o) ?w0] =>
      destruct (processImageBuffer_grows env b o w0 Hfresh)
        as (Hfresh1 & Hsub1 & Hcase1);
      cbn zeta in Hfresh1, Hsub1, Hcase1;
      destruct (run env (processImageBuffer b o) w0) as [[tensor | e] w1]
  end; cbn [fst snd tensors log] in *.
  2:{ rewrite run_respond. cbn. split; [exact Hsub1 |].
      intros resp [= <-]. discriminate. }
  rewrite run_bind.
  destruct (predictBoth_grows env m5 m7 tensor w1 Hfresh1) as (Hsub2 & Hcase2).
  cbn zeta in Hsub2, Hcase2.
  destruct (run env (predictBoth env m5 m7 tensor) w1) as [[[a5 a7] | e] w2];
    cbn [fst snd] in *.
  2:{ rewrite run_respond. cbn. split; [etransitivity; eassumption |].
      intros resp [= <-]. discriminate. }
  rewrite run_bind, run_call. cbn [fst snd perform]. rewrite run_respond.
  cbn. split; [etransitivity; eassumption |].
  intros resp _ _. rewrite Hcase2, Hcase1. reflexivity.
Qed.

Lemma frame_leaves_four_tensors_witness :
  let env := Scenario.tieEnv in
  let m5 := mkModel "file:///srv/utils/../models/yolov5/yolov5_model.json" 0 in
  let m7 := mkModel "file:///srv/utils/../models/yolov7/yolov7_model.json" 1 in
  let w :=
    setCache (<["yolov7" := m7]> (<["yolov5" := m5]> ∅)) (Scenario.world 0) in
  let r := run env (analyzeStream env Scenario.frame) w in
  modelCache w !! "yolov5" = Some m5
  /\ modelCache w !! "yolov7" = Some m7
  /\ tensorsFresh w
  /\ tensors w ⊆ tensors r.2
  /\ forall resp,
       r.1 = Ok resp -> status resp = 200 ->
       size (tensors r.2) = S (S (S (S (size (tensors w))))).
Proof.
  set (m5 := mkModel "file:///srv/utils/../models/yolov5/yolov5_model.json" 0).
  set (m7 := mkModel "file:///srv/utils/../models/yolov7/yolov7_model.json" 1).
  set (w := setCache (<["yolov7" := m7]> (<["yolov5" := m5]> ∅))
                     (Scenario.world 0)).
  assert (modelCache w !! "yolov5" = Some m5) as H5 by reflexivity.
  assert (modelCache w !! "yolov7" = Some m7) as H7 by reflexivity.
  assert (tensorsFresh w) as Hfresh.
  { intros t [info Hlive]. cbn in Hlive. rewrite lookup_empty in Hlive.
    discriminate Hlive. }
  split; [exact H5 |]. split; [exact H7 |]. split; [exact Hfresh |].
  exact (frame_leaves_four_tensors Scenario.tieEnv Scenario.frame m5 m7 w
           H5 H7 Hfresh).
Defined.

End FrameLeak.

(** ** Tensors an upload leaves behind *)

Section UploadLeak.
Import ModelInitialization ImageProcessor DetectionController Footprint.

Local Arguments run env {A} p w : simpl never.

Lemma preprocessImage_grows (env : Env) (imagePath : string) (w : World) :
  tensorsFresh w ->
  let r := run env (preprocessImage imagePath) w in
  tensorsFresh r.2
  /\ tensors w ⊆ tensors r.2
  /\ match r.1 with
     | Ok t => size (tensors r.2) = S (S (size (tensors w)))
     | Err _ => tensors r.2 = tensors w
     end.
Proof.
  intros Hfresh. cbn zeta. unfold preprocessImage.
  rewrite run_try_catch, run_bind, run_attempt. cbn [perform].
  destruct (files w !! imagePath) as [imageBuffer |].
  2:{ rewrite run_throw. cbn. split; [exact Hfresh |]. split; reflexivity. }
  match goal with
  | |- context [run env (toBatch imageBuffer) ?w0] =>
      destruct (toBatch_grows env imageBuffer w0 Hfresh)
        as (Hfresh1 & Hsub & Hcase);
      cbn zeta in Hfresh1, Hsub, Hcase;
      destruct (run env (toBatch imageBuffer) w0) as [[t | e] w1]
  end; cbn [fst snd] in *.
  - destruct Hcase as [Hsize _]. auto.
  - rewrite run_throw. cbn. auto.
Qed.

(** X23. With both models cached, [analyzeImage] disposes no tensor that
    was live before the request, and every upload it answers with 200
    leaves four more live tensors than it found: the normalized image,
    its batch and the two model outputs. Nothing disposes them. *)
Theorem upload_leaves_four_tensors (env : Env) (req : ImageRequest)
    (m5 m7 : Model) (w : World) :
  modelCache w !! "yolov5" = Some m5 ->
  modelCache w !! "yolov7" = Some m7 ->
  tensorsFresh w ->
  let r := run env (analyzeImage env req) w in
  tensors w ⊆ tensors r.2
  /\ forall resp,
       r.1 = Ok resp -> status resp = 200 ->
       size (tensors r.2) = S (S (S (S (size (tensors w))))).
Proof.
  intros H5 H7 Hfresh. cbn zeta. unfold analyzeImage.
  rewrite run_bind, run_call. cbn [fst snd perform].
  destruct (reqFile req) as [file |].
  2:{ rewrite run_respond. cbn. split; [reflexivity |].
      intros resp [= <-]. discriminate. }
  set (filePath := path_resolve env (uploadPath file)).
  set (cleanup := [filePath; filePath ++ "_processed.jpg"]).
  assert (forall (e : Error) (w1 : World),
            tensors w ⊆ tensors w1 ->
            let r := run env (detached (cleanupFiles cleanup) ;;;
                              respond 500 false None "Error processing image"
                                      (Some e)) w1 in
            tensors w ⊆ tensors r.2
            /\ forall resp : Response ImageResults,
                 r.1 = Ok resp -> status resp = 200 ->
                 size (tensors r.2) = S (S (S (S (size (tensors w))))))
    as Hfailed.
  { intros e w1 Hsub. cbn zeta. rewrite run_bind.
    destruct (run_cleanupFiles_detached env cleanup w1)
      as (w2 & -> & _ & _ & _ & Htensors & _).
    rewrite run_respond. cbn. rewrite Htensors. split; [exact Hsub |].
    intros resp [= <-]. discriminate. }
  rewrite run_try_catch. unfold analyzeUpload.
  rewrite run_bind, run_settled, run_attempt. cbn [perform].
  destruct (files w !! filePath) as [uploaded |] eqn:Hupload; cbn [fst snd].
  2:{ rewrite run_respond. cbn. split; [reflexivity |].
      intros resp [= <-]. discriminate. }
  rewrite run_bind, run_settled.
  match goal with
  | |- context [run env (checkImageQuality filePath ?o) ?w0] =>
      destruct (run_observes env (checkImageQuality filePath o) w0
                  (checkImageQuality_observes filePath o))
        as (Hf1 & Hc1 & Ht1 & Hn1 & _);
      destruct (run env (checkImageQuality filePath o) w0) as [[ok | e] w1]
  end; cbn [fst snd files modelCache tensors nextTensor log] in *.
  2:{ rewrite run_respond. cbn. rewrite Ht1. split; [reflexivity |].
      intros resp [= <-]. discriminate. }
  assert (tensorsFresh w1) as Hfresh1.
  { intros t Hlive. rewrite Hn1. apply Hfresh. rewrite <- Ht1. exact Hlive. }
  rewrite <- Hc1 in H5, H7.
  rewrite run_bind, run_attempt. cbn [perform]. rewrite Hf1, Hupload.
  destruct (sharp_resize env uploaded (contain 640 640)) as [out | e].
  2:{ apply Hfailed. cbn. rewrite Ht1. reflexivity. }
  rewrite run_bind, run_Promise_all2.
  unfold getYOLOv5Model, getYOLOv7Model.
  match goal with
  | |- context [run env (getModel env "yolov5") ?w0] =>
      rewrite (run_getModel_hit env "yolov5" Scenario.yolov5Config m5 w0
                 eq_refl H5);
      rewrite (run_getModel_hit env "yolov7" Scenario.yolov7Config m7
                 (log (EvCacheLookup "yolov5") w0) eq_refl H7)
  end.
  rewrite run_bind, run_attempt. cbn [perform files log setFiles].
  rewrite lookup_insert_eq.
  rewrite run_bind.
  match goal with
  | |- context [run env (preprocessImage ?p) ?w0] =>
      destruct (preprocessImage_grows env p w0 Hfresh1)
        as (Hfresh2 & Hsub2 & Hcase2);
      cbn zeta in Hfresh2, Hsub2, Hcase2;
      destruct (run env (preprocessImage p) w0) as [[tensor | e] w2]
  end; cbn [fst snd tensors log setFiles] in *.
  2:{ apply Hfailed. rewrite Hcase2, Ht1. reflexivity. }
  rewrite run_bind.
  destruct (predictBoth_grows env m5 m7 tensor w2 Hfresh2) as (Hsub3 & Hcase3).
  cbn zeta in Hsub3, Hcase3.
  destruct (run env (predictBoth env m5 m7 tensor) w2) as [[[a5 a7] | e] w3];
    cbn [fst snd] in *.
  2:{ apply Hfailed. rewrite <- Ht1. etransitivity; eassumption. }
  rewrite run_bind, run_call. cbn [fst snd perform]. rewrite run_bind.
  destruct (run_cleanupFiles_detached env cleanup w3)
    as (w4 & -> & _ & _ & _ & Htensors4 & _).
  rewrite run_respond. cbn. rewrite Htensors4.
  split; [rewrite <- Ht1; etransitivity; eassumption |].
  intros resp _ _. rewrite Hcase3, Hcase2, Ht1. reflexivity.
Qed.

Lemma upload_leaves_four_tensors_witness :
  let env := Scenario.tieEnv in
  let m5 := mkModel "file:///srv/utils/../models/yolov5/yolov5_model.json" 0 in
  let m7 := mkModel "file:///srv/utils/../models/yolov7/yolov7_model.json" 1 in
  let w :=
    setCache (<["yolov7" := m7]> (<["yolov5" := m5]> ∅))
             (Scenario.world (Z.to_nat 10240)) in
  let r := run env (analyzeImage env Scenario.request) w in
  modelCache w !! "yolov5" = Some m5
  /\ modelCache w !! "yolov7" = Some m7
  /\ tensorsFresh w
  /\ tensors w ⊆ tensors r.2
  /\ forall resp,
       r.1 = Ok resp -> status resp = 200 ->
       size (tensors r.2) = S (S (S (S (size (tensors w))))).
Proof.
  set (m5 := mkModel "file:///srv/utils/../models/yolov5/yolov5_model.json" 0).
  set (m7 := mkModel "file:///srv/utils/../models/yolov7/yolov7_model.json" 1).
  set (w := setCache (<["yolov7" := m7]> (<["yolov5" := m5]> ∅))
                     (Scenario.world (Z.to_nat 10240))).
  assert (modelCache w !! "yolov5" = Some m5) as H5 by reflexivity.
  assert (modelCache w !! "yolov7" = Some m7) as H7 by reflexivity.
  assert (tensorsFresh w) as Hfresh.
  { intros t [info Hlive]. cbn in Hlive. rewrite lookup_empty in Hlive.
    discriminate Hlive. }
  split; [exact H5 |]. split; [exact H7 |]. split; [exact Hfresh |].
  exact (upload_leaves_four_tensors Scenario.tieEnv Scenario.request m5 m7 w
           H5 H7 Hfresh).
Defined.

End UploadLeak.

(** ** Requests that reach their forward passes *)

Section Fresh.
Import Footprint.
Context (env : Env).

(** No operation gives a tensor a number that is not below the next. *)
Lemma perform_fresh {X} (op : eff X) (w : World) :
  tensorsFresh w -> tensorsFresh (perform env op w).2.
Proof.
  unfold tensorsFresh. intros Hfresh.
  destruct op; cbn; repeat case_match; cbn; intros t' [i Hi];
    cbn in Hi |- *;
    try (apply Hfresh; eauto; fail);
    try (apply lookup_delete_Some in Hi as [_ Hi]; apply Hfresh; eauto; fail);
    (destruct (decide (t' = nextTensor w)) as [-> | Hne];
     [lia
     | rewrite lookup_insert_ne in Hi by congruence;
       specialize (Hfresh t' (mk_is_Some _ _ Hi)); lia]).
Qed.

Lemma run_fresh {A} (p : prog A) (w : World) :
  tensorsFresh w -> tensorsFresh (run env p w).2.
Proof.
  revert w. induction p as [a | e | X op k IH]; intros w Hfresh;
    [exact Hfresh | exact Hfresh |].
  cbn. pose proof (perform_fresh op w Hfresh) as Hnext.
  destruct (perform env op w) as [x w1]. apply IH, Hnext.
Qed.

End Fresh.

Section Forward.
Import ModelInitialization ImageProcessor DetectionController Footprint Request.
Context (env : Env).

(** Two forward passes that succeed on a live tensor: the outputs are
    read unless one of them holds more scores than the engine takes as
    arguments. *)
Lemma predictBoth_reads (yolov5 yolov7 : Model) (tensor : Tensor) (w : World)
    (info out5 out7 : TensorInfo) :
  tensorsFresh w ->
  tensors w !! tensor = Some info ->
  predictOutcome env yolov5 info = Ok out5 ->
  predictOutcome env yolov7 info = Ok out7 ->
  (run env (predictBoth env yolov5 yolov7 tensor) w).1
  = if (argumentLimit env <? Z.of_nat (length (dataOf out5)))
       || (argumentLimit env <? Z.of_nat (length (dataOf out7)))
    then Err rangeError
    else Ok (readPrediction (dataOf out5), readPrediction (dataOf out7)).
Proof.
  intros Hfresh Hlive H5 H7.
  assert (tensor <> nextTensor w) as Hold
    by (specialize (Hfresh tensor (mk_is_Some _ _ Hlive)); lia).
  unfold predictBoth, spreadMax, run. cbn.
  rewrite Hlive, H5. cbn.
  rewrite lookup_insert_ne by congruence. rewrite Hlive, H7. cbn.
  rewrite lookup_insert_ne by lia. rewrite lookup_insert_eq. cbn.
  destruct (argumentLimit env <? Z.of_nat (length (dataOf out5))); cbn;
    [reflexivity |].
  rewrite lookup_insert_eq. cbn.
  destruct (argumentLimit env <? Z.of_nat (length (dataOf out7))); reflexivity.
Qed.

Local Arguments run env {A} p w : simpl never.

Lemma answer_frame (req : StreamRequest) (s : string) (w w1 : World)
    (yolov5 yolov7 : Model) (tensor : Tensor) :
  imageData req = Some s -> JS.truthy s = true ->
  run env (frameInputs env s) w = (Ok (yolov5, yolov7, tensor), w1) ->
  answer env (Frame req) w
  = afterPasses (run env (predictBoth env yolov5 yolov7 tensor) w1).1.
Proof.
  intros Hdata Htruthy Hrun. unfold frameInputs in Hrun.
  unfold answer, analyzeStream.
  rewrite run_bind, run_call. cbn [fst snd perform].
  rewrite run_try_catch, Hdata, Htruthy. cbn [negb].
  rewrite run_bind in Hrun. rewrite run_bind.
  destruct (run env (Promise_all2 _ _) w) as [[[m5 m7] | e] w2];
    [| discriminate].
  rewrite run_bind in Hrun. rewrite run_bind.
  destruct (run env (frameBuffer env s) w2) as [[buffer | e] w3];
    [| discriminate].
  rewrite run_bind in Hrun. rewrite run_bind.
  destruct (run env (processStreamFrame env _) w3) as [[t | e] w4];
    [| discriminate].
  rewrite run_ret in Hrun. injection Hrun as -> -> -> ->.
  rewrite run_bind.
  destruct (run env (predictBoth env yolov5 yolov7 tensor) w1)
    as [[[a5 a7] | e] w5]; cbn [fst snd].
  - rewrite run_bind, run_call. cbn [fst snd perform]. rewrite run_respond.
    reflexivity.
  - rewrite run_respond. reflexivity.
Qed.

Lemma answer_upload (req : ImageRequest) (file : UploadedFile) (w w1 : World)
    (yolov5 yolov7 : Model) (tensor : Tensor) :
  reqFile req = Some file ->
  run env (uploadInputs env (path_resolve env (uploadPath file))
             (path_resolve env (uploadPath file) ++ "_processed.jpg")) w
  = (Ok (Some (yolov5, yolov7, tensor)), w1) ->
  answer env (Upload req) w
  = afterPasses (run env (predictBoth env yolov5 yolov7 tensor) w1).1.
Proof.
  intros Hfile Hrun. unfold uploadInputs in Hrun.
  unfold answer, analyzeImage.
  rewrite run_bind, run_call. cbn [fst snd perform].
  rewrite Hfile. cbn zeta. rewrite run_try_catch. unfold analyzeUpload.
  set (filePath := path_resolve env (uploadPath file)) in *.
  rewrite run_bind in Hrun. rewrite run_bind.
  destruct (run env (settled (attempt (FsAccess filePath))) w)
    as [[[[] | e0] | e] w2]; try discriminate.
  rewrite run_bind in Hrun. rewrite run_bind.
  destruct (run env (settled (checkImageQuality _ _)) w2)
    as [[[ok | e0] | e] w3]; try discriminate.
  rewrite run_bind in Hrun. rewrite run_bind.
  destruct (run env (attempt (SharpResizeToFile _ _ _)) w3)
    as [[[] | e] w4]; [| discriminate].
  rewrite run_bind in Hrun. rewrite run_bind.
  destruct (run env (Promise_all2 _ _) w4) as [[[m5 m7] | e] w5];
    [| discriminate].
  rewrite run_bind in Hrun. rewrite run_bind.
  destruct (run env (attempt (FsReadFile _)) w5) as [[imageBuffer | e] w6];
    [| discriminate].
  rewrite run_bind in Hrun. rewrite run_bind.
  destruct (run env (preprocessImage _) w6) as [[t | e] w7];
    [| discriminate].
  rewrite run_ret in Hrun. injection Hrun as -> -> -> ->.
  rewrite run_bind.
  destruct (run env (predictBoth env yolov5 yolov7 tensor) w1)
    as [[[a5 a7] | e] w8]; cbn [fst snd].
  - rewrite run_bind, run_call. cbn [fst snd perform]. rewrite run_bind.
    match goal with
    | |- context [run env (detached (cleanupFiles ?l)) ?w0] =>
        destruct (run_cleanupFiles_detached env l w0) as (w9 & -> & _)
    end.
    rewrite run_respond. reflexivity.
  - rewrite run_bind.
    match goal with
    | |- context [run env (detached (cleanupFiles ?l)) ?w0] =>
        destruct (run_cleanupFiles_detached env l w0) as (w9 & -> & _)
    end.
    rewrite run_respond. reflexivity.
Qed.

(** A request that reaches its forward passes is answered with what
    they give. *)
Lemma answer_after_inputs (q : request) (w w1 : World)
    (yolov5 yolov7 : Model) (tensor : Tensor) :
  run env (inputs env q) w = (Ok (Some (yolov5, yolov7, tensor)), w1) ->
  answer env q w
  = afterPasses (run env (predictBoth env yolov5 yolov7 tensor) w1).1.
Proof.
  destruct q as [req | req]; unfold inputs.
  - destruct (reqFile req) as [file |] eqn:Hfile; [| discriminate].
    cbn zeta. apply answer_upload, Hfile.
  - destruct (imageData req) as [s |] eqn:Hdata; [| discriminate].
    destruct (JS.truthy s) eqn:Htruthy; cbn [negb]; [| discriminate].
    rewrite run_bind.
    destruct (run env (frameInputs env s) w) as [[[[m5 m7] t] | e] w2] eqn:Hrun;
      [| discriminate].
    rewrite run_ret. intros [= -> -> -> ->].
    apply (answer_frame req s w w1 yolov5 yolov7 tensor Hdata Htruthy Hrun).
Qed.

End Forward.

Section InputTensor.
Import ModelInitialization ImageProcessor DetectionController Footprint Request.
Context (env : Env).

Local Arguments run env {A} p w : simpl never.

Lemma toBatch_live (buffer : Buffer) (w w1 : World) (t : Tensor) :
  tensorsFresh w ->
  run env (toBatch buffer) w = (Ok t, w1) -> is_Some (tensors w1 !! t).
Proof.
  intros Hfresh Hrun.
  destruct (toBatch_grows env buffer w Hfresh) as (_ & _ & Hcase).
  cbn zeta in Hcase. rewrite Hrun in Hcase. apply Hcase.
Qed.

Lemma processImageBuffer_live (imageBuffer : Buffer) (options : BufferOptions)
    (w w1 : World) (t : Tensor) :
  tensorsFresh w ->
  run env (processImageBuffer imageBuffer options) w = (Ok t, w1) ->
  is_Some (tensors w1 !! t).
Proof.
  intros Hfresh. unfold processImageBuffer.
  rewrite run_try_catch, run_bind, run_attempt. cbn [perform].
  destruct (sharp_resize env imageBuffer _) as [resized | e];
    [| rewrite run_throw; discriminate].
  match goal with
  | |- context [run env (toBatch resized) ?w0] =>
      pose proof (toBatch_live resized w0) as Hlive;
      destruct (run env (toBatch resized) w0) as [[t' | e] w']
  end; cbn [fst snd]; [| rewrite run_throw; discriminate].
  intros [= -> ->]. apply (Hlive _ _ Hfresh eq_refl).
Qed.

Lemma preprocessImage_live (imagePath : string) (w w1 : World) (t : Tensor) :
  tensorsFresh w ->
  run env (preprocessImage imagePath) w = (Ok t, w1) ->
  is_Some (tensors w1 !! t).
Proof.
  intros Hfresh. unfold preprocessImage.
  rewrite run_try_catch, run_bind, run_attempt. cbn [perform].
  destruct (files w !! imagePath) as [imageBuffer |];
    [| rewrite run_throw; discriminate].
  match goal with
  | |- context [run env (toBatch imageBuffer) ?w0] =>
      pose proof (toBatch_live imageBuffer w0) as Hlive;
      destruct (run env (toBatch imageBuffer) w0) as [[t' | e] w']
  end; cbn [fst snd]; [| rewrite run_throw; discriminate].
  intros [= -> ->]. apply (Hlive _ _ Hfresh eq_refl).
Qed.

(** The tensor a request brings to its forward passes is live. *)
Lemma inputs_live (q : request) (w w1 : World) (yolov5 yolov7 : Model)
    (tensor : Tensor) :
  tensorsFresh w ->
  run env (inputs env q) w = (Ok (Some (yolov5, yolov7, tensor)), w1) ->
  is_Some (tensors w1 !! tensor).
Proof.
  intros Hfresh. destruct q as [req | req]; unfold inputs.
  - destruct (reqFile req) as [file |]; [| discriminate].
    cbn zeta. unfold uploadInputs.
    set (filePath := path_resolve env (uploadPath file)).
    rewrite run_bind.
    pose proof (run_fresh env (settled (attempt (FsAccess filePath))) w Hfresh)
      as Hfresh2.
    destruct (run env (settled (attempt (FsAccess filePath))) w)
      as [[[[] | e0] | e] w2]; try discriminate.
    rewrite run_bind.
    pose proof (run_fresh env
                  (settled (checkImageQuality filePath noQualityOptions))
                  w2 Hfresh2) as Hfresh3.
    destruct (run env (settled (checkImageQuality _ _)) w2)
      as [[[ok | e0] | e] w3]; try discriminate.
    rewrite run_bind.
    match goal with
    | |- context [run env (attempt ?op) w3] =>
        pose proof (run_fresh env (attempt op) w3 Hfresh3) as Hfresh4;
        destruct (run env (attempt op) w3) as [[[] | e] w4]; [| discriminate]
    end.
    rewrite run_bind.
    match goal with
    | |- context [run env (Promise_all2 ?p ?p') w4] =>
        pose proof (run_fresh env (Promise_all2 p p') w4 Hfresh4) as Hfresh5;
        destruct (run env (Promise_all2 p p') w4) as [[[m5 m7] | e] w5];
        [| discriminate]
    end.
    rewrite run_bind.
    match goal with
    | |- context [run env (attempt ?op) w5] =>
        pose proof (run_fresh env (attempt op) w5 Hfresh5) as Hfresh6;
        destruct (run env (attempt op) w5) as [[imageBuffer | e] w6];
        [| discriminate]
    end.
    rewrite run_bind.
    match goal with
    | |- context [run env (preprocessImage ?p) w6] =>
        pose proof (preprocessImage_live p w6) as Hlive;
        destruct (run env (preprocessImage p) w6) as [[t | e] w7];
        [| discriminate]
    end.
    rewrite run_ret. intros [= -> -> -> ->].
    apply (Hlive _ _ Hfresh6 eq_refl).
  - destruct (imageData req) as [s |]; [| discriminate].
    destruct (negb (JS.truthy s)); [discriminate |].
    rewrite run_bind. unfold frameInputs. rewrite run_bind.
    match goal with
    | |- context [run env (Promise_all2 ?p ?p') w] =>
        pose proof (run_fresh env (Promise_all2 p p') w Hfresh) as Hfresh2;
        destruct (run env (Promise_all2 p p') w) as [[[m5 m7] | e] w2];
        [| discriminate]
    end.
    rewrite run_bind.
    pose proof (run_fresh env (frameBuffer env s) w2 Hfresh2) as Hfresh3.
    destruct (run env (frameBuffer env s) w2) as [[buffer | e] w3];
      [| discriminate].
    rewrite run_bind. cbn [processStreamFrame].
    match goal with
    | |- context [run env (processImageBuffer ?b ?o) w3] =>
        pose proof (processImageBuffer_live b o w3) as Hlive;
        destruct (run env (processImageBuffer b o) w3) as [[t | e] w4];
        [| discriminate]
    end.
    rewrite !run_ret. intros [= -> -> -> ->].
    apply (Hlive _ _ Hfresh3 eq_refl).
Qed.

End InputTensor.

(** ** C10: the result of two successful forward passes *)

Section BothEntries.
Import ModelInitialization ImageProcessor DetectionController Footprint Request.

(** C10, as the code has it. Take any request, uploaded image or camera
    frame, that gets as far as its forward passes, and let both passes
    succeed on its input tensor with outputs of no more scores than the
    engine takes as arguments of one call. Then the request is answered
    200 with a result that holds both per-model entries, each read off
    its model's output, and a primary entry that is one of the two (same
    disease, confidence and recommendations). When both confidences are
    Numbers, the primary confidence is their maximum. *)
Theorem primary_is_an_entry (env : Env) (q : request) (w w1 : World)
    (yolov5 yolov7 : Model) (tensor : Tensor) (info out5 out7 : TensorInfo) :
  tensorsFresh w ->
  run env (inputs env q) w = (Ok (Some (yolov5, yolov7, tensor)), w1) ->
  tensors w1 !! tensor = Some info ->
  predictOutcome env yolov5 info = Ok out5 ->
  predictOutcome env yolov7 info = Ok out7 ->
  Z.of_nat (length (dataOf out5)) <= argumentLimit env ->
  Z.of_nat (length (dataOf out7)) <= argumentLimit env ->
  let a5 := readPrediction (dataOf out5) in
  let a7 := readPrediction (dataOf out7) in
  exists p,
    answer env q w = Some (mkAnswer 200 (Some (a5, a7, p)) None)
    /\ (p = entryOf "YOLOv5" a5 \/ p = entryOf "YOLOv7" a7)
    /\ forall n5 n7,
         confidence a5 = JS.VNum n5 -> confidence a7 = JS.VNum n7 ->
         exists n,
           primaryConfidence p = JS.VNum n
           /\ (n = n5 \/ n = n7)
           /\ SFleb n5 n = true /\ SFleb n7 n = true.
Proof.
  intros Hfresh Hinputs Hlive H5 H7 Hfits5 Hfits7 a5 a7.
  assert (tensorsFresh w1) as Hfresh1.
  { pose proof (run_fresh env (inputs env q) w Hfresh) as Hf.
    rewrite Hinputs in Hf. exact Hf. }
  exists (selectPrimary a5 a7). split; [| split].
  - rewrite (answer_after_inputs env q w w1 yolov5 yolov7 tensor Hinputs).
    rewrite (predictBoth_reads env yolov5 yolov7 tensor w1 info out5 out7
               Hfresh1 Hlive H5 H7).
    apply Z.ltb_ge in Hfits5, Hfits7. rewrite Hfits5, Hfits7. reflexivity.
  - unfold selectPrimary. destruct (JS.gt _ _); auto.
  - intros n5 n7 Hn5 Hn7. apply selectPrimary_max; auto.
    + apply (readPrediction_confidence _ _ Hn5).
    + apply (readPrediction_confidence _ _ Hn7).
Qed.

Lemma primary_is_an_entry_witness :
  let env := Scenario.clearEnv in
  let q := Upload Scenario.request in
  let w := Scenario.world (Z.to_nat 10240) in
  let yolov5 := mkModel "file:///srv/utils/../models/yolov5/yolov5_model.json" 0 in
  let yolov7 := mkModel "file:///srv/utils/../models/yolov7/yolov7_model.json" 1 in
  let out5 := Scenario.scores [Scenario.quarter; Scenario.dyadic 3 (-2)] in
  let out7 :=
    Scenario.scores [Scenario.quarter; Scenario.quarter; Scenario.half] in
  let a5 := readPrediction (dataOf out5) in
  let a7 := readPrediction (dataOf out7) in
  tensorsFresh w
  /\ (run env (inputs env q) w).1 = Ok (Some (yolov5, yolov7, 6%nat))
  /\ tensors (run env (inputs env q) w).2 !! 6%nat = Some Cases.uploadTensor
  /\ predictOutcome env yolov5 Cases.uploadTensor = Ok out5
  /\ predictOutcome env yolov7 Cases.uploadTensor = Ok out7
  /\ Z.of_nat (length (dataOf out5)) <= argumentLimit env
  /\ Z.of_nat (length (dataOf out7)) <= argumentLimit env
  /\ exists p,
       answer env q w = Some (mkAnswer 200 (Some (a5, a7, p)) None)
       /\ (p = entryOf "YOLOv5" a5 \/ p = entryOf "YOLOv7" a7)
       /\ forall n5 n7,
            confidence a5 = JS.VNum n5 -> confidence a7 = JS.VNum n7 ->
            exists n,
              primaryConfidence p = JS.VNum n
              /\ (n = n5 \/ n = n7)
              /\ SFleb n5 n = true /\ SFleb n7 n = true.
Proof.
  set (env := Scenario.clearEnv).
  set (q := Upload Scenario.request).
  set (w := Scenario.world (Z.to_nat 10240)).
  set (yolov5 := mkModel "file:///srv/utils/../models/yolov5/yolov5_model.json" 0).
  set (yolov7 := mkModel "file:///srv/utils/../models/yolov7/yolov7_model.json" 1).
  set (out5 := Scenario.scores [Scenario.quarter; Scenario.dyadic 3 (-2)]).
  set (out7 :=
         Scenario.scores [Scenario.quarter; Scenario.quarter; Scenario.half]).
  assert (tensorsFresh w) as Hfresh.
  { intros t [info Hlive]. cbn in Hlive. rewrite lookup_empty in Hlive.
    discriminate Hlive. }
  assert ((run env (inputs env q) w).1 = Ok (Some (yolov5, yolov7, 6%nat)))
    as Hresult by (vm_compute; reflexivity).
  assert (tensors (run env (inputs env q) w).2 !! 6%nat
          = Some Cases.uploadTensor) as Hlive by (vm_compute; reflexivity).
  assert (predictOutcome env yolov5 Cases.uploadTensor = Ok out5) as H5
    by reflexivity.
  assert (predictOutcome env yolov7 Cases.uploadTensor = Ok out7) as H7
    by reflexivity.
  assert (Z.of_nat (length (dataOf out5)) <= argumentLimit env) as Hfits5
    by (vm_compute; discriminate).
  assert (Z.of_nat (length (dataOf out7)) <= argumentLimit env) as Hfits7
    by (vm_compute; discriminate).
  assert (run env (inputs env q) w
          = (Ok (Some (yolov5, yolov7, 6%nat)), (run env (inputs env q) w).2))
    as Hinputs.
  { rewrite <- Hresult. destruct (run env (inputs env q) w). reflexivity. }
  repeat (split; [assumption |]).
  exact (primary_is_an_entry env q w _ yolov5 yolov7 6%nat Cases.uploadTensor
           out5 out7 Hfresh Hinputs Hlive H5 H7 Hfits5 Hfits7).
Defined.

End BothEntries.

(** X24. A request whose forward passes both succeed but one of whose
    outputs holds more scores than the engine takes as arguments of one
    call is answered 500, without a result, with the RangeError of
    [Math.max(...data)] as its error. *)
Theorem oversized_output_fails_request (env : Env) (q : Request.request)
    (w w1 : World) (yolov5 yolov7 : Model) (tensor : Tensor)
    (info out5 out7 : TensorInfo) :
  Footprint.tensorsFresh w ->
  run env (Request.inputs env q) w
  = (Ok (Some (yolov5, yolov7, tensor)), w1) ->
  tensors w1 !! tensor = Some info ->
  predictOutcome env yolov5 info = Ok out5 ->
  predictOutcome env yolov7 info = Ok out7 ->
  argumentLimit env < Z.of_nat (length (dataOf out5))
  \/ argumentLimit env < Z.of_nat (length (dataOf out7)) ->
  Request.answer env q w
  = Some (Request.mkAnswer 500 None (Some "Maximum call stack size exceeded")).
Proof.
  intros Hfresh Hinputs Hlive H5 H7 Hover.
  assert (Footprint.tensorsFresh w1) as Hfresh1.
  { pose proof (run_fresh env (Request.inputs env q) w Hfresh) as Hf.
    rewrite Hinputs in Hf. exact Hf. }
  rewrite (answer_after_inputs env q w w1 yolov5 yolov7 tensor Hinputs).
  rewrite (predictBoth_reads env yolov5 yolov7 tensor w1 info out5 out7
             Hfresh1 Hlive H5 H7).
  assert ((argumentLimit env <? Z.of_nat (length (dataOf out5)))
          || (argumentLimit env <? Z.of_nat (length (dataOf out7))) = true)
    as ->.
  { apply orb_true_iff.
    destruct Hover as [Hover | Hover]; [left | right]; apply Z.ltb_lt, Hover. }
  reflexivity.
Qed.

Lemma oversized_output_fails_request_witness :
  let env := Cases.narrowEnv in
  let q := Request.Upload Scenario.request in
  let w := Scenario.world (Z.to_nat 10240) in
  let yolov5 := mkModel "file:///srv/utils/../models/yolov5/yolov5_model.json" 0 in
  let yolov7 := mkModel "file:///srv/utils/../models/yolov7/yolov7_model.json" 1 in
  let out5 := Scenario.scores [Scenario.quarter; Scenario.half] in
  let out7 :=
    Scenario.scores [Scenario.quarter; Scenario.quarter; Scenario.half] in
  Footprint.tensorsFresh w
  /\ (run env (Request.inputs env q) w).1 = Ok (Some (yolov5, yolov7, 6%nat))
  /\ tensors (run env (Request.inputs env q) w).2 !! 6%nat
     = Some Cases.uploadTensor
  /\ predictOutcome env yolov5 Cases.uploadTensor = Ok out5
  /\ predictOutcome env yolov7 Cases.uploadTensor = Ok out7
  /\ (argumentLimit env < Z.of_nat (length (dataOf out5))
      \/ argumentLimit env < Z.of_nat (length (dataOf out7)))
  /\ Request.answer env q w
     = Some (Request.mkAnswer 500 None
               (Some "Maximum call stack size exceeded")).
Proof.
  set (env := Cases.narrowEnv).
  set (q := Request.Upload Scenario.request).
  set (w := Scenario.world (Z.to_nat 10240)).
  set (yolov5 := mkModel "file:///srv/utils/../models/yolov5/yolov5_model.json" 0).
  set (yolov7 := mkModel "file:///srv/utils/../models/yolov7/yolov7_model.json" 1).
  set (out5 := Scenario.scores [Scenario.quarter; Scenario.half]).
  set (out7 :=
         Scenario.scores [Scenario.quarter; Scenario.quarter; Scenario.half]).
  assert (Footprint.tensorsFresh w) as Hfresh.
  { intros t [info Hlive]. cbn in Hlive. rewrite lookup_empty in Hlive.
    discriminate Hlive. }
  assert ((run env (Request.inputs env q) w).1
          = Ok (Some (yolov5, yolov7, 6%nat)))
    as Hresult by (vm_compute; reflexivity).
  assert (tensors (run env (Request.inputs env q) w).2 !! 6%nat
          = Some Cases.uploadTensor) as Hlive by (vm_compute; reflexivity).
  assert (predictOutcome env yolov5 Cases.uploadTensor = Ok out5) as H5
    by reflexivity.
  assert (predictOutcome env yolov7 Cases.uploadTensor = Ok out7) as H7
    by reflexivity.
  assert (argumentLimit env < Z.of_nat (length (dataOf out5))
          \/ argumentLimit env < Z.of_nat (length (dataOf out7))) as Hover
    by (right; vm_compute; reflexivity).
  assert (run env (Request.inputs env q) w
          = (Ok (Some (yolov5, yolov7, 6%nat)),
             (run env (Request.inputs env q) w).2)) as Hinputs.
  { rewrite <- Hresult. destruct (run env (Request.inputs env q) w).
    reflexivity. }
  repeat (split; [assumption |]).
  exact (oversized_output_fails_request env q w _ yolov5 yolov7 6%nat
           Cases.uploadTensor out5 out7 Hfresh Hinputs Hlive H5 H7 Hover).
Defined.
